(** * Credential and session lifecycle of the Learning Platform

    A shallow embedding of the authentication core of the repository:

    - the TypeORM entities [User], [VerificationToken], [SocialAccount]
      (server/src/entities) and the password-reset token entity;
    - the server [AuthService] (register, login, verifyEmail,
      resendVerificationEmail, forgotPassword, resetPassword, socialAuth,
      refreshTokens, generateTokens);
    - the [AuthController] HTTP layer and the [authenticate] middleware;
    - the browser [AuthService] (axios interceptors, token storage and the
      proactive refresh timer), as an event-driven transition system.

    Conventions.  A JavaScript [Date] is its time value, an integer number of
    milliseconds ([Z]).  Strings are Rocq strings.  JSON Web Tokens are kept
    symbolic: a token is either a signed record or an opaque string that does
    not parse.  Asynchronous server code is sequential per request and is
    written in a state-and-exception monad over the database; a [throw]
    keeps the writes made before it, exactly as the source does (there is no
    transaction in the service). *)

From Stdlib Require Import ZArith String Ascii List Bool Lia.
From stdpp Require Import base decidable option list strings gmap pretty.

Import ListNotations.
Local Open Scope string_scope.
Local Open Scope Z_scope.

(** ** JSON values, as written by [res.json] *)

(** A signed JSON Web Token, seen through its decoded content. *)
Record JwtClaims := mkClaims {
  claim_id : string;
  claim_email : option string;
  claim_role : option string
}.

Inductive Jwt :=
| JwtSigned (secret : string) (claims : JwtClaims) (iat exp : Z)
| JwtOpaque (raw : string).

#[warnings="-register-all"]
Inductive Json :=
| JNull
| JBool (b : bool)
| JNum (n : Z)
| JStr (s : string)
| JDate (ms : Z)
| JJwt (t : Jwt)
| JArr (items : list Json)
| JObj (fields : list (string * Json)).

Definition json_keys (j : Json) : list string :=
  match j with
  | JObj fields => map fst fields
  | _ => []
  end.

Fixpoint assoc_get (k : string) (fields : list (string * Json)) : option Json :=
  match fields with
  | [] => None
  | (k', v) :: rest => if String.eqb k k' then Some v else assoc_get k rest
  end.

(** [obj[k]]: [None] is JavaScript's [undefined]. *)
Definition json_get (k : string) (j : Json) : option Json :=
  match j with
  | JObj fields => assoc_get k fields
  | _ => None
  end.

Definition has_key (k : string) (j : Json) : bool :=
  match json_get k j with Some _ => true | None => false end.

(** Object rest destructuring [const { k, ...rest } = obj]. *)
Definition omit_key (k : string) (fields : list (string * Json)) : list (string * Json) :=
  List.filter (fun kv => negb (String.eqb (fst kv) k)) fields.



(** ** Time *)

Module Time.
(** [24 * 60 * 60 * 1000] *)
Definition day_ms : Z := 24 * 60 * 60 * 1000.
(** one hour, in milliseconds *)
Definition hour_ms : Z := 60 * 60 * 1000.
End Time.

(** ** Entities *)

(** server/src/entities/User.ts *)
Inductive UserRole := STUDENT | INSTRUCTOR | ADMIN.

Definition UserRole_value (r : UserRole) : string :=
  match r with
  | STUDENT => "student"
  | INSTRUCTOR => "instructor"
  | ADMIN => "admin"
  end.

Definition UserRole_eqb (a b : UserRole) : bool :=
  match a, b with
  | STUDENT, STUDENT | INSTRUCTOR, INSTRUCTOR | ADMIN, ADMIN => true
  | _, _ => false
  end.

Module User.
(** A [User] object in memory.  [id], [createdAt] and [updatedAt] are
    [None] until the row is inserted; [password] is [None] when the column
    was not selected ([select: false]) or not given. *)
Record t := mk {
  id : option string;
  username : string;
  email : string;
  firstName : string;
  lastName : string;
  password : option string;
  role : UserRole;
  avatar : option string;
  isVerified : bool;
  isActive : bool;
  isLocked : bool;
  lastLogin : option Z;
  createdAt : option Z;
  updatedAt : option Z
}.

Definition set_id (v : option string) (u : t) : t :=
  mk v (username u) (email u) (firstName u) (lastName u) (password u) (role u)
     (avatar u) (isVerified u) (isActive u) (isLocked u) (lastLogin u)
     (createdAt u) (updatedAt u).

Definition set_password (v : option string) (u : t) : t :=
  mk (id u) (username u) (email u) (firstName u) (lastName u) v (role u)
     (avatar u) (isVerified u) (isActive u) (isLocked u) (lastLogin u)
     (createdAt u) (updatedAt u).

Definition set_isVerified (v : bool) (u : t) : t :=
  mk (id u) (username u) (email u) (firstName u) (lastName u) (password u) (role u)
     (avatar u) v (isActive u) (isLocked u) (lastLogin u)
     (createdAt u) (updatedAt u).

Definition set_lastLogin (v : option Z) (u : t) : t :=
  mk (id u) (username u) (email u) (firstName u) (lastName u) (password u) (role u)
     (avatar u) (isVerified u) (isActive u) (isLocked u) v
     (createdAt u) (updatedAt u).

Definition set_createdAt (v : option Z) (u : t) : t :=
  mk (id u) (username u) (email u) (firstName u) (lastName u) (password u) (role u)
     (avatar u) (isVerified u) (isActive u) (isLocked u) (lastLogin u)
     v (updatedAt u).

Definition set_updatedAt (v : option Z) (u : t) : t :=
  mk (id u) (username u) (email u) (firstName u) (lastName u) (password u) (role u)
     (avatar u) (isVerified u) (isActive u) (isLocked u) (lastLogin u)
     (createdAt u) v.

Definition opt_json {A} (f : A -> Json) (o : option A) : Json :=
  match o with Some a => f a | None => JNull end.

(** The own enumerable properties of the object, as [JSON.stringify] and
    object spread see them: an [undefined] property is absent. *)
Definition own_properties (u : t) : list (string * Json) :=
  match id u with Some i => [("id", JStr i)] | None => [] end ++
  [ ("username", JStr (username u));
    ("email", JStr (email u));
    ("firstName", JStr (firstName u));
    ("lastName", JStr (lastName u)) ] ++
  match password u with Some p => [("password", JStr p)] | None => [] end ++
  [ ("role", JStr (UserRole_value (role u)));
    ("avatar", opt_json JStr (avatar u));
    ("isVerified", JBool (isVerified u));
    ("isActive", JBool (isActive u));
    ("isLocked", JBool (isLocked u));
    ("lastLogin", opt_json JDate (lastLogin u)) ] ++
  match createdAt u with Some d => [("createdAt", JDate d)] | None => [] end ++
  match updatedAt u with Some d => [("updatedAt", JDate d)] | None => [] end.

(** [res.json(user)] on the entity itself. *)
Definition toJSON (u : t) : Json := JObj (own_properties u).

(** [toResponseObject]: [const { password, ...userWithoutPassword } = this]. *)
Definition toResponseObject (u : t) : Json :=
  JObj (omit_key "password" (own_properties u)).
End User.

(** server/src/entities/VerificationToken.ts *)
Module VerificationToken.
Record t := mk {
  id : option string;
  token : string;
  expiresAt : Z;
  isUsed : bool;
  createdAt : option Z;
  userId : string
}.

Definition set_isUsed (v : bool) (x : t) : t :=
  mk (id x) (token x) (expiresAt x) v (createdAt x) (userId x).

(** [@BeforeInsert generateToken]: [random] is
    [crypto.randomBytes(32).toString('hex')], [now] is [new Date()]. *)
Definition generateToken (random : string) (now : Z) (x : t) : t :=
  mk (id x) random (now + 24 * 60 * 60 * 1000) (isUsed x) (createdAt x) (userId x).

(** [new Date() > this.expiresAt] *)
Definition isExpired (x : t) (now : Z) : bool := expiresAt x <? now.

(** [!this.isUsed && !this.isExpired()] *)
Definition isValid (x : t) (now : Z) : bool :=
  negb (isUsed x) && negb (isExpired x now).
End VerificationToken.

(** Modelled from the spec: the [PasswordReset] entity
    (server/src/entities/PasswordReset.ts) is imported by the service but is
    not among the sources.  The spec gives it the same fields as the
    verification token, an expiry of one hour after creation, and the
    validity rule [!isUsed && now <= expiresAt]. *)
Module PasswordReset.
Record t := mk {
  id : option string;
  token : string;
  expiresAt : Z;
  isUsed : bool;
  createdAt : option Z;
  userId : string
}.

Definition set_isUsed (v : bool) (x : t) : t :=
  mk (id x) (token x) (expiresAt x) v (createdAt x) (userId x).

Definition generateToken (random : string) (now : Z) (x : t) : t :=
  mk (id x) random (now + 60 * 60 * 1000) (isUsed x) (createdAt x) (userId x).

Definition isExpired (x : t) (now : Z) : bool := expiresAt x <? now.

Definition isValid (x : t) (now : Z) : bool :=
  negb (isUsed x) && negb (isExpired x now).
End PasswordReset.

(** server/src/entities/SocialAccount.ts *)
Inductive SocialProvider := GOOGLE | FACEBOOK | GITHUB.

Definition SocialProvider_value (p : SocialProvider) : string :=
  match p with
  | GOOGLE => "google"
  | FACEBOOK => "facebook"
  | GITHUB => "github"
  end.

Definition SocialProvider_eqb (a b : SocialProvider) : bool :=
  match a, b with
  | GOOGLE, GOOGLE | FACEBOOK, FACEBOOK | GITHUB, GITHUB => true
  | _, _ => false
  end.

(** [Object.values(SocialProvider).includes(provider)] on the route
    parameter. *)
Definition SocialProvider_parse (s : string) : option SocialProvider :=
  if String.eqb s "google" then Some GOOGLE
  else if String.eqb s "facebook" then Some FACEBOOK
  else if String.eqb s "github" then Some GITHUB
  else None.

(** The [profile] blob of a social login.  The service reads [id] and
    [email] and the optional name fields; the record is stored as it came. *)
Record Profile := mkProfile {
  profile_id : string;
  profile_email : string;
  profile_firstName : option string;
  profile_given_name : option string;
  profile_lastName : option string;
  profile_family_name : option string;
  profile_name : option string
}.

Module SocialAccount.
Record t := mk {
  id : option string;
  provider : SocialProvider;
  providerId : string;
  accessToken : option string;
  refreshToken : option string;
  profile : option Profile;
  createdAt : option Z;
  updatedAt : option Z;
  userId : string
}.

(** [!!this.accessToken] *)
Definition hasValidTokens (a : t) : bool :=
  match accessToken a with
  | Some s => negb (String.eqb s "")
  | None => false
  end.
End SocialAccount.

(** ** Configuration and library collaborators *)

(** [process.env], for the variables the core reads.  The three lifetimes
    are kept parsed: [access_lifetime] is the number of seconds that
    [JWT_EXPIRES_IN || '1h'] denotes, [refresh_lifetime] the one of
    [JWT_REFRESH_EXPIRES_IN || '7d'], and [expires_in_seconds] is
    [parseInt(JWT_EXPIRES_IN_SECONDS || '3600', 10)]. *)
Record Env := mkEnv {
  REQUIRE_EMAIL_VERIFICATION : option string;
  NODE_ENV : option string;
  JWT_SECRET : option string;
  JWT_REFRESH_SECRET : option string;
  access_lifetime : Z;
  refresh_lifetime : Z;
  expires_in_seconds : Z
}.

(** [process.env.X || d]: an unset or empty variable falls back to [d]. *)
Definition env_or (o : option string) (d : string) : string :=
  match o with
  | Some s => if String.eqb s "" then d else s
  | None => d
  end.

(** [process.env.X === v] *)
Definition env_is (o : option string) (v : string) : bool :=
  match o with
  | Some s => String.eqb s v
  | None => false
  end.

Definition default_env : Env :=
  mkEnv None None None None 3600 (7 * 24 * 3600) 3600.

(** A message handed to the mail transport. *)
Inductive EmailKind := VerificationEmail | PasswordResetEmail.

Record Email := mkEmail {
  email_to : string;
  email_kind : EmailKind;
  email_token : string
}.

(** The libraries the core calls and that are not part of the repository:
    bcryptjs, validator.js, nodemailer and the sources of randomness.  Random
    draws are indexed by a counter kept in the database state. *)
Class Platform := {
  (** [bcrypt.hash(password, salt)] *)
  bcrypt_hash : string -> string -> string;
  (** [bcrypt.compare(candidate, hash)] *)
  bcrypt_compare : string -> string -> bool;
  (** [bcrypt.genSalt(10)] *)
  bcrypt_genSalt : nat -> string;
  (** express-validator's [isEmail()] *)
  isEmail : string -> bool;
  (** the uuid of a [PrimaryGeneratedColumn('uuid')] *)
  uuid : nat -> string;
  (** [crypto.randomBytes(32).toString('hex')] *)
  randomBytes32_hex : nat -> string;
  (** [Math.floor(Math.random() * 1000)] *)
  random_below_1000 : nat -> Z;
  (** [Math.random().toString(36).slice(-10)] *)
  random_base36_tail : nat -> string;
  (** [transporter.sendMail(mailOptions)]: [None] when the transport takes
      the message, the message of the error it rejects with otherwise.  What
      the transport does may change from one moment to the next; the moment
      is given by the counter of draws. *)
  transporter_sendMail : nat -> Email -> option string
}.

(** ** Errors, database state and the service monad *)

Record JsError := mkJsError {
  err_name : string;
  err_message : string
}.

(** [new Error(message)] *)
Definition Error (message : string) : JsError := mkJsError "Error" message.
Definition TypeError (message : string) : JsError := mkJsError "TypeError" message.

Record World := mkWorld {
  users : list User.t;
  verification_tokens : list VerificationToken.t;
  password_resets : list PasswordReset.t;
  social_accounts : list SocialAccount.t;
  outbox : list Email;
  draws : nat
}.

Definition set_users (v : list User.t) (w : World) : World :=
  mkWorld v (verification_tokens w) (password_resets w) (social_accounts w)
          (outbox w) (draws w).
Definition set_verification_tokens (v : list VerificationToken.t) (w : World) : World :=
  mkWorld (users w) v (password_resets w) (social_accounts w) (outbox w) (draws w).
Definition set_password_resets (v : list PasswordReset.t) (w : World) : World :=
  mkWorld (users w) (verification_tokens w) v (social_accounts w) (outbox w) (draws w).
Definition set_social_accounts (v : list SocialAccount.t) (w : World) : World :=
  mkWorld (users w) (verification_tokens w) (password_resets w) v (outbox w) (draws w).
Definition set_outbox (v : list Email) (w : World) : World :=
  mkWorld (users w) (verification_tokens w) (password_resets w) (social_accounts w)
          v (draws w).
Definition set_draws (v : nat) (w : World) : World :=
  mkWorld (users w) (verification_tokens w) (password_resets w) (social_accounts w)
          (outbox w) v.

Inductive Outcome (A : Type) :=
| Ok (a : A)
| Throw (e : JsError).
Arguments Ok {A} a.
Arguments Throw {A} e.

Definition M (A : Type) : Type := World -> Outcome A * World.

Definition ret {A} (a : A) : M A := fun w => (Ok a, w).

Definition bind {A B} (c : M A) (k : A -> M B) : M B :=
  fun w =>
    match c w with
    | (Ok a, w') => k a w'
    | (Throw e, w') => (Throw e, w')
    end.

Definition throw {A} (e : JsError) : M A := fun w => (Throw e, w).

(** [try { c } catch (error) { h error }] *)
Definition try_catch {A} (c : M A) (h : JsError -> M A) : M A :=
  fun w =>
    match c w with
    | (Ok a, w') => (Ok a, w')
    | (Throw e, w') => h e w'
    end.

Definition get_world : M World := fun w => (Ok w, w).
Definition modify_world (f : World -> World) : M unit := fun w => (Ok tt, f w).

Notation "'let*' x ':=' c 'in' k" := (bind c (fun x => k))
  (at level 10, x pattern, c at level 100, k at level 200).
Notation "c ';;' k" := (bind c (fun _ => k))
  (at level 100, k at level 200, right associativity).

(** [if (cond) throw e] *)
Definition throw_if (cond : bool) (e : JsError) : M unit :=
  if cond then throw e else ret tt.

Definition is_Some_bool {A} (o : option A) : bool :=
  match o with Some _ => true | None => false end.

Definition is_ok {A} (o : Outcome A) : bool :=
  match o with Ok _ => true | Throw _ => false end.

(** ** jsonwebtoken *)

(** [jwt.sign(claims, secret, { expiresIn })] at clock [now] (milliseconds):
    [iat] is the clock in whole seconds, [exp] is [iat] plus the lifetime. *)
Definition jwt_sign (claims : JwtClaims) (secret : string) (lifetime now : Z) : Jwt :=
  let iat := now / 1000 in
  JwtSigned secret claims iat (iat + lifetime).

(** [jwt.verify(token, secret)]: a token that does not parse or whose
    signature does not match throws [JsonWebTokenError]; a token whose [exp]
    is not after the clock throws [TokenExpiredError]. *)
Definition jwt_verify (token : Jwt) (secret : string) (now : Z) : Outcome JwtClaims :=
  match token with
  | JwtOpaque _ => Throw (mkJsError "JsonWebTokenError" "jwt malformed")
  | JwtSigned s claims _ exp =>
      if negb (String.eqb s secret)
      then Throw (mkJsError "JsonWebTokenError" "invalid signature")
      else if exp <=? now / 1000
      then Throw (mkJsError "TokenExpiredError" "jwt expired")
      else Ok claims
  end.

(** ** String helpers *)

(** [s.split(c)[0]] *)
Fixpoint before_first (c : ascii) (s : string) : string :=
  match s with
  | EmptyString => EmptyString
  | String a rest => if Ascii.eqb a c then EmptyString else String a (before_first c rest)
  end.

(** [s.split(c).slice(1).join(c)] *)
Fixpoint after_first (c : ascii) (s : string) : string :=
  match s with
  | EmptyString => EmptyString
  | String a rest => if Ascii.eqb a c then rest else after_first c rest
  end.

(** The operand of [||]: [undefined] and the empty string are falsy. *)
Definition truthy (o : option string) : option string :=
  match o with
  | Some s => if String.eqb s "" then None else Some s
  | None => None
  end.

Definition or_else (o : option string) (rest : string) : string :=
  match truthy o with Some s => s | None => rest end.

(** ** Repositories *)

Section Repositories.
Context {P : Platform}.

(** The next random draw. *)
Definition draw {A} (f : nat -> A) : M A :=
  fun w => (Ok (f (draws w)), set_draws (S (draws w)) w).

Definition strip_password (u : User.t) : User.t := User.set_password None u.

Definition user_has_id (i : string) (u : User.t) : bool :=
  match User.id u with
  | Some j => String.eqb j i
  | None => false
  end.

Definition id_of (u : User.t) : string := default "" (User.id u).

(** [userRepository.findOne({ email })]: the password column is not
    selected. *)
Definition user_findOne_by_email (e : string) : M (option User.t) :=
  let* w := get_world in
  ret (option_map strip_password
         (List.find (fun u => String.eqb (User.email u) e) (users w))).

(** [userRepository.findOne({ username })] *)
Definition user_findOne_by_username (n : string) : M (option User.t) :=
  let* w := get_world in
  ret (option_map strip_password
         (List.find (fun u => String.eqb (User.username u) n) (users w))).

(** [userRepository.findOne(id)] *)
Definition user_findOne (i : string) : M (option User.t) :=
  let* w := get_world in
  ret (option_map strip_password (List.find (user_has_id i) (users w))).

(** [createQueryBuilder('user').addSelect('user.password')
      .where('user.email = :email').getOne()] *)
Definition user_getOne_with_password_by_email (e : string) : M (option User.t) :=
  let* w := get_world in
  ret (List.find (fun u => String.eqb (User.email u) e) (users w)).

(** [@BeforeInsert @BeforeUpdate hashPassword]: only a truthy password is
    hashed. *)
Definition hashPassword (u : User.t) : M User.t :=
  match truthy (User.password u) with
  | Some p =>
      let* salt := draw bcrypt_genSalt in
      ret (User.set_password (Some (bcrypt_hash p salt)) u)
  | None => ret u
  end.

(** The columns an update writes: every defined property of the object;
    an unselected password keeps the stored one. *)
Definition merge_user (row ent : User.t) : User.t :=
  match User.password ent with
  | Some _ => ent
  | None => User.set_password (User.password row) ent
  end.

(** A stored row has the username or the email of [u]: both columns are
    declared [unique: true]. *)
Definition violates_unique (u : User.t) (rows : list User.t) : bool :=
  existsb (fun row => String.eqb (User.username row) (User.username u)
                      || String.eqb (User.email row) (User.email u)) rows.

(** The [INSERT] of a new row: the database refuses a missing password
    (the column is not nullable) and a username or email that a stored row
    already has. *)
Definition insert_user (u : User.t) (now : Z) : M User.t :=
  match User.password u with
  | None => throw (mkJsError "QueryFailedError" "null value in column password")
  | Some _ =>
      let* w := get_world in
      if violates_unique u (users w)
      then throw (mkJsError "QueryFailedError"
                            "duplicate key value violates unique constraint")
      else
        let row := User.set_createdAt (Some now) (User.set_updatedAt (Some now) u) in
        modify_world (fun w => set_users (users w ++ [row]) w);;
        ret row
  end.

(** [userRepository.save(user)]: the entity hook runs, then the row with
    the object's id is updated, or a row is inserted under a fresh uuid.
    The returned value is the object after the call (the source mutates it
    in place). *)
Definition user_save (u : User.t) (now : Z) : M User.t :=
  let* u1 := hashPassword u in
  let* w := get_world in
  match User.id u1 with
  | Some i =>
      if existsb (user_has_id i) (users w)
      then
        let u2 := User.set_updatedAt (Some now) u1 in
        modify_world
          (set_users (map (fun row => if user_has_id i row then merge_user row u2 else row)
                          (users w)));;
        ret u2
      else insert_user u1 now
  | None =>
      let* i := draw uuid in
      insert_user (User.set_id (Some i) u1) now
  end.

(** [tokenRepository.save(tokenRepository.create({ user }))] *)
Definition verification_token_create (user : User.t) (now : Z) : M VerificationToken.t :=
  let* random := draw randomBytes32_hex in
  let fresh := VerificationToken.mk None "" 0 false None (id_of user) in
  let hooked := VerificationToken.generateToken random now fresh in
  let* i := draw uuid in
  let row := VerificationToken.mk (Some i) (VerificationToken.token hooked)
               (VerificationToken.expiresAt hooked) (VerificationToken.isUsed hooked)
               (Some now) (VerificationToken.userId hooked) in
  modify_world (fun w => set_verification_tokens (verification_tokens w ++ [row]) w);;
  ret row.

Definition same_id (a b : option string) : bool :=
  match a, b with
  | Some x, Some y => String.eqb x y
  | _, _ => false
  end.

(** [tokenRepository.save(verificationToken)] on a loaded row *)
Definition verification_token_save (x : VerificationToken.t) : M unit :=
  modify_world (fun w =>
    set_verification_tokens
      (map (fun row => if same_id (VerificationToken.id row) (VerificationToken.id x)
                       then x else row)
           (verification_tokens w)) w).

(** [tokenRepository.findOne({ where: { token }, relations: ['user'] })]:
    the row and its joined user ([None] is a [null] relation). *)
Definition verification_token_findOne (value : string)
  : M (option (VerificationToken.t * option User.t)) :=
  let* w := get_world in
  match List.find (fun x => String.eqb (VerificationToken.token x) value)
                  (verification_tokens w) with
  | Some x =>
      let* u := user_findOne (VerificationToken.userId x) in
      ret (Some (x, u))
  | None => ret None
  end.

(** [resetRepository.save(resetRepository.create({ user }))] *)
Definition password_reset_create (user : User.t) (now : Z) : M PasswordReset.t :=
  let* random := draw randomBytes32_hex in
  let fresh := PasswordReset.mk None "" 0 false None (id_of user) in
  let hooked := PasswordReset.generateToken random now fresh in
  let* i := draw uuid in
  let row := PasswordReset.mk (Some i) (PasswordReset.token hooked)
               (PasswordReset.expiresAt hooked) (PasswordReset.isUsed hooked)
               (Some now) (PasswordReset.userId hooked) in
  modify_world (fun w => set_password_resets (password_resets w ++ [row]) w);;
  ret row.

Definition password_reset_save (x : PasswordReset.t) : M unit :=
  modify_world (fun w =>
    set_password_resets
      (map (fun row => if same_id (PasswordReset.id row) (PasswordReset.id x)
                       then x else row)
           (password_resets w)) w).

Definition password_reset_findOne (value : string)
  : M (option (PasswordReset.t * option User.t)) :=
  let* w := get_world in
  match List.find (fun x => String.eqb (PasswordReset.token x) value)
                  (password_resets w) with
  | Some x =>
      let* u := user_findOne (PasswordReset.userId x) in
      ret (Some (x, u))
  | None => ret None
  end.

(** [socialRepository.findOne({ where: { provider, providerId },
      relations: ['user'] })] *)
Definition social_findOne (p : SocialProvider) (pid : string)
  : M (option (SocialAccount.t * option User.t)) :=
  let* w := get_world in
  match List.find (fun a => SocialProvider_eqb (SocialAccount.provider a) p
                            && String.eqb (SocialAccount.providerId a) pid)
                  (social_accounts w) with
  | Some a =>
      let* u := user_findOne (SocialAccount.userId a) in
      ret (Some (a, u))
  | None => ret None
  end.

(** [socialRepository.save(socialRepository.create({ provider, providerId,
      user, accessToken, profile }))] *)
Definition social_create (p : SocialProvider) (pid : string) (user : User.t)
           (token : string) (profile : Profile) (now : Z) : M SocialAccount.t :=
  let* i := draw uuid in
  let row := SocialAccount.mk (Some i) p pid (Some token) None (Some profile)
               (Some now) (Some now) (id_of user) in
  modify_world (fun w => set_social_accounts (social_accounts w ++ [row]) w);;
  ret row.

(** [EmailService.sendEmail]: the message is handed to the transport; an
    error of the transport is caught and thrown again as
    [new Error(`Failed to send email: ${error.message}`)].  The outbox holds
    the messages the transport took. *)
Definition sendEmail (message : Email) : M unit :=
  let* w := get_world in
  match transporter_sendMail (draws w) message with
  | None => modify_world (fun w => set_outbox (outbox w ++ [message]) w)
  | Some reason => throw (Error ("Failed to send email: " +:+ reason))
  end.

(** [EmailService.sendVerificationEmail(user, token)] *)
Definition sendVerificationEmail (user : User.t) (token : string) : M unit :=
  sendEmail (mkEmail (User.email user) VerificationEmail token).

(** [EmailService.sendPasswordResetEmail(user, token)] *)
Definition sendPasswordResetEmail (user : User.t) (token : string) : M unit :=
  sendEmail (mkEmail (User.email user) PasswordResetEmail token).
End Repositories.

(** ** The server AuthService (server/src/services/auth.service.ts) *)

Record RegisterUserDto := mkRegisterUserDto {
  reg_username : string;
  reg_email : string;
  reg_password : string;
  reg_firstName : string;
  reg_lastName : string
}.

Record LoginUserDto := mkLoginUserDto {
  login_email : string;
  login_password : string
}.

Record ResetPasswordDto := mkResetPasswordDto {
  reset_token : string;
  reset_password : string;
  reset_confirmPassword : string
}.

Record SocialAuthDto := mkSocialAuthDto {
  social_provider : SocialProvider;
  social_token : string;
  social_profile : option Profile
}.

Record AuthTokens := mkAuthTokens {
  accessToken : Jwt;
  refreshToken : Jwt;
  expiresIn : Z
}.

Module AuthService.
Section Service.
Context {P : Platform}.
Variable env : Env.

Definition access_secret : string := env_or (JWT_SECRET env) "your-secret-key".
Definition refresh_secret : string := env_or (JWT_REFRESH_SECRET env) "refresh-secret".

(** [generateTokens(user)] *)
Definition generateTokens (user : User.t) (now : Z) : AuthTokens :=
  mkAuthTokens
    (jwt_sign (mkClaims (id_of user) (Some (User.email user))
                        (Some (UserRole_value (User.role user))))
              access_secret (access_lifetime env) now)
    (jwt_sign (mkClaims (id_of user) None None)
              refresh_secret (refresh_lifetime env) now)
    (expires_in_seconds env).

(** [register(userData)] *)
Definition register (userData : RegisterUserDto) (now : Z) : M (User.t * AuthTokens) :=
  let* existingEmail := user_findOne_by_email (reg_email userData) in
  throw_if (is_Some_bool existingEmail) (Error "Email already exists");;
  let* existingUsername := user_findOne_by_username (reg_username userData) in
  throw_if (is_Some_bool existingUsername) (Error "Username already exists");;
  let created :=
    User.mk None (reg_username userData) (reg_email userData)
            (reg_firstName userData) (reg_lastName userData)
            (Some (reg_password userData)) STUDENT None false true false
            None None None in
  let* user := user_save created now in
  let* verificationToken := verification_token_create user now in
  sendVerificationEmail user (VerificationToken.token verificationToken);;
  ret (user, generateTokens user now).

(** [user.comparePassword(candidate)] *)
Definition comparePassword (user : User.t) (candidate : string) : M bool :=
  match User.password user with
  | Some h => ret (bcrypt_compare candidate h)
  | None => throw (Error "Illegal arguments: string, undefined")
  end.

(** [login(loginData)]: the account-state and verification checks come
    before the password check. *)
Definition login (loginData : LoginUserDto) (now : Z) : M (Json * AuthTokens) :=
  let* found := user_getOne_with_password_by_email (login_email loginData) in
  match found with
  | None => throw (Error "Invalid credentials")
  | Some user =>
      throw_if (User.isLocked user)
               (Error "Your account has been locked. Please contact support.");;
      throw_if (negb (User.isActive user))
               (Error "Your account is inactive. Please contact support.");;
      let requireEmailVerification := env_is (REQUIRE_EMAIL_VERIFICATION env) "true" in
      throw_if (requireEmailVerification && negb (User.isVerified user))
               (Error "Please verify your email before logging in");;
      let* isPasswordValid := comparePassword user (login_password loginData) in
      throw_if (negb isPasswordValid) (Error "Invalid credentials");;
      let* user := user_save (User.set_lastLogin (Some now) user) now in
      ret (User.toResponseObject user, generateTokens user now)
  end.

(** [verifyEmail(token)] *)
Definition verifyEmail (token : string) (now : Z) : M string :=
  let* found := verification_token_findOne token in
  match found with
  | None => throw (Error "Invalid verification token")
  | Some (verificationToken, relation) =>
      throw_if (negb (VerificationToken.isValid verificationToken now))
               (Error "Verification token has expired");;
      match relation with
      | None => throw (TypeError "Cannot set properties of null (setting 'isVerified')")
      | Some user =>
          let* _ := user_save (User.set_isVerified true user) now in
          verification_token_save (VerificationToken.set_isUsed true verificationToken);;
          ret "Email verified successfully"
      end
  end.

(** [resendVerificationEmail(email)] *)
Definition resendVerificationEmail (email : string) (now : Z) : M string :=
  let* found := user_findOne_by_email email in
  match found with
  | None => throw (Error "User not found")
  | Some user =>
      throw_if (User.isVerified user) (Error "Email is already verified");;
      let* verificationToken := verification_token_create user now in
      sendVerificationEmail user (VerificationToken.token verificationToken);;
      ret "Verification email sent"
  end.

(** [forgotPassword({ email })] *)
Definition forgotPassword (email : string) (now : Z) : M string :=
  let* found := user_findOne_by_email email in
  match found with
  | None => ret "If your email exists, you will receive a password reset link"
  | Some user =>
      let* passwordReset := password_reset_create user now in
      sendPasswordResetEmail user (PasswordReset.token passwordReset);;
      ret "Password reset instructions sent to your email"
  end.

(** [resetPassword(resetPasswordDto)] *)
Definition resetPassword (dto : ResetPasswordDto) (now : Z) : M string :=
  throw_if (negb (String.eqb (reset_password dto) (reset_confirmPassword dto)))
           (Error "Passwords do not match");;
  let* found := password_reset_findOne (reset_token dto) in
  match found with
  | None => throw (Error "Invalid password reset token")
  | Some (passwordReset, relation) =>
      throw_if (negb (PasswordReset.isValid passwordReset now))
               (Error "Password reset token has expired");;
      match relation with
      | None => throw (TypeError "Cannot set properties of null (setting 'password')")
      | Some user =>
          let* _ := user_save (User.set_password (Some (reset_password dto)) user) now in
          password_reset_save (PasswordReset.set_isUsed true passwordReset);;
          ret "Password reset successful"
      end
  end.

(** The object literal of [userRepository.create] in [socialAuth]. *)
Definition social_new_user (profile : Profile) (now : Z) : M User.t :=
  let email := profile_email profile in
  let* n := draw random_below_1000 in
  let firstName :=
    or_else (profile_firstName profile)
      (or_else (profile_given_name profile)
         (or_else (option_map (before_first " ") (profile_name profile)) "User")) in
  let lastName :=
    or_else (profile_lastName profile)
      (or_else (profile_family_name profile)
         (or_else (option_map (after_first " ") (profile_name profile)) (pretty now))) in
  let* p1 := draw random_base36_tail in
  let* p2 := draw random_base36_tail in
  ret (User.mk None (before_first "@" email +:+ pretty n) email firstName lastName
               (Some (p1 +:+ p2)) STUDENT None true true false None None None).

(** [socialAuth(socialAuthDto)] *)
Definition socialAuth (dto : SocialAuthDto) (now : Z) : M (Json * AuthTokens * bool) :=
  match social_profile dto with
  | None => throw (Error "Invalid social profile data")
  | Some profile =>
      let provider := social_provider dto in
      let providerId := profile_id profile in
      let email := profile_email profile in
      let* socialAccount := social_findOne provider providerId in
      let* (linked, isNewUser) :=
        match socialAccount with
        | Some (_, relation) => ret (relation, false)
        | None =>
            let* existing := user_findOne_by_email email in
            let* (candidate, isNewUser) :=
              match existing with
              | Some user => ret (user, false)
              | None => let* user := social_new_user profile now in ret (user, true)
              end in
            let* user := user_save candidate now in
            let* _ := social_create provider providerId user (social_token dto) profile now in
            ret (Some user, isNewUser)
        end in
      match linked with
      | None => throw (TypeError "Cannot set properties of null (setting 'lastLogin')")
      | Some user =>
          let* user := user_save (User.set_lastLogin (Some now) user) now in
          ret (User.toResponseObject user, generateTokens user now, isNewUser)
      end
  end.

(** [refreshTokens(refreshToken)]: everything thrown inside the [try],
    the service's own ['User not found'] included, is replaced by one
    error. *)
Definition refreshTokens (refreshToken : Jwt) (now : Z) : M AuthTokens :=
  try_catch
    (match jwt_verify refreshToken refresh_secret now with
     | Throw e => throw e
     | Ok decoded =>
         let* found := user_findOne (claim_id decoded) in
         match found with
         | None => throw (Error "User not found")
         | Some user => ret (generateTokens user now)
         end
     end)
    (fun _ => throw (Error "Invalid refresh token")).
End Service.
End AuthService.

(** ** HTTP layer *)

Record Response := mkResponse {
  status : Z;
  body : Json
}.

Definition Handler : Type := World -> Response * World.

Definition message_body (m : string) : Json := JObj [("message", JStr m)].

Definition tokens_json (t : AuthTokens) : Json :=
  JObj [ ("accessToken", JJwt (accessToken t));
         ("refreshToken", JJwt (refreshToken t));
         ("expiresIn", JNum (expiresIn t)) ].

(** *** express-validator *)

(** One entry of [errors.array()]. *)
Definition validation_error (param value : string) : Json :=
  JObj [ ("value", JStr value); ("msg", JStr "Invalid value");
         ("param", JStr param); ("location", JStr "body") ].

(** The entry for a member that is no string; an [undefined] value is
    left out of the JSON text. *)
Definition validation_error_of (param : string) (value : option Json) : Json :=
  JObj (match value with Some v => [("value", v)] | None => [] end
        ++ [ ("msg", JStr "Invalid value"); ("param", JStr param);
             ("location", JStr "body") ]).

Definition check (ok : bool) (param value : string) : list Json :=
  if ok then [] else [validation_error param value].

(** [res.status(400).json({ errors: errors.array() })] *)
Definition validation_failed (errors : list Json) : Response :=
  mkResponse 400 (JObj [("errors", JArr errors)]).

Definition length_at_least (n : nat) (s : string) : bool :=
  Nat.leb n (String.length s).

Definition length_between (lo hi : nat) (s : string) : bool :=
  Nat.leb lo (String.length s) && Nat.leb (String.length s) hi.

Definition in_range (lo hi c : ascii) : bool :=
  (N_of_ascii lo <=? N_of_ascii c)%N && (N_of_ascii c <=? N_of_ascii hi)%N.

Definition is_lower (c : ascii) : bool := in_range "a" "z" c.
Definition is_upper (c : ascii) : bool := in_range "A" "Z" c.
Definition is_digit (c : ascii) : bool := in_range "0" "9" c.

(** [[@$!%*?&]] *)
Definition is_symbol (c : ascii) : bool :=
  existsb (Ascii.eqb c) ["@"; "$"; "!"; "%"; "*"; "?"; "&"]%char.

(** A line terminator, which [.] does not match. *)
Definition is_line_terminator (c : ascii) : bool :=
  Ascii.eqb c "010" || Ascii.eqb c "013".

(** [(?=.*[class])] at the start of the input: a character of the class
    occurs before the first line terminator. *)
Fixpoint lookahead (class : ascii -> bool) (s : string) : bool :=
  match s with
  | EmptyString => false
  | String c rest =>
      if class c then true
      else if is_line_terminator c then false
      else lookahead class rest
  end.

(** [matches(/^(?=.*[a-z])(?=.*[A-Z])(?=.*\d)(?=.*[@$!%*?&])[A-Za-z\d@$!%*?&]/)]:
    the four lookaheads, then one character of the allowed class; the
    pattern is not anchored at the end. *)
Definition matches_password_pattern (s : string) : bool :=
  lookahead is_lower s && lookahead is_upper s && lookahead is_digit s
  && lookahead is_symbol s
  && match s with
     | EmptyString => false
     | String c _ => is_lower c || is_upper c || is_digit c || is_symbol c
     end.

(** *** Error bodies *)

(** [{ message: error.message || fallback,
       error: NODE_ENV !== 'production' ? error : undefined }]: an [Error]
    object has no enumerable own property and serializes to [{}]; an
    [undefined] member is left out. *)
Definition error_body (env : Env) (e : JsError) (fallback : string) : Json :=
  JObj ([("message", JStr (or_else (Some (err_message e)) fallback))]
        ++ if env_is (NODE_ENV env) "production" then [] else [("error", JObj [])]).

(** [try { ... const result = await service; res.status(ok)... }
     catch (error) { res.status(...)... }] *)
Definition respond {A} (c : M A) (on_ok : A -> Response) (on_error : JsError -> Response)
  : Handler :=
  fun w =>
    match c w with
    | (Ok a, w') => (on_ok a, w')
    | (Throw e, w') => (on_error e, w')
    end.

(** An early [res.status(...).json(...); return;] *)
Definition reply (r : Response) : Handler := fun w => (r, w).

(** server/src/controllers/auth.controller.ts *)
Module AuthController.
Section Controller.
Context {P : Platform}.
Variable env : Env.

Definition password_checks (param value : string) : list Json :=
  (check (length_at_least 8 value) param value
   ++ check (matches_password_pattern value) param value)%list.

(** [POST /api/auth/register] *)
Definition register (req : RegisterUserDto) (now : Z) : Handler :=
  let errors :=
    (check (length_between 3 20 (reg_username req)) "username" (reg_username req)
     ++ check (isEmail (reg_email req)) "email" (reg_email req)
     ++ password_checks "password" (reg_password req)
     ++ check (length_at_least 1 (reg_firstName req)) "firstName" (reg_firstName req)
     ++ check (length_at_least 1 (reg_lastName req)) "lastName" (reg_lastName req))%list in
  match errors with
  | _ :: _ => reply (validation_failed errors)
  | [] =>
      respond (AuthService.register env req now)
        (fun result =>
           mkResponse 201
             (JObj [ ("message", JStr "User registered successfully");
                     ("user", User.toResponseObject (fst result));
                     ("tokens", tokens_json (snd result)) ]))
        (fun error => mkResponse 400 (error_body env error "Registration failed"))
  end.

(** [POST /api/auth/login]: every error of the service is answered with
    the same 401. *)
Definition login (req : LoginUserDto) (now : Z) : Handler :=
  let errors := check (isEmail (login_email req)) "email" (login_email req) in
  match errors with
  | _ :: _ => reply (validation_failed errors)
  | [] =>
      respond (AuthService.login env req now)
        (fun result =>
           mkResponse 200
             (JObj [ ("message", JStr "Login successful");
                     ("user", fst result);
                     ("tokens", tokens_json (snd result)) ]))
        (fun _ => mkResponse 401 (message_body "Invalid credentials"))
  end.

(** [POST /api/auth/verify-email] *)
Definition verifyEmail (token : string) (now : Z) : Handler :=
  let errors := check (length_at_least 10 token) "token" token in
  match errors with
  | _ :: _ => reply (validation_failed errors)
  | [] =>
      respond (AuthService.verifyEmail token now)
        (fun message => mkResponse 200 (message_body message))
        (fun error => mkResponse 400 (error_body env error "Email verification failed"))
  end.

(** [POST /api/auth/resend-verification] *)
Definition resendVerification (email : string) (now : Z) : Handler :=
  let errors := check (isEmail email) "email" email in
  match errors with
  | _ :: _ => reply (validation_failed errors)
  | [] =>
      respond (AuthService.resendVerificationEmail email now)
        (fun message => mkResponse 200 (message_body message))
        (fun error =>
           mkResponse 400 (error_body env error "Failed to resend verification email"))
  end.

(** [POST /api/auth/forgot-password] *)
Definition forgotPassword (email : string) (now : Z) : Handler :=
  let errors := check (isEmail email) "email" email in
  match errors with
  | _ :: _ => reply (validation_failed errors)
  | [] =>
      respond (AuthService.forgotPassword email now)
        (fun message => mkResponse 200 (message_body message))
        (fun _ =>
           mkResponse 200
             (message_body "If your email exists, you will receive a password reset link"))
  end.

(** [POST /api/auth/reset-password] *)
Definition resetPassword (req : ResetPasswordDto) (now : Z) : Handler :=
  let errors :=
    (check (length_at_least 10 (reset_token req)) "token" (reset_token req)
     ++ password_checks "password" (reset_password req)
     ++ check (String.eqb (reset_confirmPassword req) (reset_password req))
              "confirmPassword" (reset_confirmPassword req))%list in
  match errors with
  | _ :: _ => reply (validation_failed errors)
  | [] =>
      respond (AuthService.resetPassword req now)
        (fun message => mkResponse 200 (message_body message))
        (fun error => mkResponse 400 (error_body env error "Password reset failed"))
  end.

(** [POST /api/auth/refresh-token]: [member] is [req.body.refreshToken],
    [None] when the body has no such member.  [isString()] passes a string
    only; the service then gets the string as it is. *)
Definition refreshToken (member : option Json) (now : Z) : Handler :=
  let run (token : Jwt) : Handler :=
    respond (AuthService.refreshTokens env token now)
      (fun tokens => mkResponse 200 (tokens_json tokens))
      (fun _ => mkResponse 401 (message_body "Invalid refresh token")) in
  match member with
  | Some (JJwt token) => run token
  | Some (JStr raw) => run (JwtOpaque raw)
  | _ => reply (validation_failed [validation_error_of "refreshToken" member])
  end.

(** [POST /api/auth/social/:provider] *)
Definition socialAuth (provider : string) (token : string) (profile : option Profile)
           (now : Z) : Handler :=
  match SocialProvider_parse provider with
  | None => reply (mkResponse 400 (message_body "Invalid provider"))
  | Some p =>
      respond (AuthService.socialAuth env (mkSocialAuthDto p token profile) now)
        (fun result =>
           let '(user, tokens, isNewUser) := result in
           mkResponse 200
             (JObj [ ("message", JStr "Social authentication successful");
                     ("user", user);
                     ("tokens", tokens_json tokens);
                     ("isNewUser", JBool isNewUser) ]))
        (fun error => mkResponse 401 (error_body env error "Social authentication failed"))
  end.

(** [GET /api/auth/me]: [req.user] is what the middleware attached. *)
Definition getCurrentUser (user : option User.t) : Response :=
  match user with
  | None => mkResponse 401 (message_body "Unauthorized")
  | Some u => mkResponse 200 (User.toJSON u)
  end.
End Controller.
End AuthController.

(** server/src/middleware/auth.middleware.ts *)

(** A word of the [Authorization] header, after [split(' ')]. *)
Inductive HeaderWord :=
| Word (s : string)
| TokenWord (t : Jwt).

Module AuthMiddleware.
Section Middleware.
Context {P : Platform}.
Variable env : Env.

(** [authenticate]: the response it sends, or the user it attaches before
    calling [next()]. *)
Definition authenticate (authorization : option (list HeaderWord)) (now : Z) (w : World)
  : Response + User.t :=
  match authorization with
  | None | Some [Word ""] => inl (mkResponse 401 (message_body "Authorization header missing"))
  | Some [Word scheme; second] =>
      if negb (String.eqb scheme "Bearer")
      then inl (mkResponse 401 (message_body "Invalid authorization format"))
      else
        let token := match second with Word s => JwtOpaque s | TokenWord t => t end in
        match jwt_verify token (AuthService.access_secret env) now with
        | Throw e =>
            if String.eqb (err_name e) "TokenExpiredError"
            then inl (mkResponse 401 (message_body "Token expired"))
            else if String.eqb (err_name e) "JsonWebTokenError"
            then inl (mkResponse 401 (message_body "Invalid token"))
            else inl (mkResponse 500 (message_body "Internal server error"))
        | Ok decoded =>
            match fst (user_findOne (claim_id decoded) w) with
            | Ok (Some user) =>
                if negb (User.isActive user)
                then inl (mkResponse 403 (message_body "Account is inactive"))
                else if User.isLocked user
                then inl (mkResponse 403 (message_body "Account is locked"))
                else inr user
            | Ok None => inl (mkResponse 401 (message_body "User not found"))
            | Throw _ => inl (mkResponse 500 (message_body "Internal server error"))
            end
        end
  | Some _ => inl (mkResponse 401 (message_body "Invalid authorization format"))
  end.

(** Modelled from the spec: the router file that mounts the controller is
    not among the sources; the spec lists [GET /auth/me] as an
    authenticated route, that is [authenticate] followed by
    [getCurrentUser]. *)
Definition route_me (authorization : option (list HeaderWord)) (now : Z) (w : World)
  : Response :=
  match authenticate authorization now w with
  | inl response => response
  | inr user => AuthController.getCurrentUser (Some user)
  end.
End Middleware.
End AuthMiddleware.

(** ** The browser AuthService (src/services/authService.ts)

    JavaScript runs one turn of the event loop at a time: a network reply or
    a timer starts a turn, and it runs, through every [await] on an already
    settled promise, until it has handed its next request to the network.  The
    session manager is therefore a transition system over events; a pending
    request carries the stack of continuations that wait for its outcome. *)

Module Client.

Definition REFRESH_TOKEN : string := "/auth/refresh-token".

Record TokenPair := mkTokenPair {
  accessToken : string;
  refreshToken : string;
  expiresIn : Z
}.

(** What a request sends: a [RefreshTokenRequest] or anything else. *)
Inductive RequestData :=
| RefreshTokenRequest (refreshToken : string)
| OtherData.

(** [AxiosRequestConfig & { _retry?: boolean }] *)
Record RequestConfig := mkRequestConfig {
  url : string;
  data : RequestData;
  Authorization : option string;
  _retry : bool
}.

(** A reply of the network: the HTTP status ([None] when there is no
    response at all) and the body read as a [TokenPair], which is how
    [refreshTokens] reads it ([api.post<TokenPair>]). *)
Record Reply := mkReply {
  reply_status : option Z;
  reply_data : TokenPair
}.

(** A continuation waiting for a promise. *)
Inductive Frame :=
| InRefreshTokens                     (* [refreshTokens], at [await this.api.post] *)
| InInterceptor (originalRequest : RequestConfig)
                                      (* the 401 handler, at [await this.refreshTokens] *)
| InTimer                             (* the timer callback, at [await this.refreshTokens] *)
| Caller (n : nat).                   (* the application code that made request [n] *)

Inductive Settled :=
| Fulfilled (request : RequestConfig) (reply : Reply)
| Rejected (status : option Z).

(** A JavaScript number that is whole or infinite. *)
Inductive JsNumber :=
| Finite (z : Z)
| PlusInfinity
| MinusInfinity.

(** The binary64 value nearest to a whole number, ties to even: 53
    significant bits are kept. *)
Definition round53 (n : Z) : Z :=
  let dropped := Z.log2 (Z.abs n) - 52 in
  if dropped <=? 0 then n
  else
    let ulp := 2 ^ dropped in
    let q := Z.abs n / ulp in
    let r := Z.abs n mod ulp in
    let half := ulp / 2 in
    let nearest := if r <? half then q
                   else if half <? r then q + 1
                   else if Z.even q then q else q + 1 in
    Z.sgn n * (nearest * ulp).

(** Rounding with overflow: what does not fit below [2^1024] is infinite. *)
Definition to_binary64 (n : Z) : JsNumber :=
  let r := round53 n in
  if 2 ^ 1024 <=? r then PlusInfinity
  else if r <=? - 2 ^ 1024 then MinusInfinity
  else Finite r.

(** [Math.floor(expiresIn * 0.75) * 1000] in binary64 arithmetic.  The
    product with 0.75 is three quarters of [expiresIn], rounded; its floor is
    a whole number; the product with 1000 is rounded again. *)
Definition refreshTime (expiresIn : Z) : JsNumber :=
  match to_binary64 expiresIn with
  | Finite e => to_binary64 (round53 (3 * e) / 4 * 1000)
  | infinite => infinite
  end.

Record State := mkState {
  (* localStorage *)
  ls_accessToken : option string;
  ls_refreshToken : option string;
  ls_tokenExpiry : option Z;
  (* the instance field and the timers of the window, each with the delay
     given to [setTimeout] *)
  refreshTimeoutId : option nat;
  timers : gmap nat JsNumber;
  next_timer : nat;
  (* the network: every request sent, and the pending ones *)
  sent : list RequestConfig;
  in_flight : gmap nat (RequestConfig * list Frame);
  (* what the rest of the application observes *)
  dispatched : list string;
  settled : list (nat * Settled)
}.

Definition set_storage (a r : option string) (e : option Z) (st : State) : State :=
  mkState a r e (refreshTimeoutId st) (timers st) (next_timer st) (sent st)
          (in_flight st) (dispatched st) (settled st).

Definition set_timer_state (i : option nat) (t : gmap nat JsNumber) (n : nat) (st : State)
  : State :=
  mkState (ls_accessToken st) (ls_refreshToken st) (ls_tokenExpiry st) i t n (sent st)
          (in_flight st) (dispatched st) (settled st).

Definition set_network (s : list RequestConfig) (f : gmap nat (RequestConfig * list Frame))
           (st : State) : State :=
  mkState (ls_accessToken st) (ls_refreshToken st) (ls_tokenExpiry st)
          (refreshTimeoutId st) (timers st) (next_timer st) s f
          (dispatched st) (settled st).

(** [window.dispatchEvent(new CustomEvent(name))] *)
Definition dispatchEvent (name : string) (st : State) : State :=
  mkState (ls_accessToken st) (ls_refreshToken st) (ls_tokenExpiry st)
          (refreshTimeoutId st) (timers st) (next_timer st) (sent st) (in_flight st)
          (dispatched st ++ [name]) (settled st).

Definition settle (n : nat) (o : Settled) (st : State) : State :=
  mkState (ls_accessToken st) (ls_refreshToken st) (ls_tokenExpiry st)
          (refreshTimeoutId st) (timers st) (next_timer st) (sent st) (in_flight st)
          (dispatched st) (settled st ++ [(n, o)]).

(** [getAccessToken()] and [getRefreshToken()], tested for truthiness. *)
Definition getAccessToken (st : State) : option string := truthy (ls_accessToken st).
Definition getRefreshToken (st : State) : option string := truthy (ls_refreshToken st).

(** [isAuthenticated()] *)
Definition isAuthenticated (st : State) : bool := is_Some_bool (getAccessToken st).

(** [clearTokenRefresh()] *)
Definition clearTokenRefresh (st : State) : State :=
  match refreshTimeoutId st with
  | Some i => set_timer_state None (delete i (timers st)) (next_timer st) st
  | None => st
  end.

(** [setupTokenRefresh(expiresIn)]: the timer is set at 75% of the
    lifetime, [Math.floor(expiresIn * 0.75) * 1000] milliseconds. *)
Definition setupTokenRefresh (expiresIn : Z) (st : State) : State :=
  let st := clearTokenRefresh st in
  set_timer_state (Some (next_timer st))
                  (<[next_timer st := refreshTime expiresIn]> (timers st))
                  (S (next_timer st)) st.

(** [setTokens(tokens)] *)
Definition setTokens (tokens : TokenPair) (now : Z) (st : State) : State :=
  set_storage (Some (accessToken tokens)) (Some (refreshToken tokens))
              (Some (now + expiresIn tokens * 1000)) st.

(** [clearTokens()] *)
Definition clearTokens (st : State) : State :=
  clearTokenRefresh (set_storage None None None st).

(** [this.api(config)]: the request interceptor attaches the stored access
    token, then the request goes out; [stack] waits for its outcome. *)
Definition api (config : RequestConfig) (stack : list Frame) (st : State) : State :=
  let config :=
    match getAccessToken st with
    | Some token =>
        mkRequestConfig (url config) (data config) (Some ("Bearer " +:+ token))
                        (_retry config)
    | None => config
    end in
  set_network (sent st ++ [config]) (<[length (sent st) := (config, stack)]> (in_flight st)) st.

(** The first half of [refreshTokens(refreshToken)], up to the [await]. *)
Definition refreshTokens (refreshToken : string) (stack : list Frame) (st : State) : State :=
  api (mkRequestConfig REFRESH_TOKEN (RefreshTokenRequest refreshToken) None false)
      (InRefreshTokens :: stack) st.

(** A promise is rejected with an error whose [status] property is
    [status]: the [catch] blocks run, innermost first.  The error that
    reaches a [catch] block was made by [createAuthError] and has no
    [response]; the block throws [createAuthError] of it, whose [status],
    [error.response?.status], is [undefined]. *)
Fixpoint reject (stack : list Frame) (status : option Z) (st : State) : State :=
  match stack with
  | [] => st
  | InRefreshTokens :: rest => reject rest None (clearTokens st)
  | InInterceptor _ :: rest =>
      reject rest None (dispatchEvent "auth:sessionExpired" (clearTokens st))
  | InTimer :: _ => dispatchEvent "auth:sessionExpired" (clearTokens st)
  | Caller n :: _ => settle n (Rejected status) st
  end.

(** A promise is fulfilled with the reply to [request] (for
    [InInterceptor], with the tokens that reply carried). *)
Fixpoint resolve (stack : list Frame) (request : RequestConfig) (reply : Reply)
         (now : Z) (st : State) : State :=
  match stack with
  | [] => st
  | InRefreshTokens :: rest =>
      let tokens := reply_data reply in
      let st := setTokens tokens now st in
      let st := setupTokenRefresh (expiresIn tokens) st in
      resolve rest request reply now st
  | InInterceptor originalRequest :: rest =>
      let tokens := reply_data reply in
      let retried :=
        mkRequestConfig (url originalRequest) (data originalRequest)
                        (Some ("Bearer " +:+ accessToken tokens)) (_retry originalRequest) in
      api retried rest st
  | InTimer :: _ => st
  | Caller n :: _ => settle n (Fulfilled request reply) st
  end.

Definition status_is (reply : Reply) (code : Z) : bool :=
  match reply_status reply with
  | Some s => s =? code
  | None => false
  end.

(** axios fulfils on a 2xx status. *)
Definition is_success (reply : Reply) : bool :=
  match reply_status reply with
  | Some s => (200 <=? s) && (s <? 300)
  | None => false
  end.

(** The response interceptor's error handler.  It ends in
    [Promise.reject(this.createAuthError(error))], an error whose [status]
    is that of the reply. *)
Definition on_error (config : RequestConfig) (reply : Reply) (stack : list Frame)
           (st : State) : State :=
  if status_is reply 401 && negb (_retry config)
  then
    match getRefreshToken st with
    | Some refreshToken =>
        let originalRequest :=
          mkRequestConfig (url config) (data config) (Authorization config) true in
        refreshTokens refreshToken (InInterceptor originalRequest :: stack) st
    | None =>
        let st := dispatchEvent "auth:unauthorized" (clearTokens st) in
        reject stack (reply_status reply) st
    end
  else
    let st := if status_is reply 403 then dispatchEvent "auth:forbidden" st else st in
    reject stack (reply_status reply) st.

Inductive Event :=
| Request (n : nat) (config : RequestConfig)   (* the application calls [this.api] *)
| Response (call : nat) (reply : Reply) (now : Z)
| TimerFires (timer : nat).

Definition step (st : State) (ev : Event) : State :=
  match ev with
  | Request n config => api config [Caller n] st
  | Response call reply now =>
      match in_flight st !! call with
      | None => st
      | Some (config, stack) =>
          let st := set_network (sent st) (delete call (in_flight st)) st in
          if is_success reply
          then resolve stack config reply now st
          else on_error config reply stack st
      end
  | TimerFires timer =>
      match timers st !! timer with
      | None => st
      | Some _ =>
          let st := set_timer_state (refreshTimeoutId st) (delete timer (timers st))
                                    (next_timer st) st in
          match getRefreshToken st with
          | Some refreshToken => refreshTokens refreshToken [InTimer] st
          | None => st
          end
      end
  end.

Definition run (st : State) (events : list Event) : State := fold_left step events st.

Definition is_refresh (config : RequestConfig) : bool := String.eqb (url config) REFRESH_TOKEN.

(** The number of calls made to the refresh endpoint so far. *)
Definition refresh_calls (st : State) : nat := length (filter (fun c => is_refresh c = true) (sent st)).

(** The calls to the refresh endpoint that have no reply yet. *)
Definition refresh_in_flight (st : State) : nat :=
  size (filter (fun kv => is_refresh (fst (snd kv)) = true) (in_flight st)).

(** The request as it is sent again after a refresh that returned
    [tokens]. *)
Definition replayed (originalRequest : RequestConfig) (tokens : TokenPair) : RequestConfig :=
  mkRequestConfig (url originalRequest) (data originalRequest)
                  (Some ("Bearer " +:+ accessToken tokens)) (_retry originalRequest).

(** A session after login: a token pair in storage, nothing pending. *)
Definition logged_in (tokens : TokenPair) (now : Z) : State :=
  setupTokenRefresh (expiresIn tokens)
    (setTokens tokens now (mkState None None None None ∅ 0 [] ∅ [] [])).

End Client.

(** ** Concrete data for the examples *)

Module Samples.

(** A stand-in for the libraries, used to run the model. *)
#[export] Instance test_platform : Platform := {|
  bcrypt_hash := fun password salt => "bcrypt(" +:+ salt +:+ "," +:+ password +:+ ")";
  bcrypt_compare := fun candidate hash =>
    String.eqb (after_first "," hash) (candidate +:+ ")");
  bcrypt_genSalt := fun n => "salt" +:+ pretty n;
  isEmail := fun s => negb (String.eqb (after_first "@" s) "");
  uuid := fun n => "uuid-" +:+ pretty n;
  randomBytes32_hex := fun n => "hex-token-" +:+ pretty n;
  random_below_1000 := fun n => Z.of_nat n mod 1000;
  random_base36_tail := fun n => "r" +:+ pretty n;
  transporter_sendMail := fun _ _ => None
|}.

Definition empty_world : World := mkWorld [] [] [] [] [] 0.

(** [REQUIRE_EMAIL_VERIFICATION=true] *)
Definition strict_env : Env :=
  mkEnv (Some "true") None None None 3600 (7 * 24 * 3600) 3600.

Definition alice_dto : RegisterUserDto :=
  mkRegisterUserDto "alice" "alice@x.com" "Abc12345!" "Alice" "Liddell".

(** The clock of the examples, in milliseconds. *)
Definition T0 : Z := 1700000000000.

(** The database after alice registered at [T0]. *)
Definition alice_registered : World :=
  snd (AuthService.register strict_env alice_dto T0 empty_world).

(** The verification token issued to alice. *)
Definition alice_token : string := "hex-token-2".

(** The database after alice asked for a password reset at [T0]. *)
Definition alice_forgot : World :=
  snd (AuthService.forgotPassword "alice@x.com" T0 alice_registered).

Definition alice_reset_token : string := "hex-token-4".

Definition alice_reset_dto : ResetPasswordDto :=
  mkResetPasswordDto alice_reset_token "Xyz98765?" "Xyz98765?".


(** A reset request whose two passwords differ. *)
Definition mismatched_dto : ResetPasswordDto :=
  mkResetPasswordDto alice_reset_token "Xyz98765?" "Xyz98765!".

(** The stored row of alice, and the same account locked. *)
Definition alice_row : User.t :=
  User.mk (Some "uuid-1") "alice" "alice@x.com" "Alice" "Liddell"
          (Some "bcrypt(salt0,Abc12345!)") STUDENT None false true false None
          (Some T0) (Some T0).

Definition lock (u : User.t) : User.t :=
  User.mk (User.id u) (User.username u) (User.email u) (User.firstName u)
          (User.lastName u) (User.password u) (User.role u) (User.avatar u)
          (User.isVerified u) (User.isActive u) true (User.lastLogin u)
          (User.createdAt u) (User.updatedAt u).

Definition deactivate (u : User.t) : User.t :=
  User.mk (User.id u) (User.username u) (User.email u) (User.firstName u)
          (User.lastName u) (User.password u) (User.role u) (User.avatar u)
          (User.isVerified u) false (User.isLocked u) (User.lastLogin u)
          (User.createdAt u) (User.updatedAt u).

Definition locked_world : World := mkWorld [lock alice_row] [] [] [] [] 0.

Definition inactive_world : World := mkWorld [deactivate alice_row] [] [] [] [] 0.

Definition alice_login : LoginUserDto := mkLoginUserDto "alice@x.com" "Abc12345!".

(** The token pair issued to alice at [T0] under the default settings. *)
Definition alice_tokens : AuthTokens := AuthService.generateTokens default_env alice_row T0.

(** Alice's refresh token, eight days later. *)
Definition T_late : Z := T0 + 8 * Time.day_ms.

(** The database after alice verified her email. *)
Definition alice_verified : World :=
  snd (AuthService.verifyEmail alice_token (T0 + 1) alice_registered).

Definition alice_profile : Profile :=
  mkProfile "g-1001" "alice@x.com" (Some "Alice") None (Some "Liddell") None None.




(** *** A browser session *)

Definition old_pair : Client.TokenPair := Client.mkTokenPair "access-0" "refresh-0" 3600.

(** The pair the server returns to the [k]-th refresh call. *)
Definition new_pair (k : nat) : Client.TokenPair :=
  Client.mkTokenPair ("access-" +:+ pretty (S k)) ("refresh-" +:+ pretty (S k)) 3600.

Definition get_courses : Client.RequestConfig :=
  Client.mkRequestConfig "/courses" Client.OtherData None false.

Definition unauthorized : Client.Reply := Client.mkReply (Some 401) old_pair.
Definition ok_with (t : Client.TokenPair) : Client.Reply := Client.mkReply (Some 200) t.

(** One hour and a second after login, five requests go out with the
    expired access token. *)
Definition T1 : Z := T0 + 3601000.

Definition five_requests : list Client.Event :=
  map (fun n => Client.Request n get_courses) (seq 0 5).

(** The server answers each of them with 401. *)
Definition five_rejections : list Client.Event :=
  map (fun call => Client.Response call unauthorized T1) (seq 0 5).

(** The server answers the refresh calls (calls 5 to 9), each with a new
    pair. *)
Definition refresh_replies : list Client.Event :=
  map (fun k => Client.Response (5 + k) (ok_with (new_pair k)) (T1 + 10)) (seq 0 5).

(** The server answers the replayed requests (calls 10 to 14). *)
Definition replay_replies : list Client.Event :=
  map (fun k => Client.Response (10 + k) (ok_with old_pair) (T1 + 20)) (seq 0 5).

Definition session : Client.State := Client.logged_in old_pair T0.

(** The session with the five requests pending. *)
Definition pending_session : Client.State := Client.run session five_requests.

(** The session after the five 401 replies, and after the replies to the
    five refresh calls. *)
Definition rejected_session : Client.State := Client.run pending_session five_rejections.
Definition refreshed_session : Client.State := Client.run rejected_session refresh_replies.

Definition first_request_marked : Client.RequestConfig :=
  Client.mkRequestConfig "/courses" Client.OtherData (Some "Bearer access-0") true.
Definition first_refresh : Client.RequestConfig :=
  Client.mkRequestConfig Client.REFRESH_TOKEN (Client.RefreshTokenRequest "refresh-0")
                         (Some "Bearer access-0") false.

Definition all_fulfilled (l : list (nat * Client.Settled)) : bool :=
  forallb (fun o => match snd o with
                    | Client.Fulfilled _ _ => true
                    | Client.Rejected _ => false
                    end) l.

End Samples.


(** ** Predicates used in the statements *)

(** The [user] member of a response carries no password; a response
    without a [user] member is not the success response. *)
Definition user_member_without_password (success : Z) (r : Response) : Prop :=
  match json_get "user" (body r) with
  | Some u => has_key "password" u = false
  | None => (status r =? success) = false
  end.

(** The first row a lookup by token value returns. *)
Definition reset_lookup (v : string) (w : World) : option PasswordReset.t :=
  List.find (fun x => String.eqb (PasswordReset.token x) v) (password_resets w).

Definition verification_lookup (v : string) (w : World) : option VerificationToken.t :=
  List.find (fun x => String.eqb (VerificationToken.token x) v) (verification_tokens w).


(** What [refreshTokens] returns, read off the outcome of the verification
    and of the user lookup. *)
Definition refresh_outcome {P : Platform} (env : Env) (token : Jwt) (now : Z) (w : World)
  : Outcome AuthTokens :=
  match jwt_verify token (AuthService.refresh_secret env) now with
  | Ok claims =>
      match List.find (user_has_id (claim_id claims)) (users w) with
      | Some u => Ok (AuthService.generateTokens env (strip_password u) now)
      | None => Throw (Error "Invalid refresh token")
      end
  | Throw _ => Throw (Error "Invalid refresh token")
  end.

(** The first link [socialRepository.findOne] returns for an external
    account. *)
Definition social_lookup (p : SocialProvider) (pid : string) (w : World)
  : option SocialAccount.t :=
  List.find (fun a => SocialProvider_eqb (SocialAccount.provider a) p
                      && String.eqb (SocialAccount.providerId a) pid)
            (social_accounts w).

(** The server answers each of the pending [calls] with 401. *)
Definition rejections (data : nat -> Client.TokenPair) (clock : nat -> Z) (calls : list nat)
  : list Client.Event :=
  map (fun c => Client.Response c (Client.mkReply (Some 401) (data c)) (clock c)) calls.

(** A request of the application that was sent and has had no reply. *)
Definition awaits_first_reply (st : Client.State) (call : nat) : Prop :=
  exists config stack,
    Client.in_flight st !! call = Some (config, stack)
    /\ Client._retry config = false
    /\ Client.is_refresh config = false.

(** The pending calls are among the requests sent. *)
Definition calls_are_sent (st : Client.State) : Prop :=
  forall call, is_Some (Client.in_flight st !! call) ->
               (call < length (Client.sent st))%nat.

(** ** Statement vocabulary for the service *)

(** The characters of a string. *)
Fixpoint chars (s : string) : list ascii :=
  match s with
  | EmptyString => []
  | String c rest => c :: chars rest
  end.

Section ServiceVocabulary.
Context {P : Platform}.

(** [findOne({ email })] and [findOne({ username })] found a row. *)
Definition email_taken (e : string) (w : World) : bool :=
  is_Some_bool (List.find (fun u => String.eqb (User.email u) e) (users w)).

Definition username_taken (n : string) (w : World) : bool :=
  is_Some_bool (List.find (fun u => String.eqb (User.username u) n) (users w)).

(** The row [login] loads for an email. *)
Definition account_of (e : string) (w : World) : option User.t :=
  List.find (fun u => String.eqb (User.email u) e) (users w).

(** What the entity hook leaves in the password property: an empty
    password is falsy and is stored as it is. *)
Definition hashed_password (password salt : string) : string :=
  if String.eqb password "" then "" else bcrypt_hash password salt.

(** The row [register] inserts. *)
Definition registered_user (dto : RegisterUserDto) (now : Z) (w : World) : User.t :=
  User.mk (Some (uuid (if String.eqb (reg_password dto) "" then draws w else S (draws w))))
          (reg_username dto) (reg_email dto) (reg_firstName dto) (reg_lastName dto)
          (Some (hashed_password (reg_password dto) (bcrypt_genSalt (draws w))))
          STUDENT None false true false None (Some now) (Some now).

(** The draw that gives [register] its verification token: it follows the
    salt of a truthy password and the uuid of the user. *)
Definition register_token_draw (dto : RegisterUserDto) (w : World) : nat :=
  (draws w + if String.eqb (reg_password dto) "" then 1 else 2)%nat.

(** The verification mail of [register], and what the transport does with
    it when [register] hands it over, after the token row got its uuid. *)
Definition register_mail (dto : RegisterUserDto) (w : World) : Email :=
  mkEmail (reg_email dto) VerificationEmail
          (randomBytes32_hex (register_token_draw dto w)).

Definition register_mail_refused (dto : RegisterUserDto) (w : World) : option string :=
  transporter_sendMail (register_token_draw dto w + 2) (register_mail dto w).

(** The token row [register] stores, and the database when [register]
    reaches the mailer: the user and the token are stored. *)
Definition registered_token (dto : RegisterUserDto) (now : Z) (w : World)
  : VerificationToken.t :=
  VerificationToken.mk (Some (uuid (S (register_token_draw dto w))))
                       (randomBytes32_hex (register_token_draw dto w))
                       (now + 24 * 60 * 60 * 1000) false (Some now)
                       (id_of (registered_user dto now w)).

Definition registered_world (dto : RegisterUserDto) (now : Z) (w : World) : World :=
  mkWorld (users w ++ [registered_user dto now w])
          (verification_tokens w ++ [registered_token dto now w])
          (password_resets w) (social_accounts w) (outbox w)
          (register_token_draw dto w + 2).

(** The reset mail of [forgotPassword] for user [u], and what the transport
    does with it. *)
Definition reset_mail (u : User.t) (w : World) : Email :=
  mkEmail (User.email u) PasswordResetEmail (randomBytes32_hex (draws w)).

Definition reset_mail_refused (u : User.t) (w : World) : option string :=
  transporter_sendMail (draws w + 2) (reset_mail u w).

(** [new Error(`Failed to send email: ${error.message}`)] *)
Definition mail_failure (reason : string) : JsError :=
  Error ("Failed to send email: " +:+ reason).

(** The username [socialAuth] makes up for a new user: the local part of
    the email followed by the next random number below 1000. *)
Definition social_username (profile : Profile) (w : World) : string :=
  before_first "@" (profile_email profile) +:+ pretty (random_below_1000 (draws w)).

(** The error of an [INSERT] that a unique column refuses. *)
Definition duplicate_key : JsError :=
  mkJsError "QueryFailedError" "duplicate key value violates unique constraint".

(** [REQUIRE_EMAIL_VERIFICATION === 'true'] *)
Definition verification_required (env : Env) : bool :=
  env_is (REQUIRE_EMAIL_VERIFICATION env) "true".

(** The rows of a table that carry a given id. *)
Definition rows_with_id (i : string) (w : World) : list User.t :=
  List.filter (user_has_id i) (users w).
End ServiceVocabulary.

Section LoginVocabulary.
Context {P : Platform}.

(** The user object of [login] after [user.lastLogin = new Date()] and
    [save]: the hook has hashed the password property it carried, and the
    update has stamped [updatedAt]. *)
Definition user_after_login (u : User.t) (h : string) (now : Z) (w : World) : User.t :=
  User.set_updatedAt (Some now)
    (User.set_password (Some (hashed_password h (bcrypt_genSalt (draws w))))
       (User.set_lastLogin (Some now) u)).

(** The errors [login] throws on purpose. *)
Definition login_errors : list JsError :=
  [ Error "Invalid credentials";
    Error "Your account has been locked. Please contact support.";
    Error "Your account is inactive. Please contact support.";
    Error "Please verify your email before logging in" ].
End LoginVocabulary.

Section SaveVocabulary.
Context {P : Platform}.

(** The object after the entity hook: a truthy password is replaced by its
    hash under the next salt. *)
Definition after_hook (u : User.t) (w : World) : User.t :=
  match truthy (User.password u) with
  | Some p => User.set_password (Some (bcrypt_hash p (bcrypt_genSalt (draws w)))) u
  | None => u
  end.

(** The database after the update of the rows with id [i] by object [u]. *)
Definition after_update (u : User.t) (i : string) (now : Z) (w : World) : World :=
  set_users
    (map (fun row => if user_has_id i row
                     then merge_user row (User.set_updatedAt (Some now) (after_hook u w))
                     else row)
         (users w))
    (match truthy (User.password u) with
     | Some _ => set_draws (S (draws w)) w
     | None => w
     end).

(** The used flag of row [x] is saved. *)
Definition verification_marked (x : VerificationToken.t) (l : list VerificationToken.t)
  : list VerificationToken.t :=
  map (fun row => if same_id (VerificationToken.id row) (VerificationToken.id x)
                  then VerificationToken.set_isUsed true x else row) l.

Definition reset_marked (x : PasswordReset.t) (l : list PasswordReset.t)
  : list PasswordReset.t :=
  map (fun row => if same_id (PasswordReset.id row) (PasswordReset.id x)
                  then PasswordReset.set_isUsed true x else row) l.
End SaveVocabulary.

(** ** More of the server: password change, the other middlewares, the
    database connection, the text part of an email *)

Record ChangePasswordDto := mkChangePasswordDto {
  cp_currentPassword : string;
  cp_newPassword : string;
  cp_confirmPassword : string
}.

Module PasswordChange.
Section Service.
Context {P : Platform}.

(** [createQueryBuilder('user').addSelect('user.password')
      .where('user.id = :id').getOne()] *)
Definition user_getOne_with_password_by_id (i : string) : M (option User.t) :=
  let* w := get_world in
  ret (List.find (user_has_id i) (users w)).

(** [AuthService.changePassword(userId, changePasswordDto)] *)
Definition changePassword (userId : string) (dto : ChangePasswordDto) (now : Z) : M string :=
  throw_if (negb (String.eqb (cp_newPassword dto) (cp_confirmPassword dto)))
           (Error "New passwords do not match");;
  let* found := user_getOne_with_password_by_id userId in
  match found with
  | None => throw (Error "User not found")
  | Some user =>
      let* isPasswordValid := AuthService.comparePassword user (cp_currentPassword dto) in
      throw_if (negb isPasswordValid) (Error "Current password is incorrect");;
      let* _ := user_save (User.set_password (Some (cp_newPassword dto)) user) now in
      ret "Password changed successfully"
  end.

(** [AuthController.changePassword]: [user] is [req.user].  Reading [.id]
    of a missing [req.user] throws inside the [try]. *)
Definition changePassword_endpoint (env : Env) (user : option User.t)
           (dto : ChangePasswordDto) (now : Z) : Handler :=
  let errors :=
    (AuthController.password_checks "newPassword" (cp_newPassword dto)
     ++ check (String.eqb (cp_confirmPassword dto) (cp_newPassword dto))
              "confirmPassword" (cp_confirmPassword dto))%list in
  match errors with
  | _ :: _ => reply (validation_failed errors)
  | [] =>
      match user with
      | None =>
          reply (mkResponse 400
                   (error_body env
                      (TypeError "Cannot read properties of undefined (reading 'id')")
                      "Password change failed"))
      | Some u =>
          match truthy (User.id u) with
          | None => reply (mkResponse 401 (message_body "Unauthorized"))
          | Some userId =>
              respond (changePassword userId dto now)
                (fun message => mkResponse 200 (message_body message))
                (fun error => mkResponse 400 (error_body env error "Password change failed"))
          end
      end
  end.

(** [AuthController.logout]: nothing is done on the server. *)
Definition logout_endpoint : Handler :=
  reply (mkResponse 200 (message_body "Logout successful")).
End Service.
End PasswordChange.

Module Guards.
Section Middleware.
Context {P : Platform}.
Variable env : Env.

(** [optionalAuthenticate]: it always calls [next()]; the result is the
    [req.user] it leaves. *)
Definition optionalAuthenticate (authorization : option (list HeaderWord)) (now : Z)
           (w : World) : option User.t :=
  match authorization with
  | None | Some [Word ""] => None
  | Some [Word scheme; second] =>
      if negb (String.eqb scheme "Bearer") then None
      else
        let token := match second with Word s => JwtOpaque s | TokenWord t => t end in
        match jwt_verify token (AuthService.access_secret env) now with
        | Throw _ => None
        | Ok decoded =>
            match fst (user_findOne (claim_id decoded) w) with
            | Ok (Some user) =>
                if User.isActive user && negb (User.isLocked user) then Some user else None
            | _ => None
            end
        end
  | Some _ => None
  end.

(** [authorize(roles)]: the response it sends, or [None] for [next()]. *)
Definition authorize (roles : list UserRole) (user : option User.t) : option Response :=
  match user with
  | None => Some (mkResponse 401 (message_body "Not authenticated"))
  | Some u =>
      if negb (existsb (UserRole_eqb (User.role u)) roles)
      then Some (mkResponse 403 (message_body "Not authorized"))
      else None
  end.

(** [requireEmailVerification] *)
Definition requireEmailVerification (user : option User.t) : option Response :=
  match user with
  | None => Some (mkResponse 401 (message_body "Not authenticated"))
  | Some u =>
      if negb (User.isVerified u)
      then Some (mkResponse 403 (message_body "Email not verified"))
      else None
  end.

(** [isCurrentUser]: [userId] is [req.params.id]. *)
Definition isCurrentUser (user : option User.t) (userId : string) : option Response :=
  match user with
  | None => Some (mkResponse 401 (message_body "Not authenticated"))
  | Some u =>
      if negb (same_id (User.id u) (Some userId))
      then Some (mkResponse 403 (message_body "Not authorized to access this resource"))
      else None
  end.
End Middleware.
End Guards.

(** server/src/config/database.ts *)
Module Database.
Section Connect.
(** The connection type of the driver. *)
Variable Connection : Type.

(** What the loop of [connectWithRetry] has done when it ends. *)
Record Run := mkRun {
  outcome : Outcome Connection;
  attempts : nat;          (* calls of [createConnection] *)
  slept : Z                (* milliseconds spent in [setTimeout] *)
}.

(** The [for] loop from iteration [i], with [remaining] iterations to go;
    [attempt k] is what the [k]-th call of [createConnection] does. *)
Fixpoint connect_loop (attempt : nat -> Outcome Connection) (retries : Z) (delay : Z)
         (remaining i : nat) (lastError : option JsError) (waited : Z) : Run :=
  match remaining with
  | O =>
      mkRun (Throw (Error ("Failed to connect to database after " +:+ pretty retries
                           +:+ " attempts: "
                           +:+ match lastError with
                               | Some e => err_message e
                               | None => "undefined"
                               end)))
            i waited
  | S remaining' =>
      match attempt i with
      | Ok connection => mkRun (Ok connection) (S i) waited
      | Throw error =>
          connect_loop attempt retries delay remaining' (S i) (Some error) (waited + delay)
      end
  end.

(** [connectWithRetry(options, retries, delay)] for a whole number of
    retries: the loop runs while [i < retries]. *)
Definition connectWithRetry (attempt : nat -> Outcome Connection) (retries delay : Z) : Run :=
  connect_loop attempt retries delay (Z.to_nat retries) 0 None 0.
End Connect.
End Database.

(** server/src/services/email.service.ts *)
Module EmailText.

(** [html.replace(/<[^>]*>/g, '')].  Outside a tag a character is kept; a
    [<] opens a candidate tag, which is dropped at the next [>]; a candidate
    that never closes is no match and is kept. *)
Fixpoint strip_from (html : string) (candidate : option string) : string :=
  match html, candidate with
  | EmptyString, None => EmptyString
  | EmptyString, Some kept => kept
  | String c rest, None =>
      if Ascii.eqb c "<" then strip_from rest (Some "<")
      else String c (strip_from rest None)
  | String c rest, Some kept =>
      if Ascii.eqb c ">" then strip_from rest None
      else strip_from rest (Some (kept +:+ String c EmptyString))
  end.

Definition strip_tags (html : string) : string := strip_from html None.

(** [text || html.replace(/<[^>]*>/g, '')] *)
Definition text_part (text : option string) (html : string) : string :=
  or_else text (strip_tags html).

(** The string holds a [>]. *)
Definition closes (s : string) : bool :=
  existsb (fun c => Ascii.eqb c ">") (chars s).

(** A [<] with a [>] somewhere after it. *)
Fixpoint has_tag (s : string) : bool :=
  match s with
  | EmptyString => false
  | String c rest => (Ascii.eqb c "<" && closes rest) || has_tag rest
  end.
End EmailText.

(** ** More of the browser AuthService: logout, and what a session keeps *)

Module Session.
Import Client.

Definition LOGOUT : string := "/auth/logout".

(** The [finally] block of [logout()]. *)
Definition logout_finally (st : State) : State := clearTokenRefresh (clearTokens st).

(** [logout()] up to its [await]: the server is told only when an access
    token is stored; otherwise the [finally] block runs at once.  [n] names
    the pending call. *)
Definition logout (n : nat) (st : State) : State :=
  if isAuthenticated st
  then api (mkRequestConfig LOGOUT OtherData None false) [Caller n] st
  else logout_finally st.

(** [logout()] from its [await] on: the call has settled, one way or the
    other ([catch] only logs), and the [finally] block runs. *)
Definition logout_settled (st : State) : State := logout_finally st.

(** The three storage keys are present together or absent together. *)
Definition all_or_nothing (st : State) : Prop :=
  (ls_accessToken st = None <-> ls_refreshToken st = None)
  /\ (ls_accessToken st = None <-> ls_tokenExpiry st = None).

(** An armed timer is the one the instance remembers, and there is a
    refresh token in storage for it. *)
Definition timer_discipline (st : State) : Prop :=
  forall t d, timers st !! t = Some d ->
              refreshTimeoutId st = Some t /\ ls_refreshToken st <> None.

(** Two states with the same storage and the same timers. *)
Definition same_session (st st' : State) : Prop :=
  ls_accessToken st' = ls_accessToken st
  /\ ls_refreshToken st' = ls_refreshToken st
  /\ ls_tokenExpiry st' = ls_tokenExpiry st
  /\ refreshTimeoutId st' = refreshTimeoutId st
  /\ timers st' = timers st.

(** The storage is empty and no timer is armed. *)
Definition signed_out (st : State) : Prop :=
  ls_accessToken st = None /\ ls_refreshToken st = None /\ ls_tokenExpiry st = None
  /\ refreshTimeoutId st = None /\ (forall t, timers st !! t = None).

(** What the page observes of the network and of the application. *)
Definition same_traffic (st st' : State) : Prop :=
  sent st' = sent st /\ in_flight st' = in_flight st.

Definition tidy (st : State) : Prop := all_or_nothing st /\ timer_discipline st.

(** The state of a fresh page: nothing stored, nothing pending. *)
Definition fresh : State := mkState None None None None ∅ 0 [] ∅ [] [].

(** The server answers the newest request with 401, [n] times over. *)
Fixpoint keep_answering_401 (n : nat) (tokens : TokenPair) (now : Z) (st : State) : State :=
  match n with
  | O => st
  | S n' =>
      keep_answering_401 n' tokens now
        (step st (Response (length (sent st) - 1) (mkReply (Some 401) tokens) now))
  end.
End Session.

(** ** Further concrete data *)

Module Scenarios.
Import Samples.

Definition wrong_login : LoginUserDto := mkLoginUserDto "alice@x.com" "not-her-password".
Definition unknown_login : LoginUserDto := mkLoginUserDto "nobody@x.com" "Abc12345!".

Definition bob_dto : RegisterUserDto :=
  mkRegisterUserDto "bob" "bob@x.com" "Bcd23456?" "Bob" "Builder".

(** A second registration under alice's address, and one under her name. *)
Definition same_email_dto : RegisterUserDto :=
  mkRegisterUserDto "alice2" "alice@x.com" "Bcd23456?" "Alice" "Two".
Definition same_name_dto : RegisterUserDto :=
  mkRegisterUserDto "alice" "alice2@x.com" "Bcd23456?" "Alice" "Two".

(** The verification token row issued to alice at [T0]. *)
Definition alice_verification_row : VerificationToken.t :=
  VerificationToken.mk (Some "uuid-3") "hex-token-2" (T0 + 24 * 60 * 60 * 1000) false
                       (Some T0) "uuid-1".

(** Alice's row after she verified her email at [T0 + 1]. *)
Definition alice_verified_row : User.t :=
  User.mk (Some "uuid-1") "alice" "alice@x.com" "Alice" "Liddell"
          (Some "bcrypt(salt0,Abc12345!)") STUDENT None true true false None
          (Some T0) (Some (T0 + 1)).

(** An object that was never saved. *)
Definition unsaved_user : User.t := User.set_id None alice_row.

Definition alice_change : ChangePasswordDto :=
  mkChangePasswordDto "Abc12345!" "Xyz98765?" "Xyz98765?".
Definition wrong_change : ChangePasswordDto :=
  mkChangePasswordDto "not-her-password" "Xyz98765?" "Xyz98765?".
Definition mismatched_change : ChangePasswordDto :=
  mkChangePasswordDto "Abc12345!" "Xyz98765?" "Xyz98765!".

Definition alice_bearer : option (list HeaderWord) :=
  Some [Word "Bearer"; TokenWord (accessToken alice_tokens)].

Definition alice_google : SocialAuthDto :=
  mkSocialAuthDto GOOGLE "google-token-1" (Some alice_profile).

(** The libraries of the examples with a mail transport that is down. *)
Definition offline_platform : Platform := {|
  bcrypt_hash := bcrypt_hash;
  bcrypt_compare := bcrypt_compare;
  bcrypt_genSalt := bcrypt_genSalt;
  isEmail := isEmail;
  uuid := uuid;
  randomBytes32_hex := randomBytes32_hex;
  random_below_1000 := random_below_1000;
  random_base36_tail := random_base36_tail;
  transporter_sendMail := fun _ _ => Some "connect ECONNREFUSED 127.0.0.1:587"
|}.

(** A database in which somebody else has the username that alice's
    Google login would make up. *)
Definition squatter_row : User.t :=
  User.mk (Some "uuid-900") "alice0" "squatter@x.com" "Sam" "Squatter"
          (Some "bcrypt(salt0,Bcd23456?)") STUDENT None true true false None
          (Some T0) (Some T0).

Definition squatter_world : World := mkWorld [squatter_row] [] [] [] [] 0.

(** A database that refuses the first two connections, and one that
    refuses them all. *)
Definition flaky_database (j : nat) : Outcome nat :=
  if (j <? 2)%nat then Throw (Error "ECONNREFUSED") else Ok 7%nat.
Definition dead_database (j : nat) : Outcome nat := Throw (Error "ECONNREFUSED").

Definition welcome_html : string := "<p>Hello <b>Bob</b></p>".

(** The session after its timer fired, and a page without a session that
    has made a request. *)
Definition timer_session : Client.State := Client.step session (Client.TimerFires 0).


Definition timer_refresh : Client.RequestConfig :=
  Client.mkRequestConfig Client.REFRESH_TOKEN (Client.RefreshTokenRequest "refresh-0")
                         (Some "Bearer access-0") false.

End Scenarios.
(** * Properties *)

(** ** Single-use tokens *)

Section TokenProperties.
Context {P : Platform}.

Lemma verification_isValid_spec (x : VerificationToken.t) (now : Z) :
  VerificationToken.isValid x now
  = negb (VerificationToken.isUsed x) && (now <=? VerificationToken.expiresAt x).
Proof.
  unfold VerificationToken.isValid, VerificationToken.isExpired.
  f_equal. rewrite Z.ltb_antisym. apply negb_involutive.
Qed.

Lemma reset_isValid_spec (x : PasswordReset.t) (now : Z) :
  PasswordReset.isValid x now
  = negb (PasswordReset.isUsed x) && (now <=? PasswordReset.expiresAt x).
Proof.
  unfold PasswordReset.isValid, PasswordReset.isExpired.
  f_equal. rewrite Z.ltb_antisym. apply negb_involutive.
Qed.

Lemma verification_token_create_spec (user : User.t) (T : Z) (w : World) :
  exists x w',
    verification_token_create user T w = (Ok x, w')
    /\ VerificationToken.isUsed x = false
    /\ VerificationToken.expiresAt x = T + Time.day_ms.
Proof.
  unfold verification_token_create, bind, draw, modify_world, ret. simpl.
  eexists _, _. split; [reflexivity|]. split; reflexivity.
Qed.

Lemma password_reset_create_spec (user : User.t) (T : Z) (w : World) :
  exists x w',
    password_reset_create user T w = (Ok x, w')
    /\ PasswordReset.isUsed x = false
    /\ PasswordReset.expiresAt x = T + Time.hour_ms.
Proof.
  unfold password_reset_create, bind, draw, modify_world, ret. simpl.
  eexists _, _. split; [reflexivity|]. split; reflexivity.
Qed.

(** C7.  A single-use token is valid exactly when it is unused and the
    clock is not past [expiresAt].  A verification token created at [T]
    expires at [T + 24h]: it is valid one millisecond before and invalid
    one millisecond after; a reset token has the same boundary at
    [T + 1h].  A consumed token is invalid at every time. *)
Theorem C7_validity_and_expiry_boundary :
  (forall (x : VerificationToken.t) now,
      VerificationToken.isValid x now
      = negb (VerificationToken.isUsed x) && (now <=? VerificationToken.expiresAt x))
  /\ (forall user T w, exists x w',
        verification_token_create user T w = (Ok x, w')
        /\ VerificationToken.expiresAt x = T + 24 * 60 * 60 * 1000
        /\ VerificationToken.isValid x (T + 24 * 60 * 60 * 1000 - 1) = true
        /\ VerificationToken.isValid x (T + 24 * 60 * 60 * 1000) = true
        /\ VerificationToken.isValid x (T + 24 * 60 * 60 * 1000 + 1) = false)
  /\ (forall (x : VerificationToken.t) now,
        VerificationToken.isValid (VerificationToken.set_isUsed true x) now = false)
  /\ (forall (x : PasswordReset.t) now,
        PasswordReset.isValid x now
        = negb (PasswordReset.isUsed x) && (now <=? PasswordReset.expiresAt x))
  /\ (forall user T w, exists x w',
        password_reset_create user T w = (Ok x, w')
        /\ PasswordReset.expiresAt x = T + 60 * 60 * 1000
        /\ PasswordReset.isValid x (T + 60 * 60 * 1000 - 1) = true
        /\ PasswordReset.isValid x (T + 60 * 60 * 1000 + 1) = false)
  /\ (forall (x : PasswordReset.t) now,
        PasswordReset.isValid (PasswordReset.set_isUsed true x) now = false).
Proof.
  split; [|split; [|split; [|split; [|split]]]].
  - apply verification_isValid_spec.
  - intros user T w.
    destruct (verification_token_create_spec user T w) as (x & w' & Hc & Hu & He).
    exists x, w'. split; [exact Hc|].
    rewrite !verification_isValid_spec, Hu, He. unfold Time.day_ms. simpl negb.
    split; [reflexivity|]. repeat split.
    + apply Z.leb_le. lia.
    + apply Z.leb_le. lia.
    + apply Z.leb_gt. lia.
  - intros x now. reflexivity.
  - apply reset_isValid_spec.
  - intros user T w.
    destruct (password_reset_create_spec user T w) as (x & w' & Hc & Hu & He).
    exists x, w'. split; [exact Hc|].
    rewrite !reset_isValid_spec, Hu, He. unfold Time.hour_ms. simpl negb.
    split; [reflexivity|]. split.
    + apply Z.leb_le. lia.
    + apply Z.leb_gt. lia.
  - intros x now. reflexivity.
Qed.
End TokenProperties.

(** ** Proof utilities *)

(** Case analysis on every test and every intermediate result on the way to
    the outcome stated by [H]. *)
Ltac crunch H :=
  repeat (simpl in H;
    match type of H with
    | (_, _) = (_, _) => fail 1
    | context [if ?b then _ else _] => destruct b eqn:?
    | context [match ?x with _ => _ end] => destruct x eqn:?
    end);
  try discriminate.

Ltac run_monad_in H := unfold bind, throw_if, ret, throw, try_catch in H.

(** ** No password in a serialized user *)

Section Serialization.
Context {P : Platform}.

Lemma assoc_get_omit_key (k : string) (l : list (string * Json)) :
  assoc_get k (omit_key k l) = None.
Proof.
  induction l as [|[k' v] l IH]; [reflexivity|].
  unfold omit_key in *. simpl.
  destruct (String.eqb k' k) eqn:E; simpl; [exact IH|].
  rewrite String.eqb_sym, E. exact IH.
Qed.

Lemma toResponseObject_no_password (u : User.t) :
  has_key "password" (User.toResponseObject u) = false.
Proof.
  unfold has_key, User.toResponseObject, json_get.
  now rewrite assoc_get_omit_key.
Qed.

(** An entity loaded without the [select: false] column has no password
    property to serialize. *)
Lemma toJSON_unselected_no_password (u : User.t) :
  User.password u = None -> has_key "password" (User.toJSON u) = false.
Proof.
  intros Hp. unfold has_key, User.toJSON, json_get, User.own_properties.
  rewrite Hp.
  destruct (User.id u), (User.createdAt u), (User.updatedAt u); reflexivity.
Qed.

Lemma user_findOne_unselected (i : string) (w w' : World) (u : User.t) :
  user_findOne i w = (Ok (Some u), w') -> User.password u = None.
Proof.
  unfold user_findOne, bind, get_world, ret. intros H.
  destruct (List.find (user_has_id i) (users w)); simpl in H; [|discriminate].
  inversion H; subst. reflexivity.
Qed.

Lemma login_returns_response_object env d now w j t w' :
  AuthService.login env d now w = (Ok (j, t), w') ->
  exists u, j = User.toResponseObject u.
Proof.
  intros H. unfold AuthService.login in H. run_monad_in H.
  crunch H. inversion H; subst. eauto.
Qed.

Lemma socialAuth_returns_response_object env d now w j t b w' :
  AuthService.socialAuth env d now w = (Ok (j, t, b), w') ->
  exists u, j = User.toResponseObject u.
Proof.
  intros H. unfold AuthService.socialAuth in H. run_monad_in H.
  crunch H. all: inversion H; subst; eauto.
Qed.

Lemma authenticate_attaches_unselected env authorization now w u :
  AuthMiddleware.authenticate env authorization now w = inr u ->
  User.password u = None.
Proof.
  unfold AuthMiddleware.authenticate. intros H.
  crunch H. inversion H; subst.
  match goal with
  | E : option_map strip_password ?f = Some _ |- _ =>
      destruct f; simpl in E; [inversion E; reflexivity | discriminate]
  end.
Qed.

Lemma error_body_has_no_user env e fallback :
  json_get "user" (error_body env e fallback) = None.
Proof.
  unfold error_body. destruct (env_is (NODE_ENV env) "production"); reflexivity.
Qed.

(** C8.  The user object of the register, login and social-login
    responses, and the body of [GET /auth/me], have no [password] field. *)
Theorem C8_no_password_in_responses (env : Env) :
  (forall req now w,
      user_member_without_password 201 (fst (AuthController.register env req now w)))
  /\ (forall req now w,
        user_member_without_password 200 (fst (AuthController.login env req now w)))
  /\ (forall provider token profile now w,
        user_member_without_password 200
          (fst (AuthController.socialAuth env provider token profile now w)))
  /\ (forall authorization now w,
        has_key "password" (body (AuthMiddleware.route_me env authorization now w)) = false).
Proof.
  unfold user_member_without_password.
  split; [|split; [|split]].
  - intros req now w. unfold AuthController.register, respond, reply.
    match goal with
    | |- context [match ?l with [] => _ | _ :: _ => _ end] => destruct l
    end; [|reflexivity].
    destruct (AuthService.register env req now w) as [[[u t]|e] w'].
    + simpl. apply toResponseObject_no_password.
    + cbn [fst body status]. rewrite error_body_has_no_user. reflexivity.
  - intros req now w. unfold AuthController.login, respond, reply.
    match goal with
    | |- context [match ?l with [] => _ | _ :: _ => _ end] => destruct l
    end; [|reflexivity].
    destruct (AuthService.login env req now w) as [[[j t]|e] w'] eqn:E; simpl;
      [|reflexivity].
    destruct (login_returns_response_object _ _ _ _ _ _ _ E) as [u ->].
    apply toResponseObject_no_password.
  - intros provider token profile now w.
    unfold AuthController.socialAuth, respond, reply.
    destruct (SocialProvider_parse provider) as [p|]; [|reflexivity].
    destruct (AuthService.socialAuth env _ now w) as [[[[j t] b]|e] w'] eqn:E.
    + simpl. destruct (socialAuth_returns_response_object _ _ _ _ _ _ _ _ E) as [u ->].
      apply toResponseObject_no_password.
    + cbn [fst body status]. rewrite error_body_has_no_user. reflexivity.
  - intros authorization now w. unfold AuthMiddleware.route_me.
    destruct (AuthMiddleware.authenticate env authorization now w) as [r|u] eqn:E.
    + unfold AuthMiddleware.authenticate in E. crunch E.
      all: inversion E; subst; reflexivity.
    + simpl. apply toJSON_unselected_no_password.
      exact (authenticate_attaches_unselected _ _ _ _ _ E).
Qed.
End Serialization.

(** ** Repository facts *)

Section RepositoryFacts.
Context {P : Platform}.

Lemma find_existsb {A} (f : A -> bool) (l : list A) (x : A) :
  List.find f l = Some x -> existsb f l = true.
Proof.
  intros H. apply find_some in H. apply existsb_exists. exists x. exact H.
Qed.

Lemma user_findOne_eq (i : string) (w : World) :
  user_findOne i w
  = (Ok (option_map strip_password (List.find (user_has_id i) (users w))), w).
Proof. reflexivity. Qed.

Lemma user_findOne_by_email_eq (e : string) (w : World) :
  user_findOne_by_email e w
  = (Ok (option_map strip_password
           (List.find (fun u => String.eqb (User.email u) e) (users w))), w).
Proof. reflexivity. Qed.

Lemma verification_token_findOne_eq (v : string) (w : World) :
  verification_token_findOne v w
  = (Ok (match List.find (fun x => String.eqb (VerificationToken.token x) v)
                         (verification_tokens w) with
         | Some x =>
             Some (x, option_map strip_password
                        (List.find (user_has_id (VerificationToken.userId x)) (users w)))
         | None => None
         end), w).
Proof.
  unfold verification_token_findOne, bind, get_world, ret.
  destruct (List.find _ (verification_tokens w)); reflexivity.
Qed.

Lemma password_reset_findOne_eq (v : string) (w : World) :
  password_reset_findOne v w
  = (Ok (match List.find (fun x => String.eqb (PasswordReset.token x) v)
                         (password_resets w) with
         | Some x =>
             Some (x, option_map strip_password
                        (List.find (user_has_id (PasswordReset.userId x)) (users w)))
         | None => None
         end), w).
Proof.
  unfold password_reset_findOne, bind, get_world, ret.
  destruct (List.find _ (password_resets w)); reflexivity.
Qed.

Lemma social_findOne_eq (p : SocialProvider) (pid : string) (w : World) :
  social_findOne p pid w
  = (Ok (match List.find (fun a => SocialProvider_eqb (SocialAccount.provider a) p
                                   && String.eqb (SocialAccount.providerId a) pid)
                         (social_accounts w) with
         | Some a =>
             Some (a, option_map strip_password
                        (List.find (user_has_id (SocialAccount.userId a)) (users w)))
         | None => None
         end), w).
Proof.
  unfold social_findOne, bind, get_world, ret.
  destruct (List.find _ (social_accounts w)); reflexivity.
Qed.

(** A row found by id carries that id. *)
Lemma found_user_id (i : string) (l : list User.t) (u : User.t) :
  List.find (user_has_id i) l = Some u -> User.id u = Some i.
Proof.
  intros H. apply find_some in H as [_ H]. unfold user_has_id in H.
  destruct (User.id u) as [j|]; [|discriminate].
  apply String.eqb_eq in H. now subst.
Qed.

(** Saving an object whose row exists is an update: it cannot fail, and it
    touches the users table and the random counter only. *)
Lemma user_save_update (u : User.t) (now : Z) (w : World) (i : string) :
  User.id u = Some i ->
  existsb (user_has_id i) (users w) = true ->
  exists u' w',
    user_save u now w = (Ok u', w')
    /\ User.id u' = Some i
    /\ verification_tokens w' = verification_tokens w
    /\ password_resets w' = password_resets w
    /\ social_accounts w' = social_accounts w
    /\ outbox w' = outbox w.
Proof.
  intros Hid Hex. unfold user_save, hashPassword, bind, get_world, ret, draw, modify_world.
  destruct (truthy (User.password u)) as [p|]; simpl; rewrite Hid, Hex; simpl;
    eexists _, _; (split; [reflexivity|]); simpl; rewrite ?Hid; repeat split.
Qed.

(** After the used flag of a found reset token is saved, a lookup of the
    same value finds a used token. *)
Lemma reset_found_used_after_save (v : string) (l : list PasswordReset.t)
      (x : PasswordReset.t) :
  List.find (fun r => String.eqb (PasswordReset.token r) v) l = Some x ->
  PasswordReset.id x <> None ->
  exists x',
    List.find (fun r => String.eqb (PasswordReset.token r) v)
      (map (fun row => if same_id (PasswordReset.id row) (PasswordReset.id x)
                       then PasswordReset.set_isUsed true x else row) l)
    = Some x'
    /\ PasswordReset.isUsed x' = true.
Proof.
  intros Hfind Hid.
  assert (Htok : String.eqb (PasswordReset.token x) v = true)
    by (apply find_some in Hfind; tauto).
  assert (Hself : same_id (PasswordReset.id x) (PasswordReset.id x) = true).
  { destruct (PasswordReset.id x) as [i|]; [|congruence].
    simpl. apply String.eqb_refl. }
  induction l as [|a l IH]; [discriminate|].
  simpl in *. destruct (String.eqb (PasswordReset.token a) v) eqn:Ha.
  - inversion Hfind; subst a. rewrite Hself. simpl. rewrite Htok.
    eexists; split; reflexivity.
  - destruct (same_id (PasswordReset.id a) (PasswordReset.id x)).
    + simpl. rewrite Htok. eexists; split; reflexivity.
    + rewrite Ha. exact (IH Hfind).
Qed.

Lemma verification_found_used_after_save (v : string) (l : list VerificationToken.t)
      (x : VerificationToken.t) :
  List.find (fun r => String.eqb (VerificationToken.token r) v) l = Some x ->
  VerificationToken.id x <> None ->
  exists x',
    List.find (fun r => String.eqb (VerificationToken.token r) v)
      (map (fun row => if same_id (VerificationToken.id row) (VerificationToken.id x)
                       then VerificationToken.set_isUsed true x else row) l)
    = Some x'
    /\ VerificationToken.isUsed x' = true.
Proof.
  intros Hfind Hid.
  assert (Htok : String.eqb (VerificationToken.token x) v = true)
    by (apply find_some in Hfind; tauto).
  assert (Hself : same_id (VerificationToken.id x) (VerificationToken.id x) = true).
  { destruct (VerificationToken.id x) as [i|]; [|congruence].
    simpl. apply String.eqb_refl. }
  induction l as [|a l IH]; [discriminate|].
  simpl in *. destruct (String.eqb (VerificationToken.token a) v) eqn:Ha.
  - inversion Hfind; subst a. rewrite Hself. simpl. rewrite Htok.
    eexists; split; reflexivity.
  - destruct (same_id (VerificationToken.id a) (VerificationToken.id x)).
    + simpl. rewrite Htok. eexists; split; reflexivity.
    + rewrite Ha. exact (IH Hfind).
Qed.
End RepositoryFacts.

(** ** Consuming verification and reset tokens *)

Section Consumption.
Context {P : Platform}.

Lemma resetPassword_mismatch dto now w :
  String.eqb (reset_password dto) (reset_confirmPassword dto) = false ->
  AuthService.resetPassword dto now w = (Throw (Error "Passwords do not match"), w).
Proof.
  intros H. unfold AuthService.resetPassword, bind, throw_if. rewrite H. reflexivity.
Qed.

Lemma resetPassword_not_found dto now w :
  String.eqb (reset_password dto) (reset_confirmPassword dto) = true ->
  reset_lookup (reset_token dto) w = None ->
  AuthService.resetPassword dto now w = (Throw (Error "Invalid password reset token"), w).
Proof.
  intros H Hf. unfold AuthService.resetPassword, bind, throw_if. rewrite H. simpl.
  rewrite password_reset_findOne_eq. unfold reset_lookup in Hf. rewrite Hf. reflexivity.
Qed.

Lemma resetPassword_not_valid dto now w x :
  String.eqb (reset_password dto) (reset_confirmPassword dto) = true ->
  reset_lookup (reset_token dto) w = Some x ->
  PasswordReset.isValid x now = false ->
  AuthService.resetPassword dto now w
  = (Throw (Error "Password reset token has expired"), w).
Proof.
  intros H Hf Hv. unfold AuthService.resetPassword, bind, throw_if. rewrite H. simpl.
  rewrite password_reset_findOne_eq. unfold reset_lookup in Hf. rewrite Hf, Hv.
  reflexivity.
Qed.

Lemma resetPassword_valid dto now w x u :
  String.eqb (reset_password dto) (reset_confirmPassword dto) = true ->
  reset_lookup (reset_token dto) w = Some x ->
  PasswordReset.isValid x now = true ->
  List.find (user_has_id (PasswordReset.userId x)) (users w) = Some u ->
  exists w1,
    AuthService.resetPassword dto now w = (Ok "Password reset successful", w1)
    /\ password_resets w1
       = map (fun row => if same_id (PasswordReset.id row) (PasswordReset.id x)
                         then PasswordReset.set_isUsed true x else row)
             (password_resets w).
Proof.
  intros H Hf Hv Hu. unfold AuthService.resetPassword, bind, throw_if. rewrite H. simpl.
  rewrite password_reset_findOne_eq. unfold reset_lookup in Hf. rewrite Hf, Hv, Hu.
  simpl.
  destruct (user_save_update
              (User.set_password (Some (reset_password dto)) (strip_password u))
              now w (PasswordReset.userId x))
    as (u' & w' & Hs & _ & _ & Hr & _).
  - simpl. exact (found_user_id _ _ _ Hu).
  - exact (find_existsb _ _ _ Hu).
  - rewrite Hs. unfold password_reset_save, modify_world, ret. simpl.
    eexists. split; [reflexivity|]. simpl. now rewrite Hr.
Qed.

Lemma resetPassword_throw_unchanged dto now w e w' :
  AuthService.resetPassword dto now w = (Throw e, w') -> w' = w.
Proof.
  intros H.
  destruct (String.eqb (reset_password dto) (reset_confirmPassword dto)) eqn:Hm.
  2: { rewrite (resetPassword_mismatch _ _ _ Hm) in H. now inversion H. }
  destruct (reset_lookup (reset_token dto) w) as [x|] eqn:Hf.
  2: { rewrite (resetPassword_not_found _ _ _ Hm Hf) in H. now inversion H. }
  destruct (PasswordReset.isValid x now) eqn:Hv.
  2: { rewrite (resetPassword_not_valid _ _ _ _ Hm Hf Hv) in H. now inversion H. }
  destruct (List.find (user_has_id (PasswordReset.userId x)) (users w)) as [u|] eqn:Hu.
  - destruct (resetPassword_valid _ _ _ _ _ Hm Hf Hv Hu) as (w1 & Hok & _).
    rewrite Hok in H. discriminate.
  - unfold AuthService.resetPassword, bind, throw_if in H. rewrite Hm in H. simpl in H.
    rewrite password_reset_findOne_eq in H. unfold reset_lookup in Hf.
    rewrite Hf, Hv, Hu in H. simpl in H. now inversion H.
Qed.

Lemma verifyEmail_not_found token now w :
  verification_lookup token w = None ->
  AuthService.verifyEmail token now w = (Throw (Error "Invalid verification token"), w).
Proof.
  intros Hf. unfold AuthService.verifyEmail, bind.
  rewrite verification_token_findOne_eq. unfold verification_lookup in Hf.
  rewrite Hf. reflexivity.
Qed.

Lemma verifyEmail_not_valid token now w x :
  verification_lookup token w = Some x ->
  VerificationToken.isValid x now = false ->
  AuthService.verifyEmail token now w
  = (Throw (Error "Verification token has expired"), w).
Proof.
  intros Hf Hv. unfold AuthService.verifyEmail, bind, throw_if.
  rewrite verification_token_findOne_eq. unfold verification_lookup in Hf.
  rewrite Hf, Hv. reflexivity.
Qed.

Lemma verifyEmail_valid token now w x u :
  verification_lookup token w = Some x ->
  VerificationToken.isValid x now = true ->
  List.find (user_has_id (VerificationToken.userId x)) (users w) = Some u ->
  exists w1,
    AuthService.verifyEmail token now w = (Ok "Email verified successfully", w1).
Proof.
  intros Hf Hv Hu. unfold AuthService.verifyEmail, bind, throw_if.
  rewrite verification_token_findOne_eq. unfold verification_lookup in Hf.
  rewrite Hf, Hv, Hu. simpl.
  destruct (user_save_update (User.set_isVerified true (strip_password u))
              now w (VerificationToken.userId x))
    as (u' & w' & Hs & _).
  - simpl. exact (found_user_id _ _ _ Hu).
  - exact (find_existsb _ _ _ Hu).
  - rewrite Hs. unfold verification_token_save, modify_world, ret. simpl.
    eexists. reflexivity.
Qed.

Lemma verifyEmail_throw_unchanged token now w e w' :
  AuthService.verifyEmail token now w = (Throw e, w') -> w' = w.
Proof.
  intros H.
  destruct (verification_lookup token w) as [x|] eqn:Hf.
  2: { rewrite (verifyEmail_not_found _ _ _ Hf) in H. now inversion H. }
  destruct (VerificationToken.isValid x now) eqn:Hv.
  2: { rewrite (verifyEmail_not_valid _ _ _ _ Hf Hv) in H. now inversion H. }
  destruct (List.find (user_has_id (VerificationToken.userId x)) (users w))
    as [u|] eqn:Hu.
  - destruct (verifyEmail_valid _ _ _ _ _ Hf Hv Hu) as (w1 & Hok).
    rewrite Hok in H. discriminate.
  - unfold AuthService.verifyEmail, bind, throw_if in H.
    rewrite verification_token_findOne_eq in H. unfold verification_lookup in Hf.
    rewrite Hf, Hv, Hu in H. simpl in H. now inversion H.
Qed.

(** C10.  When [verifyEmail] or [resetPassword] fails, in the service or
    at its endpoint, the database is exactly as before the call: no
    password, no [isVerified] flag and no [isUsed] flag has changed. *)
Theorem C10_failure_leaves_state_unchanged (env : Env) :
  (forall token now w e w',
      AuthService.verifyEmail token now w = (Throw e, w') -> w' = w)
  /\ (forall dto now w e w',
        AuthService.resetPassword dto now w = (Throw e, w') -> w' = w)
  /\ (forall token now w r w',
        AuthController.verifyEmail env token now w = (r, w') ->
        status r <> 200 -> w' = w)
  /\ (forall dto now w r w',
        AuthController.resetPassword env dto now w = (r, w') ->
        status r <> 200 -> w' = w).
Proof.
  split; [|split; [|split]].
  - exact verifyEmail_throw_unchanged.
  - exact resetPassword_throw_unchanged.
  - intros token now w r w' H Hs.
    unfold AuthController.verifyEmail, respond, reply in H.
    destruct (check _ _ _) in H; [|now inversion H].
    destruct (AuthService.verifyEmail token now w) as [[m|e] w1] eqn:E.
    + inversion H; subst. simpl in Hs. congruence.
    + inversion H; subst. exact (verifyEmail_throw_unchanged _ _ _ _ _ E).
  - intros dto now w r w' H Hs.
    unfold AuthController.resetPassword, respond, reply in H.
    match type of H with
    | context [match ?l with [] => _ | _ :: _ => _ end] => destruct l
    end; [|now inversion H].
    destruct (AuthService.resetPassword dto now w) as [[m|e] w1] eqn:E.
    + inversion H; subst. simpl in Hs. congruence.
    + inversion H; subst. exact (resetPassword_throw_unchanged _ _ _ _ _ E).
Qed.
End Consumption.

Section ResetTwice.
Context {P : Platform}.

End ResetTwice.

Section ResetTwiceExamples.
Import Samples.



Lemma C10_failure_leaves_state_unchanged_witness :
  fst (AuthService.verifyEmail "hex-token-unknown" T0 alice_registered)
  = Throw (Error "Invalid verification token")
  /\ snd (AuthService.verifyEmail "hex-token-unknown" T0 alice_registered)
     = alice_registered
  /\ fst (AuthService.resetPassword mismatched_dto T0 alice_forgot)
     = Throw (Error "Passwords do not match")
  /\ snd (AuthService.resetPassword mismatched_dto T0 alice_forgot) = alice_forgot
  /\ snd (AuthController.verifyEmail default_env alice_token (T0 + Time.day_ms + 1)
            alice_registered) = alice_registered
  /\ snd (AuthController.resetPassword default_env alice_reset_dto
            (T0 + Time.hour_ms + 1) alice_forgot) = alice_forgot.
Proof.
  destruct (C10_failure_leaves_state_unchanged default_env) as (H1 & H2 & H3 & H4).
  split; [reflexivity|]. split; [|split; [reflexivity|split; [|split]]].
  - apply (H1 "hex-token-unknown" T0 alice_registered
              (Error "Invalid verification token")
              (snd (AuthService.verifyEmail "hex-token-unknown" T0 alice_registered))).
    reflexivity.
  - apply (H2 mismatched_dto T0 alice_forgot (Error "Passwords do not match")
              (snd (AuthService.resetPassword mismatched_dto T0 alice_forgot))).
    reflexivity.
  - apply (H3 alice_token (T0 + Time.day_ms + 1) alice_registered
              (fst (AuthController.verifyEmail default_env alice_token
                      (T0 + Time.day_ms + 1) alice_registered))).
    + apply surjective_pairing.
    + vm_compute. discriminate.
  - apply (H4 alice_reset_dto (T0 + Time.hour_ms + 1) alice_forgot
              (fst (AuthController.resetPassword default_env alice_reset_dto
                      (T0 + Time.hour_ms + 1) alice_forgot))).
    + apply surjective_pairing.
    + vm_compute. discriminate.
Defined.
End ResetTwiceExamples.

(** ** Login of an unverified identity *)

Section UnverifiedLogin.
Context {P : Platform}.

(** C3 (as the code has it).  Under [REQUIRE_EMAIL_VERIFICATION=true], the
    login of an identity that is active, not locked and not verified fails
    in the service with the email-verification error, whatever the
    password; the endpoint answers it, like every other login failure,
    with 401 and the message ['Invalid credentials']. *)
Theorem C3_unverified_login_answered_401 (env : Env) (req : LoginUserDto) (now : Z)
        (w : World) (u : User.t) :
  env_is (REQUIRE_EMAIL_VERIFICATION env) "true" = true ->
  List.find (fun u => String.eqb (User.email u) (login_email req)) (users w) = Some u ->
  User.isLocked u = false ->
  User.isActive u = true ->
  User.isVerified u = false ->
  isEmail (login_email req) = true ->
  AuthService.login env req now w
  = (Throw (Error "Please verify your email before logging in"), w)
  /\ AuthController.login env req now w
     = (mkResponse 401 (message_body "Invalid credentials"), w).
Proof.
  intros Hreq Hfind Hlocked Hactive Hverified Hemail.
  assert (Hservice : AuthService.login env req now w
                     = (Throw (Error "Please verify your email before logging in"), w)).
  { unfold AuthService.login, user_getOne_with_password_by_email, bind, get_world,
      ret, throw_if.
    rewrite Hfind, Hlocked, Hactive, Hreq, Hverified. reflexivity. }
  split; [exact Hservice|].
  unfold AuthController.login, respond, check. rewrite Hemail, Hservice. reflexivity.
Qed.

(** Every failure of the login endpoint after validation is a 401. *)
Lemma login_failure_is_401 (env : Env) (req : LoginUserDto) (now : Z) (w : World) :
  isEmail (login_email req) = true ->
  status (fst (AuthController.login env req now w)) = 200
  \/ fst (AuthController.login env req now w)
     = mkResponse 401 (message_body "Invalid credentials").
Proof.
  intros Hemail. unfold AuthController.login, respond, check. rewrite Hemail.
  destruct (AuthService.login env req now w) as [[r|e] w']; [left|right]; reflexivity.
Qed.
End UnverifiedLogin.

Section UnverifiedLoginExamples.
Import Samples.

Lemma C3_unverified_login_answered_401_witness :
  AuthService.login strict_env alice_login (T0 + 5) alice_registered
  = (Throw (Error "Please verify your email before logging in"), alice_registered)
  /\ AuthController.login strict_env alice_login (T0 + 5) alice_registered
     = (mkResponse 401 (message_body "Invalid credentials"), alice_registered).
Proof.
  apply (C3_unverified_login_answered_401 strict_env alice_login (T0 + 5)
           alice_registered alice_row); reflexivity.
Defined.

(** Alice is registered and not verified, her password is right and
    verification is required: the endpoint answers 401, not 403.  For a
    locked unverified account, the service fails with the locked-account
    error, not with the verification error. *)
Lemma C3_counterexample :
  bcrypt_compare (login_password alice_login) "bcrypt(salt0,Abc12345!)" = true
  /\ status (fst (AuthController.login strict_env alice_login (T0 + 5) alice_registered))
     = 401
  /\ fst (AuthService.login strict_env alice_login (T0 + 5) locked_world)
     = Throw (Error "Your account has been locked. Please contact support.").
Proof. vm_compute. repeat split. Qed.
End UnverifiedLoginExamples.

(** ** Answers of the two email endpoints *)

Section EmailEndpoints.
Context {P : Platform}.


End EmailEndpoints.

Section EmailEndpointsExamples.
Import Samples Scenarios.


End EmailEndpointsExamples.

(** ** Token refresh on the server *)

Section Refresh.
Context {P : Platform}.

Lemma refreshTokens_eq (env : Env) (token : Jwt) (now : Z) (w : World) :
  AuthService.refreshTokens env token now w = (refresh_outcome env token now w, w).
Proof.
  unfold AuthService.refreshTokens, refresh_outcome, try_catch.
  destruct (jwt_verify token (AuthService.refresh_secret env) now) as [claims|e].
  - unfold bind. rewrite user_findOne_eq.
    destruct (List.find _ (users w)); reflexivity.
  - reflexivity.
Qed.

Lemma refresh_outcome_error (env : Env) (token : Jwt) (now : Z) (w : World) (e : JsError) :
  refresh_outcome env token now w = Throw e -> e = Error "Invalid refresh token".
Proof.
  unfold refresh_outcome.
  destruct (jwt_verify _ _ _); [destruct (List.find _ _)|]; congruence.
Qed.

(** C5 (as the code has it).  [refreshTokens] verifies the token against
    the refresh secret, loads the identity by the embedded id and returns
    a new pair.  A malformed or wrongly signed token, an expired token and
    a token of an identity that no longer exists all fail with the one
    error ['Invalid refresh token'], which the endpoint answers with one
    401 body; the database is never written. *)
Theorem C5_refresh_single_failure (env : Env) (token : Jwt) (now : Z) (w : World) :
  AuthService.refreshTokens env token now w = (refresh_outcome env token now w, w)
  /\ match refresh_outcome env token now w with
     | Ok tokens =>
         AuthController.refreshToken env (Some (JJwt token)) now w
         = (mkResponse 200 (tokens_json tokens), w)
     | Throw e =>
         e = Error "Invalid refresh token"
         /\ AuthController.refreshToken env (Some (JJwt token)) now w
            = (mkResponse 401 (message_body "Invalid refresh token"), w)
     end.
Proof.
  split; [apply refreshTokens_eq|].
  unfold AuthController.refreshToken, respond. rewrite refreshTokens_eq.
  destruct (refresh_outcome env token now w) as [t|e] eqn:E; [reflexivity|].
  split; [exact (refresh_outcome_error _ _ _ _ _ E)|reflexivity].
Qed.

(** C6.  A well-formed, unexpired refresh token of an existing identity
    that is locked or inactive is still exchanged for a fresh pair, while
    [authenticate] answers a valid access token of that identity with
    403. *)
Theorem C6_refresh_ignores_account_state (env : Env) (token access : Jwt) (now : Z)
        (w : World) (claims aclaims : JwtClaims) (u : User.t) :
  jwt_verify token (AuthService.refresh_secret env) now = Ok claims ->
  List.find (user_has_id (claim_id claims)) (users w) = Some u ->
  User.isLocked u = true \/ User.isActive u = false ->
  jwt_verify access (AuthService.access_secret env) now = Ok aclaims ->
  claim_id aclaims = claim_id claims ->
  AuthService.refreshTokens env token now w
  = (Ok (AuthService.generateTokens env (strip_password u) now), w)
  /\ AuthController.refreshToken env (Some (JJwt token)) now w
     = (mkResponse 200
          (tokens_json (AuthService.generateTokens env (strip_password u) now)), w)
  /\ exists r,
      AuthMiddleware.authenticate env (Some [Word "Bearer"; TokenWord access]) now w
      = inl r
      /\ status r = 403.
Proof.
  intros Hverify Hfind Hstate Haccess Hid.
  assert (Hout : refresh_outcome env token now w
                 = Ok (AuthService.generateTokens env (strip_password u) now)).
  { unfold refresh_outcome. rewrite Hverify, Hfind. reflexivity. }
  split; [rewrite refreshTokens_eq, Hout; reflexivity|].
  split.
  - unfold AuthController.refreshToken, respond. rewrite refreshTokens_eq, Hout.
    reflexivity.
  - unfold AuthMiddleware.authenticate.
    change (negb (String.eqb "Bearer" "Bearer")) with false. cbv iota.
    rewrite Haccess, user_findOne_eq, Hid, Hfind. simpl.
    destruct (User.isActive u) eqn:Ha; simpl.
    + destruct Hstate as [Hl|Hl]; [|discriminate]. rewrite Hl.
      eexists; split; reflexivity.
    + eexists; split; reflexivity.
Qed.
End Refresh.

Section RefreshExamples.
Import Samples.

(** A string that is no token, alice's refresh token after its seven
    days, and alice's refresh token when her row is gone: one and the same
    error, one and the same response. *)
Lemma C5_counterexample :
  fst (AuthService.refreshTokens default_env (JwtOpaque "garbage") (T0 + 5)
         alice_registered)
  = Throw (Error "Invalid refresh token")
  /\ fst (AuthService.refreshTokens default_env (refreshToken alice_tokens) T_late
            alice_registered)
     = Throw (Error "Invalid refresh token")
  /\ fst (AuthService.refreshTokens default_env (refreshToken alice_tokens) (T0 + 5)
            empty_world)
     = Throw (Error "Invalid refresh token")
  /\ jwt_verify (refreshToken alice_tokens) (AuthService.refresh_secret default_env) T_late
     = Throw (mkJsError "TokenExpiredError" "jwt expired")
  /\ fst (AuthController.refreshToken default_env (Some (JStr "garbage")) (T0 + 5)
            alice_registered)
     = fst (AuthController.refreshToken default_env
              (Some (JJwt (refreshToken alice_tokens))) T_late alice_registered)
  /\ fst (AuthController.refreshToken default_env
            (Some (JJwt (refreshToken alice_tokens))) T_late alice_registered)
     = fst (AuthController.refreshToken default_env
              (Some (JJwt (refreshToken alice_tokens))) (T0 + 5) empty_world).
Proof. vm_compute. repeat split. Qed.

Lemma C6_refresh_ignores_account_state_witness :
  User.isLocked (lock alice_row) = true
  /\ AuthService.refreshTokens default_env (refreshToken alice_tokens) (T0 + 5)
       locked_world
     = (Ok (AuthService.generateTokens default_env (strip_password (lock alice_row))
              (T0 + 5)), locked_world)
  /\ AuthController.refreshToken default_env (Some (JJwt (refreshToken alice_tokens)))
       (T0 + 5) locked_world
     = (mkResponse 200
          (tokens_json (AuthService.generateTokens default_env
                          (strip_password (lock alice_row)) (T0 + 5))), locked_world)
  /\ exists r,
      AuthMiddleware.authenticate default_env
        (Some [Word "Bearer"; TokenWord (accessToken alice_tokens)]) (T0 + 5) locked_world
      = inl r
      /\ status r = 403.
Proof.
  split; [reflexivity|].
  apply (C6_refresh_ignores_account_state default_env (refreshToken alice_tokens)
           (accessToken alice_tokens) (T0 + 5) locked_world
           (mkClaims "uuid-1" None None)
           (mkClaims "uuid-1" (Some "alice@x.com") (Some "student"))
           (lock alice_row)).
  - reflexivity.
  - reflexivity.
  - left. reflexivity.
  - reflexivity.
  - reflexivity.
Defined.
End RefreshExamples.

(** ** Social login with an existing link *)

Section SocialLogin.
Context {P : Platform}.

End SocialLogin.

Section SocialLoginExamples.
Import Samples.


End SocialLoginExamples.

(** ** Refresh on the client *)

Section ClientRefresh.
Import Client.

(** The handler of a 401 on a request not yet retried, with a refresh
    token in storage: one new call to the refresh endpoint, and the
    original request waits behind it. *)
Lemma step_unauthorized (st : State) (call : nat) (config : RequestConfig)
      (stack : list Frame) (rt : string) (tokens : TokenPair) (now : Z) :
  in_flight st !! call = Some (config, stack) ->
  _retry config = false ->
  getRefreshToken st = Some rt ->
  exists request,
    is_refresh request = true
    /\ step st (Response call (mkReply (Some 401) tokens) now)
       = set_network (sent st ++ [request])
           (<[length (sent st) :=
                (request,
                 InRefreshTokens
                   :: InInterceptor (mkRequestConfig (url config) (data config)
                                                     (Authorization config) true)
                   :: stack)]> (delete call (in_flight st))) st.
Proof.
  intros Hcall Hretry Hrt. unfold step. rewrite Hcall.
  change (is_success (mkReply (Some 401) tokens)) with false. cbv iota.
  unfold on_error.
  change (status_is (mkReply (Some 401) tokens) 401) with true.
  rewrite Hretry. cbn [negb andb].
  change (getRefreshToken (set_network (sent st) (delete call (in_flight st)) st))
    with (getRefreshToken st).
  rewrite Hrt. unfold refreshTokens, api.
  change (getAccessToken (set_network (sent st) (delete call (in_flight st)) st))
    with (getAccessToken st).
  destruct (getAccessToken st); eexists; (split; [|reflexivity]); reflexivity.
Qed.

Lemma refresh_calls_sent (st st' : State) (request : RequestConfig) :
  sent st' = (sent st ++ [request])%list ->
  is_refresh request = true ->
  refresh_calls st' = S (refresh_calls st).
Proof.
  intros Hs Hr. unfold refresh_calls. rewrite Hs.
  rewrite filter_app, length_app, filter_cons_True by exact Hr.
  rewrite filter_nil. simpl. lia.
Qed.

Lemma refresh_in_flight_replaced (st : State) (s : list RequestConfig) (call fresh : nat)
      (config request : RequestConfig) (stack stack' : list Frame) :
  in_flight st !! call = Some (config, stack) ->
  is_refresh config = false ->
  in_flight st !! fresh = None ->
  is_refresh request = true ->
  refresh_in_flight
    (set_network s (<[fresh := (request, stack')]> (delete call (in_flight st))) st)
  = S (refresh_in_flight st).
Proof.
  intros Hcall Hconfig Hfresh Hrequest. unfold refresh_in_flight. cbn [in_flight set_network].
  rewrite map_filter_insert_True by exact Hrequest.
  rewrite map_filter_delete_not.
  - apply map_size_insert_None. apply map_lookup_filter_None_2. now left.
  - intros y Hy. rewrite Hcall in Hy. inversion Hy; subst. simpl. congruence.
Qed.

Lemma rejections_issue_refresh_calls (data : nat -> TokenPair) (clock : nat -> Z)
        (calls : list nat) (st : State) (rt : string) :
  getRefreshToken st = Some rt ->
  NoDup calls ->
  (forall call, In call calls -> awaits_first_reply st call) ->
  calls_are_sent st ->
  refresh_calls (run st (rejections data clock calls))
  = (refresh_calls st + length calls)%nat
  /\ refresh_in_flight (run st (rejections data clock calls))
     = (refresh_in_flight st + length calls)%nat
  /\ settled (run st (rejections data clock calls)) = settled st
  /\ getRefreshToken (run st (rejections data clock calls)) = Some rt.
Proof.
  revert st. induction calls as [|call calls IH]; intros st Hrt Hnodup Hcalls Hsent.
  - simpl. repeat split; try lia. exact Hrt.
  - apply NoDup_cons in Hnodup as [Hnotin Hnodup].
    destruct (Hcalls call (or_introl eq_refl)) as (config & stack & Hcall & Hretry & Hconfig).
    destruct (step_unauthorized st call config stack rt (data call) (clock call)
                Hcall Hretry Hrt) as (request & Hrequest & Hstep).
    assert (Hfresh : in_flight st !! length (sent st) = None).
    { destruct (in_flight st !! length (sent st)) eqn:E; [|reflexivity].
      assert (length (sent st) < length (sent st))%nat by (apply Hsent; eauto). lia. }
    unfold rejections, run in *. cbn [map fold_left]. rewrite Hstep.
    set (st1 := set_network _ _ st).
    destruct (IH st1) as (H1 & H2 & H3 & H4).
    + exact Hrt.
    + exact Hnodup.
    + intros c Hc.
      destruct (Hcalls c (or_intror Hc)) as (config' & stack' & Hc1 & Hc2 & Hc3).
      exists config', stack'. split; [|split; assumption].
      subst st1. cbn [in_flight set_network].
      assert (c <> call) by (intros ->; apply Hnotin, list_elem_of_In, Hc).
      assert (c <> length (sent st)).
      { intros ->. rewrite Hfresh in Hc1. discriminate. }
      rewrite lookup_insert_ne by congruence. rewrite lookup_delete_ne by congruence.
      exact Hc1.
    + intros c Hc. subst st1. cbn [in_flight sent set_network] in *.
      rewrite length_app. simpl.
      destruct (decide (c = length (sent st))) as [->|Hne]; [lia|].
      rewrite lookup_insert_ne in Hc by congruence.
      destruct (decide (c = call)) as [->|Hne'].
      * rewrite lookup_delete_eq in Hc. destruct Hc; discriminate.
      * rewrite lookup_delete_ne in Hc by congruence.
        specialize (Hsent c Hc). lia.
    + rewrite H1, H2, H3, H4.
      assert (Hcount : refresh_calls st1 = S (refresh_calls st))
        by (apply refresh_calls_sent with (request := request);
            [reflexivity|exact Hrequest]).
      rewrite Hcount. subst st1.
      rewrite (refresh_in_flight_replaced st _ call _ config request stack _
                 Hcall Hconfig Hfresh Hrequest).
      simpl. repeat split; lia.
Qed.

(** The timer callback makes its own call as well, whatever is pending. *)
Lemma timer_issues_refresh_call (st : State) (timer : nat) (delay : JsNumber) (rt : string) :
  timers st !! timer = Some delay ->
  getRefreshToken st = Some rt ->
  refresh_calls (step st (TimerFires timer)) = S (refresh_calls st).
Proof.
  intros Htimer Hrt. unfold step. rewrite Htimer.
  change (getRefreshToken (set_timer_state (refreshTimeoutId st) (delete timer (timers st))
                                           (next_timer st) st))
    with (getRefreshToken st).
  rewrite Hrt. unfold refreshTokens, api.
  set (st1 := set_timer_state _ _ _ st).
  destruct (getAccessToken st1); eapply refresh_calls_sent; reflexivity.
Qed.

(** A successful reply to a refresh call made by the 401 handler: the new
    pair is stored and the original request is sent again, once, with the
    new access token. *)
Lemma refresh_reply_replays_request (st : State) (call : nat)
      (request originalRequest : RequestConfig) (rest : list Frame)
      (tokens : TokenPair) (now : Z) :
  in_flight st !! call
  = Some (request, InRefreshTokens :: InInterceptor originalRequest :: rest) ->
  ls_accessToken (step st (Response call (mkReply (Some 200) tokens) now))
  = Some (accessToken tokens)
  /\ ls_refreshToken (step st (Response call (mkReply (Some 200) tokens) now))
     = Some (refreshToken tokens)
  /\ sent (step st (Response call (mkReply (Some 200) tokens) now))
     = (sent st ++ [replayed originalRequest tokens])%list
  /\ in_flight (step st (Response call (mkReply (Some 200) tokens) now))
       !! length (sent st)
     = Some (replayed originalRequest tokens, rest).
Proof.
  intros Hcall. unfold step. rewrite Hcall.
  change (is_success (mkReply (Some 200) tokens)) with true. cbv iota.
  cbn [resolve reply_data]. unfold api, replayed.
  set (st1 := setupTokenRefresh _ _).
  assert (Hsent : sent st1 = sent st).
  { subst st1. unfold setupTokenRefresh, clearTokenRefresh, setTokens.
    cbn [refreshTimeoutId set_storage set_network].
    destruct (refreshTimeoutId st); reflexivity. }
  assert (Haccess : ls_accessToken st1 = Some (accessToken tokens)).
  { subst st1. unfold setupTokenRefresh, clearTokenRefresh, setTokens.
    cbn [refreshTimeoutId set_storage set_network].
    destruct (refreshTimeoutId st); reflexivity. }
  assert (Hrefresh : ls_refreshToken st1 = Some (refreshToken tokens)).
  { subst st1. unfold setupTokenRefresh, clearTokenRefresh, setTokens.
    cbn [refreshTimeoutId set_storage set_network].
    destruct (refreshTimeoutId st); reflexivity. }
  assert (Hconfig :
            match getAccessToken st1 with
            | Some token =>
                mkRequestConfig (url originalRequest) (data originalRequest)
                                (Some ("Bearer " +:+ token)) (_retry originalRequest)
            | None =>
                mkRequestConfig (url originalRequest) (data originalRequest)
                                (Some ("Bearer " +:+ accessToken tokens))
                                (_retry originalRequest)
            end
            = mkRequestConfig (url originalRequest) (data originalRequest)
                              (Some ("Bearer " +:+ accessToken tokens))
                              (_retry originalRequest)).
  { unfold getAccessToken, truthy. rewrite Haccess.
    destruct (String.eqb (accessToken tokens) ""); reflexivity. }
  cbn [url data _retry Authorization ls_accessToken ls_refreshToken sent in_flight
       set_network].
  rewrite Hconfig, Hsent, Haccess, Hrefresh.
  repeat split. apply lookup_insert_eq.
Qed.

(** A successful reply to a request of the application settles it. *)
Lemma reply_settles_caller (st : State) (call n : nat) (request : RequestConfig)
      (reply : Reply) (now : Z) :
  in_flight st !! call = Some (request, [Caller n]) ->
  is_success reply = true ->
  settled (step st (Response call reply now))
  = (settled st ++ [(n, Fulfilled request reply)])%list.
Proof.
  intros Hcall Hok. unfold step. rewrite Hcall, Hok. reflexivity.
Qed.

(** C1 (as the code has it).  Refresh attempts are not coalesced.  With a
    refresh token in storage, when the server answers [n] distinct pending
    requests with 401 before any refresh call is answered, the client makes
    [n] calls to the refresh endpoint, all pending at once; a firing timer
    makes one more.  Each request is sent again once, with the access token
    its own refresh call returned, and its caller gets the answer of that
    second attempt. *)
Theorem C1_one_refresh_call_per_401 :
  (forall (data : nat -> TokenPair) (clock : nat -> Z) (calls : list nat) (st : State)
          (rt : string),
      getRefreshToken st = Some rt ->
      NoDup calls ->
      (forall call, In call calls -> awaits_first_reply st call) ->
      calls_are_sent st ->
      refresh_calls (run st (rejections data clock calls))
      = (refresh_calls st + length calls)%nat
      /\ refresh_in_flight (run st (rejections data clock calls))
         = (refresh_in_flight st + length calls)%nat
      /\ settled (run st (rejections data clock calls)) = settled st)
  /\ (forall (st : State) (timer : nat) (delay : JsNumber) (rt : string),
        timers st !! timer = Some delay ->
        getRefreshToken st = Some rt ->
        refresh_calls (step st (TimerFires timer)) = S (refresh_calls st))
  /\ (forall (st : State) (call : nat) (request originalRequest : RequestConfig)
             (rest : list Frame) (tokens : TokenPair) (now : Z),
        in_flight st !! call
        = Some (request, InRefreshTokens :: InInterceptor originalRequest :: rest) ->
        ls_accessToken (step st (Response call (mkReply (Some 200) tokens) now))
        = Some (accessToken tokens)
        /\ sent (step st (Response call (mkReply (Some 200) tokens) now))
           = (sent st ++ [replayed originalRequest tokens])%list
        /\ in_flight (step st (Response call (mkReply (Some 200) tokens) now))
             !! length (sent st)
           = Some (replayed originalRequest tokens, rest))
  /\ (forall (st : State) (call n : nat) (request : RequestConfig) (reply : Reply)
             (now : Z),
        in_flight st !! call = Some (request, [Caller n]) ->
        is_success reply = true ->
        settled (step st (Response call reply now))
        = (settled st ++ [(n, Fulfilled request reply)])%list).
Proof.
  split; [|split; [|split]].
  - intros data clock calls st rt Hrt Hnodup Hcalls Hsent.
    destruct (rejections_issue_refresh_calls data clock calls st rt Hrt Hnodup Hcalls Hsent)
      as (H1 & H2 & H3 & _).
    auto.
  - exact timer_issues_refresh_call.
  - intros st call request originalRequest rest tokens now Hcall.
    destruct (refresh_reply_replays_request st call request originalRequest rest tokens
                now Hcall) as (H1 & _ & H3 & H4).
    auto.
  - exact reply_settles_caller.
Qed.
End ClientRefresh.

Section ClientRefreshExamples.
Import Client Samples.

Lemma calls_are_sent_api (config : RequestConfig) (stack : list Frame) (st : State) :
  calls_are_sent st -> calls_are_sent (api config stack st).
Proof.
  intros H call Hcall. unfold api in *. cbn [in_flight sent set_network] in *.
  rewrite length_app. simpl.
  destruct (decide (call = length (sent st))) as [->|Hne]; [lia|].
  rewrite lookup_insert_ne in Hcall by congruence.
  specialize (H call Hcall). lia.
Qed.

Lemma calls_are_sent_pending_session : calls_are_sent pending_session.
Proof.
  unfold pending_session, five_requests, run. cbn [seq map fold_left step].
  repeat apply calls_are_sent_api.
  intros call Hcall. cbn in Hcall. rewrite lookup_empty in Hcall.
  destruct Hcall; discriminate.
Qed.

Lemma C1_one_refresh_call_per_401_witness :
  (getRefreshToken pending_session = Some "refresh-0"
   /\ refresh_calls (run pending_session five_rejections) = 5%nat
   /\ refresh_in_flight (run pending_session five_rejections) = 5%nat
   /\ settled (run pending_session five_rejections) = [])
  /\ (timers rejected_session !! 0%nat = Some (Finite 2700000)
      /\ refresh_calls (step rejected_session (TimerFires 0)) = 6%nat)
  /\ (in_flight rejected_session !! 5%nat
      = Some (first_refresh,
              [InRefreshTokens; InInterceptor first_request_marked; Caller 0])
      /\ sent (step rejected_session (Response 5 (ok_with (new_pair 0)) (T1 + 10)))
         = (sent rejected_session ++ [replayed first_request_marked (new_pair 0)])%list)
  /\ (in_flight refreshed_session !! 10%nat
      = Some (replayed first_request_marked (new_pair 0), [Caller 0])
      /\ settled (step refreshed_session (Response 10 (ok_with old_pair) (T1 + 20)))
         = [(0%nat, Fulfilled (replayed first_request_marked (new_pair 0))
                              (ok_with old_pair))]).
Proof.
  destruct C1_one_refresh_call_per_401 as (Hcount & Htimer & Hreplay & Hsettle).
  split; [|split; [|split]].
  - split; [reflexivity|].
    apply (Hcount (fun _ => old_pair) (fun _ => T1) (seq 0 5) pending_session "refresh-0").
    + reflexivity.
    + apply (bool_decide_unpack _). exact I.
    + intros call Hcall. cbn [seq In] in Hcall. unfold awaits_first_reply.
      repeat (destruct Hcall as [<-|Hcall];
              [eexists _, _; split; [reflexivity|split; reflexivity]|]).
      destruct Hcall.
    + exact calls_are_sent_pending_session.
  - split; [reflexivity|].
    apply (Htimer rejected_session 0%nat (Finite 2700000) "refresh-0"); reflexivity.
  - split; [reflexivity|].
    apply (Hreplay rejected_session 5%nat first_refresh first_request_marked [Caller 0]
                   (new_pair 0) (T1 + 10)).
    reflexivity.
  - split; [reflexivity|].
    apply (Hsettle refreshed_session 10%nat 0%nat
                   (replayed first_request_marked (new_pair 0)) (ok_with old_pair)
                   (T1 + 20)); reflexivity.
Defined.

(** Five requests leave with the expired access token and the server
    answers each with 401: the client makes five calls to the refresh
    endpoint, all five pending at once.  Once the server has answered
    them and the five replays, the count is still five, and the five
    requests have succeeded. *)
Lemma C1_counterexample :
  let rejected := run session (five_requests ++ five_rejections) in
  let finished := run rejected (refresh_replies ++ replay_replies) in
  getRefreshToken session = Some "refresh-0"
  /\ refresh_calls rejected = 5%nat
  /\ refresh_in_flight rejected = 5%nat
  /\ refresh_calls finished = 5%nat
  /\ length (settled finished) = 5%nat
  /\ all_fulfilled (settled finished) = true.
Proof. vm_compute. repeat split. Qed.
End ClientRefreshExamples.

(** * Further properties of the server *)

(** ** Registration *)

Section RegisterFacts.
Context {P : Platform}.

Lemma register_duplicate_email env dto now w :
  email_taken (reg_email dto) w = true ->
  AuthService.register env dto now w = (Throw (Error "Email already exists"), w).
Proof.
  unfold email_taken. intros H.
  unfold AuthService.register, bind. rewrite user_findOne_by_email_eq.
  destruct (List.find _ (users w)); [reflexivity|discriminate].
Qed.

Lemma register_duplicate_username env dto now w :
  email_taken (reg_email dto) w = false ->
  username_taken (reg_username dto) w = true ->
  AuthService.register env dto now w = (Throw (Error "Username already exists"), w).
Proof.
  unfold email_taken, username_taken. intros He Hu.
  unfold AuthService.register, bind. rewrite user_findOne_by_email_eq.
  destruct (List.find _ (users w)); [discriminate|]. simpl.
  destruct (List.find _ (users w)); [reflexivity|discriminate].
Qed.

Lemma not_taken_no_violation (u : User.t) (w : World) :
  email_taken (User.email u) w = false ->
  username_taken (User.username u) w = false ->
  violates_unique u (users w) = false.
Proof.
  unfold email_taken, username_taken, violates_unique. intros He Hn.
  destruct (existsb _ (users w)) eqn:E; [|reflexivity].
  apply existsb_exists in E as (row & Hin & Hrow).
  apply orb_true_iff in Hrow as [Hrow|Hrow].
  - destruct (List.find (fun x => String.eqb (User.username x) (User.username u)) (users w))
      eqn:F; [discriminate|].
    apply (find_none _ _ F) in Hin. cbv beta in Hin. congruence.
  - destruct (List.find (fun x => String.eqb (User.email x) (User.email u)) (users w))
      eqn:F; [discriminate|].
    apply (find_none _ _ F) in Hin. cbv beta in Hin. congruence.
Qed.

Lemma violates_unique_ext (u u' : User.t) (rows : list User.t) :
  User.username u = User.username u' ->
  User.email u = User.email u' ->
  violates_unique u rows = violates_unique u' rows.
Proof. unfold violates_unique. intros -> ->. reflexivity. Qed.

(** Past its two checks [register] stores the user and the token, and
    its outcome is that of the mail. *)
Lemma register_fresh env dto now w :
  email_taken (reg_email dto) w = false ->
  username_taken (reg_username dto) w = false ->
  AuthService.register env dto now w
  = match register_mail_refused dto w with
    | None =>
        (Ok (registered_user dto now w,
             AuthService.generateTokens env (registered_user dto now w) now),
         set_outbox (outbox w ++ [register_mail dto w]) (registered_world dto now w))
    | Some reason => (Throw (mail_failure reason), registered_world dto now w)
    end.
Proof.
  intros He Hu.
  pose proof (not_taken_no_violation
                (User.mk None (reg_username dto) (reg_email dto) (reg_firstName dto)
                         (reg_lastName dto) (Some (reg_password dto)) STUDENT None false
                         true false None None None) w He Hu) as Hfree.
  unfold email_taken, username_taken in He, Hu.
  unfold AuthService.register, bind. rewrite user_findOne_by_email_eq.
  destruct (List.find _ (users w)); [discriminate|]. simpl.
  destruct (List.find _ (users w)); [discriminate|]. simpl.
  unfold register_mail_refused, register_mail, registered_world, registered_token,
    register_token_draw, mail_failure.
  unfold user_save, hashPassword, insert_user, sendVerificationEmail, sendEmail.
  unfold bind, get_world, ret, draw, modify_world, registered_user, hashed_password, truthy,
    throw.
  simpl.
  destruct (String.eqb_spec (reg_password dto) "") as [E|E]; [rewrite E|]; simpl.
  all: match goal with
    | |- context [violates_unique ?u ?rows] =>
        replace (violates_unique u rows) with false
          by (rewrite <- Hfree; apply violates_unique_ext; reflexivity)
    end; simpl.
  all: rewrite ?Nat.add_1_r, ?(Nat.add_comm (draws w) 2), ?(Nat.add_comm _ 2); simpl;
    destruct (transporter_sendMail _ _); reflexivity.
Qed.

(** X1.  [register] refuses a taken email and, failing that, a taken
    username, with the error that names which, before any write.  Past these
    checks the user and the verification token are stored, and the outcome
    is that of the mail: when the transport takes it, [register] succeeds;
    when it does not, [register] throws ['Failed to send email: ...'] and the
    user and the token stay stored. *)
Theorem X1_register_refuses_duplicates_before_writing (env : Env) (dto : RegisterUserDto)
        (now : Z) (w : World) :
  if email_taken (reg_email dto) w
  then AuthService.register env dto now w = (Throw (Error "Email already exists"), w)
  else if username_taken (reg_username dto) w
  then AuthService.register env dto now w = (Throw (Error "Username already exists"), w)
  else
    match register_mail_refused dto w with
    | None => is_ok (fst (AuthService.register env dto now w)) = true
    | Some reason =>
        fst (AuthService.register env dto now w) = Throw (mail_failure reason)
        /\ users (snd (AuthService.register env dto now w))
           = (users w ++ [registered_user dto now w])%list
        /\ length (verification_tokens (snd (AuthService.register env dto now w)))
           = S (length (verification_tokens w))
        /\ outbox (snd (AuthService.register env dto now w)) = outbox w
    end.
Proof.
  destruct (email_taken (reg_email dto) w) eqn:He.
  - exact (register_duplicate_email env dto now w He).
  - destruct (username_taken (reg_username dto) w) eqn:Hu.
    + exact (register_duplicate_username env dto now w He Hu).
    + rewrite (register_fresh env dto now w He Hu).
      destruct (register_mail_refused dto w) as [reason|]; [|reflexivity].
      cbn [fst snd registered_world users verification_tokens outbox].
      rewrite length_app, Nat.add_1_r. repeat split.
Qed.

(** X2.  A registration with a free email and a free username whose
    verification mail the transport takes inserts one user (a student,
    active, not locked, not verified, whose stored password is what the
    entity hook made of the given one), issues one verification token for
    that user, valid for 24 hours, sends the token to the address, and
    returns the token pair generated for the new user; the other tables are
    not written. *)
Theorem X2_register_creates_unverified_user_with_token (env : Env) (dto : RegisterUserDto)
        (now : Z) (w : World) :
  email_taken (reg_email dto) w = false ->
  username_taken (reg_username dto) w = false ->
  register_mail_refused dto w = None ->
  exists vt w',
    AuthService.register env dto now w
    = (Ok (registered_user dto now w,
           AuthService.generateTokens env (registered_user dto now w) now), w')
    /\ users w' = (users w ++ [registered_user dto now w])%list
    /\ verification_tokens w' = (verification_tokens w ++ [vt])%list
    /\ VerificationToken.userId vt = id_of (registered_user dto now w)
    /\ VerificationToken.isValid vt now = true
    /\ VerificationToken.expiresAt vt = now + 24 * 60 * 60 * 1000
    /\ outbox w' = (outbox w ++ [mkEmail (reg_email dto) VerificationEmail
                                        (VerificationToken.token vt)])%list
    /\ password_resets w' = password_resets w
    /\ social_accounts w' = social_accounts w.
Proof.
  intros He Hu Hmail.
  exists (registered_token dto now w),
         (set_outbox (outbox w ++ [register_mail dto w]) (registered_world dto now w)).
  rewrite (register_fresh env dto now w He Hu), Hmail.
  split; [reflexivity|]. split; [reflexivity|]. split; [reflexivity|].
  split; [reflexivity|].
  split; [rewrite verification_isValid_spec; cbn [registered_token VerificationToken.isUsed
            VerificationToken.expiresAt negb andb]; apply Z.leb_le; lia|].
  repeat split.
Qed.
End RegisterFacts.

(** ** Login *)

Section LoginFacts.
Context {P : Platform}.

Lemma found_has_id {A} (f : A -> bool) (l : list A) (x : A) :
  List.find f l = Some x -> f x = true /\ In x l.
Proof. intros H. apply find_some in H. tauto. Qed.

Lemma user_has_own_id (u : User.t) (i : string) :
  User.id u = Some i -> user_has_id i u = true.
Proof. intros H. unfold user_has_id. rewrite H. apply String.eqb_refl. Qed.

Lemma existsb_of_member (i : string) (u : User.t) (l : list User.t) :
  In u l -> User.id u = Some i -> existsb (user_has_id i) l = true.
Proof.
  intros Hin Hid. apply existsb_exists. exists u. split; [exact Hin|].
  exact (user_has_own_id u i Hid).
Qed.

Lemma login_unknown_email env req now w :
  account_of (login_email req) w = None ->
  AuthService.login env req now w = (Throw (Error "Invalid credentials"), w).
Proof.
  unfold account_of. intros H.
  unfold AuthService.login, user_getOne_with_password_by_email, bind, get_world, ret.
  rewrite H. reflexivity.
Qed.

Lemma login_locked env req now w u :
  account_of (login_email req) w = Some u ->
  User.isLocked u = true ->
  AuthService.login env req now w
  = (Throw (Error "Your account has been locked. Please contact support."), w).
Proof.
  unfold account_of. intros H Hl.
  unfold AuthService.login, user_getOne_with_password_by_email, bind, get_world, ret,
    throw_if.
  rewrite H, Hl. reflexivity.
Qed.

Lemma login_inactive env req now w u :
  account_of (login_email req) w = Some u ->
  User.isLocked u = false ->
  User.isActive u = false ->
  AuthService.login env req now w
  = (Throw (Error "Your account is inactive. Please contact support."), w).
Proof.
  unfold account_of. intros H Hl Ha.
  unfold AuthService.login, user_getOne_with_password_by_email, bind, get_world, ret,
    throw_if.
  rewrite H, Hl, Ha. reflexivity.
Qed.

Lemma login_wrong_password env req now w u h :
  account_of (login_email req) w = Some u ->
  User.isLocked u = false ->
  User.isActive u = true ->
  verification_required env && negb (User.isVerified u) = false ->
  User.password u = Some h ->
  bcrypt_compare (login_password req) h = false ->
  AuthService.login env req now w = (Throw (Error "Invalid credentials"), w).
Proof.
  unfold account_of, verification_required. intros H Hl Ha Hv Hp Hc.
  unfold AuthService.login, user_getOne_with_password_by_email, bind, get_world, ret,
    throw_if, AuthService.comparePassword.
  rewrite H, Hl, Ha. simpl. rewrite Hv, Hp. simpl. rewrite Hc. reflexivity.
Qed.

Lemma login_success env req now w u i h :
  account_of (login_email req) w = Some u ->
  User.id u = Some i ->
  User.isLocked u = false ->
  User.isActive u = true ->
  verification_required env && negb (User.isVerified u) = false ->
  User.password u = Some h ->
  bcrypt_compare (login_password req) h = true ->
  exists w',
    AuthService.login env req now w
    = (Ok (User.toResponseObject (user_after_login u h now w),
           AuthService.generateTokens env (user_after_login u h now w) now), w')
    /\ users w'
       = map (fun row => if user_has_id i row then user_after_login u h now w else row)
             (users w)
    /\ verification_tokens w' = verification_tokens w
    /\ password_resets w' = password_resets w
    /\ social_accounts w' = social_accounts w
    /\ outbox w' = outbox w.
Proof.
  unfold account_of, verification_required. intros H Hid Hl Ha Hv Hp Hc.
  destruct (found_has_id _ _ _ H) as [_ Hin].
  pose proof (existsb_of_member i u (users w) Hin Hid) as Hex.
  unfold AuthService.login, user_getOne_with_password_by_email, bind, get_world, ret,
    throw_if, AuthService.comparePassword.
  rewrite H, Hl, Ha. simpl. rewrite Hv, Hp. simpl. rewrite Hc. simpl.
  unfold user_save, hashPassword, bind, get_world, ret, draw, modify_world,
    user_after_login, hashed_password, truthy. simpl. rewrite Hp.
  assert (Hex' : existsb (user_has_id i) (users w) = true) by exact Hex.
  destruct u as [uid un ue uf ul up ur uav uv ua ulk ull uc uu]. simpl in *. subst.
  destruct (String.eqb_spec h "") as [E|E]; [subst h|]; simpl; rewrite Hex'; simpl;
    (eexists; split; [reflexivity|]); simpl; repeat split.
Qed.

(** Every failure of [login] precedes its one write: the save of a row
    that has its primary key is an update, which the database does not
    refuse. *)
Lemma login_throw_unchanged env req now w e w' :
  (forall u, account_of (login_email req) w = Some u -> User.id u <> None) ->
  AuthService.login env req now w = (Throw e, w') -> w' = w.
Proof.
  intros Hkey H. unfold account_of in Hkey.
  unfold AuthService.login, user_getOne_with_password_by_email, bind, get_world, ret,
    throw_if, throw, AuthService.comparePassword in H.
  destruct (List.find _ (users w)) as [u|] eqn:Hfind; simpl in H; [|now inversion H].
  destruct (User.isLocked u); simpl in H; [now inversion H|].
  destruct (User.isActive u); simpl in H; [|now inversion H].
  destruct (env_is _ _ && negb _); simpl in H; [now inversion H|].
  destruct (User.password u) as [h|] eqn:Hp; simpl in H; [|now inversion H].
  destruct (bcrypt_compare _ h); simpl in H; [|now inversion H].
  destruct (User.id u) as [i|] eqn:Hid; [|destruct (Hkey u eq_refl Hid)].
  destruct (found_has_id _ _ _ Hfind) as [_ Hin].
  destruct (user_save_update (User.set_lastLogin (Some now) u) now w i Hid
              (existsb_of_member i u (users w) Hin Hid)) as (u' & w1 & Hs & _).
  rewrite Hs in H. discriminate.
Qed.
End LoginFacts.

Section LoginProperties.
Context {P : Platform}.

(** X3.  A failed [login] writes nothing (the row of the account having
    its primary key, as a stored row has), and an email without account and
    a wrong password for an existing account fail with the same error,
    ['Invalid credentials']. *)
Theorem X3_login_failure_is_uniform_and_writes_nothing (env : Env) (req : LoginUserDto)
        (now : Z) (w : World) :
  (forall e w',
      (forall u, account_of (login_email req) w = Some u -> User.id u <> None) ->
      AuthService.login env req now w = (Throw e, w') -> w' = w)
  /\ (account_of (login_email req) w = None ->
      AuthService.login env req now w = (Throw (Error "Invalid credentials"), w))
  /\ (forall u h,
        account_of (login_email req) w = Some u ->
        User.isLocked u = false ->
        User.isActive u = true ->
        verification_required env && negb (User.isVerified u) = false ->
        User.password u = Some h ->
        bcrypt_compare (login_password req) h = false ->
        AuthService.login env req now w = (Throw (Error "Invalid credentials"), w)).
Proof.
  split; [|split].
  - intros e w'. apply login_throw_unchanged.
  - apply login_unknown_email.
  - intros u h. apply login_wrong_password.
Qed.

(** X4.  The account state is tested before the password: a locked account
    is refused as locked and an inactive one as inactive whatever password
    is given, right or wrong. *)
Theorem X4_login_reports_account_state_before_password (env : Env) (req : LoginUserDto)
        (now : Z) (w : World) (u : User.t) :
  account_of (login_email req) w = Some u ->
  (User.isLocked u = true ->
   AuthService.login env req now w
   = (Throw (Error "Your account has been locked. Please contact support."), w))
  /\ (User.isLocked u = false ->
      User.isActive u = false ->
      AuthService.login env req now w
      = (Throw (Error "Your account is inactive. Please contact support."), w)).
Proof.
  intros H. split.
  - apply login_locked; assumption.
  - apply login_inactive; assumption.
Qed.

(** X5.  A login with the right password on an active, unlocked account
    (verified, or verification not required) succeeds: it stamps
    [lastLogin] with the clock, returns the user object without password
    and the token pair generated for that user, and writes the users table
    only. *)
Theorem X5_login_success_stamps_lastLogin (env : Env) (req : LoginUserDto) (now : Z)
        (w : World) (u : User.t) (i h : string) :
  account_of (login_email req) w = Some u ->
  User.id u = Some i ->
  User.isLocked u = false ->
  User.isActive u = true ->
  verification_required env && negb (User.isVerified u) = false ->
  User.password u = Some h ->
  bcrypt_compare (login_password req) h = true ->
  exists user w',
    AuthService.login env req now w
    = (Ok (User.toResponseObject user, AuthService.generateTokens env user now), w')
    /\ User.id user = Some i
    /\ User.email user = User.email u
    /\ User.lastLogin user = Some now
    /\ json_get "lastLogin" (User.toResponseObject user) = Some (JDate now)
    /\ verification_tokens w' = verification_tokens w
    /\ password_resets w' = password_resets w
    /\ social_accounts w' = social_accounts w
    /\ outbox w' = outbox w.
Proof.
  intros H Hid Hl Ha Hv Hp Hc.
  destruct (login_success env req now w u i h H Hid Hl Ha Hv Hp Hc)
    as (w' & Hlogin & _ & H1 & H2 & H3 & H4).
  exists (user_after_login u h now w), w'.
  split; [exact Hlogin|]. split; [exact Hid|]. split; [reflexivity|].
  split; [reflexivity|]. split; [|auto].
  unfold User.toResponseObject, json_get, User.own_properties, user_after_login. simpl.
  rewrite Hid. destruct (User.createdAt u); reflexivity.
Qed.

(** X6.  [login] saves the object it loaded together with its password
    hash, and the entity hook hashes whatever password the saved object
    carries: after a successful login the stored password of the account is
    the hash of the hash that was stored before; rows with another id keep
    theirs. *)
Theorem X6_login_hashes_the_stored_hash_again (env : Env) (req : LoginUserDto) (now : Z)
        (w : World) (u : User.t) (i h : string) :
  account_of (login_email req) w = Some u ->
  User.id u = Some i ->
  User.isLocked u = false ->
  User.isActive u = true ->
  verification_required env && negb (User.isVerified u) = false ->
  User.password u = Some h ->
  bcrypt_compare (login_password req) h = true ->
  (forall row,
      In row (users (snd (AuthService.login env req now w))) ->
      user_has_id i row = true ->
      User.password row = Some (hashed_password h (bcrypt_genSalt (draws w))))
  /\ (forall row,
        In row (users (snd (AuthService.login env req now w))) ->
        user_has_id i row = false ->
        In row (users w)).
Proof.
  intros H Hid Hl Ha Hv Hp Hc.
  destruct (login_success env req now w u i h H Hid Hl Ha Hv Hp Hc)
    as (w' & Hlogin & Husers & _).
  rewrite Hlogin. simpl. rewrite Husers. split.
  - intros row Hin Hrow. apply in_map_iff in Hin as (x & Hx & _).
    destruct (user_has_id i x) eqn:E; subst row; [reflexivity|congruence].
  - intros row Hin Hrow. apply in_map_iff in Hin as (x & Hx & Hin).
    destruct (user_has_id i x) eqn:E; subst row; [|exact Hin].
    unfold user_after_login, user_has_id in Hrow. simpl in Hrow.
    rewrite Hid, String.eqb_refl in Hrow. discriminate.
Qed.
End LoginProperties.

Section LoginExamples.
Import Samples Scenarios.

Lemma X3_login_failure_is_uniform_and_writes_nothing_witness :
  AuthService.login default_env unknown_login (T0 + 5) alice_registered
  = (Throw (Error "Invalid credentials"), alice_registered)
  /\ AuthService.login default_env wrong_login (T0 + 5) alice_registered
     = (Throw (Error "Invalid credentials"), alice_registered)
  /\ snd (AuthService.login strict_env alice_login (T0 + 5) locked_world) = locked_world.
Proof.
  destruct (X3_login_failure_is_uniform_and_writes_nothing default_env unknown_login
              (T0 + 5) alice_registered) as (_ & Hunknown & _).
  destruct (X3_login_failure_is_uniform_and_writes_nothing default_env wrong_login
              (T0 + 5) alice_registered) as (_ & _ & Hwrong).
  destruct (X3_login_failure_is_uniform_and_writes_nothing strict_env alice_login
              (T0 + 5) locked_world) as (Hthrow & _ & _).
  split; [apply Hunknown; reflexivity|]. split.
  - apply (Hwrong alice_row "bcrypt(salt0,Abc12345!)"); reflexivity.
  - apply (Hthrow (Error "Your account has been locked. Please contact support."));
      [|reflexivity].
    intros u Hu. vm_compute in Hu. injection Hu as <-. discriminate.
Defined.

Lemma X4_login_reports_account_state_before_password_witness :
  AuthService.login default_env wrong_login (T0 + 5) locked_world
  = (Throw (Error "Your account has been locked. Please contact support."), locked_world)
  /\ AuthService.login default_env wrong_login (T0 + 5) inactive_world
     = (Throw (Error "Your account is inactive. Please contact support."), inactive_world).
Proof.
  split.
  - apply (X4_login_reports_account_state_before_password default_env wrong_login
             (T0 + 5) locked_world (lock alice_row)); reflexivity.
  - apply (X4_login_reports_account_state_before_password default_env wrong_login
             (T0 + 5) inactive_world (deactivate alice_row)); reflexivity.
Defined.

Lemma X5_login_success_stamps_lastLogin_witness :
  exists user w',
    AuthService.login default_env alice_login (T0 + 5) alice_registered
    = (Ok (User.toResponseObject user,
           AuthService.generateTokens default_env user (T0 + 5)), w')
    /\ User.id user = Some "uuid-1"
    /\ User.email user = "alice@x.com"
    /\ User.lastLogin user = Some (T0 + 5)
    /\ json_get "lastLogin" (User.toResponseObject user) = Some (JDate (T0 + 5))
    /\ verification_tokens w' = verification_tokens alice_registered
    /\ password_resets w' = password_resets alice_registered
    /\ social_accounts w' = social_accounts alice_registered
    /\ outbox w' = outbox alice_registered.
Proof.
  apply (X5_login_success_stamps_lastLogin default_env alice_login (T0 + 5)
           alice_registered alice_row "uuid-1" "bcrypt(salt0,Abc12345!)"); reflexivity.
Defined.

Lemma X6_login_hashes_the_stored_hash_again_witness :
  (forall row,
      In row (users (snd (AuthService.login default_env alice_login (T0 + 5)
                            alice_registered))) ->
      user_has_id "uuid-1" row = true ->
      User.password row = Some "bcrypt(salt4,bcrypt(salt0,Abc12345!))")
  /\ (forall row,
        In row (users (snd (AuthService.login default_env alice_login (T0 + 5)
                              alice_registered))) ->
        user_has_id "uuid-1" row = false ->
        In row (users alice_registered)).
Proof.
  refine (X6_login_hashes_the_stored_hash_again default_env alice_login (T0 + 5)
            alice_registered alice_row "uuid-1" "bcrypt(salt0,Abc12345!)"
            _ _ _ _ _ _ _); reflexivity.
Defined.
End LoginExamples.

(** ** Saving, verifying an email, resetting a password *)

Section SaveFacts.
Context {P : Platform}.

Lemma user_save_update_eq (u : User.t) (now : Z) (w : World) (i : string) :
  User.id u = Some i ->
  existsb (user_has_id i) (users w) = true ->
  user_save u now w
  = (Ok (User.set_updatedAt (Some now) (after_hook u w)), after_update u i now w).
Proof.
  intros Hid Hex.
  unfold user_save, hashPassword, bind, get_world, ret, draw, modify_world, after_update,
    after_hook.
  destruct (truthy (User.password u)) as [p|]; simpl; rewrite Hid; simpl; rewrite Hex;
    reflexivity.
Qed.

Lemma find_app_none {A} (f : A -> bool) (l l' : list A) :
  List.find f l = None -> List.find f (l ++ l') = List.find f l'.
Proof.
  induction l as [|a l IH]; [reflexivity|]. simpl.
  destruct (f a); [discriminate|exact IH].
Qed.

Lemma existsb_false_forall {A} (f : A -> bool) (l : list A) :
  existsb f l = false -> forall x, In x l -> f x = false.
Proof.
  intros H x Hin. destruct (f x) eqn:E; [|reflexivity].
  assert (existsb f l = true) by (apply existsb_exists; eauto). congruence.
Qed.

Lemma map_untouched {A} (f : A -> bool) (g : A -> A) (l : list A) :
  (forall x, In x l -> f x = false) ->
  map (fun row => if f row then g row else row) l = l.
Proof.
  intros H. induction l as [|a l IH]; [reflexivity|]. simpl.
  rewrite (H a (or_introl eq_refl)). f_equal. apply IH. intros x Hx. apply H. now right.
Qed.

Lemma verifyEmail_effect token now w x u :
  verification_lookup token w = Some x ->
  VerificationToken.isValid x now = true ->
  List.find (user_has_id (VerificationToken.userId x)) (users w) = Some u ->
  AuthService.verifyEmail token now w
  = (Ok "Email verified successfully",
     set_verification_tokens
       (verification_marked x (verification_tokens w))
       (after_update (User.set_isVerified true (strip_password u))
                     (VerificationToken.userId x) now w)).
Proof.
  intros Hf Hv Hu. unfold AuthService.verifyEmail, bind, throw_if.
  rewrite verification_token_findOne_eq. unfold verification_lookup in Hf.
  rewrite Hf, Hv, Hu. simpl.
  rewrite (user_save_update_eq _ now w (VerificationToken.userId x)).
  - reflexivity.
  - simpl. exact (found_user_id _ _ _ Hu).
  - exact (find_existsb _ _ _ Hu).
Qed.

Lemma resetPassword_effect dto now w x u :
  String.eqb (reset_password dto) (reset_confirmPassword dto) = true ->
  reset_lookup (reset_token dto) w = Some x ->
  PasswordReset.isValid x now = true ->
  List.find (user_has_id (PasswordReset.userId x)) (users w) = Some u ->
  AuthService.resetPassword dto now w
  = (Ok "Password reset successful",
     set_password_resets
       (reset_marked x (password_resets w))
       (after_update (User.set_password (Some (reset_password dto)) (strip_password u))
                     (PasswordReset.userId x) now w)).
Proof.
  intros Hm Hf Hv Hu. unfold AuthService.resetPassword, bind, throw_if. rewrite Hm. simpl.
  rewrite password_reset_findOne_eq. unfold reset_lookup in Hf. rewrite Hf, Hv, Hu.
  simpl.
  rewrite (user_save_update_eq _ now w (PasswordReset.userId x)).
  - unfold ret, password_reset_save, modify_world, reset_marked, after_update. simpl.
    destruct (String.eqb (reset_password dto) ""); reflexivity.
  - simpl. exact (found_user_id _ _ _ Hu).
  - exact (find_existsb _ _ _ Hu).
Qed.

(** X7.  [verifyEmail] with a valid token sets [isVerified] on every row of
    the owning identity, leaves every stored password as it was, and
    consumes the token: the same token is refused from then on. *)
Theorem X7_verifyEmail_verifies_owner_and_consumes_token (token : string) (now now' : Z)
        (w : World) (x : VerificationToken.t) (u : User.t) :
  verification_lookup token w = Some x ->
  VerificationToken.id x <> None ->
  VerificationToken.isValid x now = true ->
  List.find (user_has_id (VerificationToken.userId x)) (users w) = Some u ->
  exists w1,
    AuthService.verifyEmail token now w = (Ok "Email verified successfully", w1)
    /\ (forall row, In row (users w1) ->
                    user_has_id (VerificationToken.userId x) row = true ->
                    User.isVerified row = true)
    /\ map User.password (users w1) = map User.password (users w)
    /\ AuthService.verifyEmail token now' w1
       = (Throw (Error "Verification token has expired"), w1)
    /\ password_resets w1 = password_resets w
    /\ social_accounts w1 = social_accounts w
    /\ outbox w1 = outbox w.
Proof.
  intros Hf Hid Hv Hu. eexists. split; [exact (verifyEmail_effect _ _ _ _ _ Hf Hv Hu)|].
  unfold after_update, after_hook. simpl.
  split; [|split; [|split; [|repeat split]]].
  - intros row Hin Hrow. apply in_map_iff in Hin as (r & Hr & _).
    destruct (user_has_id (VerificationToken.userId x) r) eqn:E; subst row.
    + reflexivity.
    + congruence.
  - rewrite map_map. apply map_ext. intros r.
    destruct (user_has_id (VerificationToken.userId x) r); reflexivity.
  - destruct (verification_found_used_after_save _ _ _ Hf Hid) as (x' & Hx' & Hused).
    apply verifyEmail_not_valid with (x := x').
    + exact Hx'.
    + unfold VerificationToken.isValid. rewrite Hused. reflexivity.
Qed.
End SaveFacts.

(** ** From registration to login, from a forgotten password to a new one *)

Section Journeys.
Context {P : Platform}.

Lemma find_none_of_existsb {A} (f : A -> bool) (l : list A) :
  existsb f l = false -> List.find f l = None.
Proof.
  intros H. destruct (List.find f l) eqn:E; [|reflexivity].
  apply find_existsb in E. congruence.
Qed.

Lemma not_taken_find_none (f : User.t -> bool) (l : list User.t) :
  is_Some_bool (List.find f l) = false -> List.find f l = None.
Proof. destruct (List.find f l); [discriminate|reflexivity]. Qed.

Lemma login_unverified env req now w u :
  verification_required env = true ->
  account_of (login_email req) w = Some u ->
  User.isLocked u = false ->
  User.isActive u = true ->
  User.isVerified u = false ->
  AuthService.login env req now w
  = (Throw (Error "Please verify your email before logging in"), w).
Proof.
  unfold verification_required, account_of. intros Hreq Hfind Hl Ha Hv.
  unfold AuthService.login, user_getOne_with_password_by_email, bind, get_world, ret,
    throw_if.
  rewrite Hfind, Hl, Ha, Hreq, Hv. reflexivity.
Qed.

(** X8.  The whole journey of a new user under
    [REQUIRE_EMAIL_VERIFICATION=true]: after a registration with a free
    email and username, a login with the registered password is refused for
    lack of verification; [verifyEmail] with the token that was sent
    succeeds within 24 hours; and the same login then succeeds, for a user
    that is verified.  The transport is assumed to take the verification
    mail, the random token and the generated id to be fresh, and bcrypt to
    accept the password against its own hash. *)
Theorem X8_register_verify_login (env : Env) (dto : RegisterUserDto) (now t1 t2 t3 : Z)
        (w : World) :
  let token := randomBytes32_hex (draws w + 2) in
  let req := mkLoginUserDto (reg_email dto) (reg_password dto) in
  verification_required env = true ->
  email_taken (reg_email dto) w = false ->
  username_taken (reg_username dto) w = false ->
  reg_password dto <> "" ->
  register_mail_refused dto w = None ->
  bcrypt_compare (reg_password dto)
                 (bcrypt_hash (reg_password dto) (bcrypt_genSalt (draws w))) = true ->
  verification_lookup token w = None ->
  existsb (user_has_id (uuid (S (draws w)))) (users w) = false ->
  t2 <= now + 24 * 60 * 60 * 1000 ->
  exists w1 w2 w3 user,
    AuthService.register env dto now w
    = (Ok (registered_user dto now w,
           AuthService.generateTokens env (registered_user dto now w) now), w1)
    /\ In (mkEmail (reg_email dto) VerificationEmail token) (outbox w1)
    /\ AuthService.login env req t1 w1
       = (Throw (Error "Please verify your email before logging in"), w1)
    /\ AuthService.verifyEmail token t2 w1 = (Ok "Email verified successfully", w2)
    /\ AuthService.login env req t3 w2
       = (Ok (User.toResponseObject user, AuthService.generateTokens env user t3), w3)
    /\ User.isVerified user = true
    /\ User.email user = reg_email dto
    /\ User.id user = User.id (registered_user dto now w).
Proof.
  intros token req Hreq He Hu Hpw Hmail Hlaw Hfresh Hid Ht2.
  pose proof (register_fresh env dto now w He Hu) as Hreg. rewrite Hmail in Hreg.
  apply String.eqb_neq in Hpw.
  assert (Hdraw : register_token_draw dto w = (draws w + 2)%nat)
    by (unfold register_token_draw; rewrite Hpw; reflexivity).
  set (vt := registered_token dto now w).
  set (w1 := set_outbox (outbox w ++ [register_mail dto w]) (registered_world dto now w))
    in *.
  assert (Husers : users w1 = (users w ++ [registered_user dto now w])%list)
    by reflexivity.
  assert (Htoks : verification_tokens w1 = (verification_tokens w ++ [vt])%list)
    by reflexivity.
  assert (Hvu : VerificationToken.userId vt = id_of (registered_user dto now w))
    by reflexivity.
  assert (Hvused : VerificationToken.isUsed vt = false) by reflexivity.
  assert (Hvexp : VerificationToken.expiresAt vt = now + Time.day_ms) by reflexivity.
  assert (Hvtok : VerificationToken.token vt = token)
    by (subst vt token; unfold registered_token; cbn; rewrite Hdraw; reflexivity).
  assert (Hout : outbox w1
                 = (outbox w ++ [mkEmail (reg_email dto) VerificationEmail token])%list)
    by (subst w1 token; unfold register_mail; cbn; rewrite Hdraw; reflexivity).
  clearbody vt w1.
  assert (Hru : registered_user dto now w
                = User.mk (Some (uuid (S (draws w)))) (reg_username dto) (reg_email dto)
                          (reg_firstName dto) (reg_lastName dto)
                          (Some (bcrypt_hash (reg_password dto) (bcrypt_genSalt (draws w))))
                          STUDENT None false true false None (Some now) (Some now)).
  { unfold registered_user, hashed_password. rewrite Hpw. reflexivity. }
  set (ru := registered_user dto now w) in *.
  assert (Hemail1 : account_of (reg_email dto) w1 = Some ru).
  { unfold account_of. rewrite Husers.
    rewrite find_app_none by (apply not_taken_find_none; exact He).
    rewrite Hru. simpl. rewrite String.eqb_refl. reflexivity. }
  assert (Hlookup : verification_lookup token w1 = Some vt).
  { unfold verification_lookup in *. rewrite Htoks.
    rewrite find_app_none by exact Hfresh. simpl.
    rewrite Hvtok, String.eqb_refl. reflexivity. }
  assert (Hvalid : VerificationToken.isValid vt t2 = true).
  { rewrite verification_isValid_spec, Hvused, Hvexp. unfold Time.day_ms. simpl.
    apply Z.leb_le. lia. }
  assert (Howner : List.find (user_has_id (VerificationToken.userId vt)) (users w1)
                   = Some ru).
  { rewrite Hvu, Husers, Hru. unfold id_of. simpl.
    rewrite find_app_none by (apply find_none_of_existsb; exact Hid).
    unfold user_has_id. simpl. rewrite String.eqb_refl. reflexivity. }
  pose proof (verifyEmail_effect token t2 w1 vt ru Hlookup Hvalid Howner) as Hverify.
  set (w2 := set_verification_tokens _ _) in Hverify.
  set (rv := User.mk (Some (uuid (S (draws w)))) (reg_username dto) (reg_email dto)
                     (reg_firstName dto) (reg_lastName dto)
                     (Some (bcrypt_hash (reg_password dto) (bcrypt_genSalt (draws w))))
                     STUDENT None true true false None (Some now) (Some t2)).
  assert (Husers2 : users w2 = (users w ++ [rv])%list).
  { subst w2. unfold after_update, after_hook. simpl. rewrite Husers, map_app.
    rewrite Hvu. f_equal.
    - apply map_untouched. rewrite Hru. unfold id_of. simpl.
      apply existsb_false_forall. exact Hid.
    - rewrite Hru. unfold id_of, user_has_id, merge_user. simpl.
      rewrite String.eqb_refl. reflexivity. }
  assert (Hemail2 : account_of (reg_email dto) w2 = Some rv).
  { unfold account_of. rewrite Husers2.
    rewrite find_app_none by (apply not_taken_find_none; exact He).
    simpl. rewrite String.eqb_refl. reflexivity. }
  destruct (login_success env req t3 w2 rv (uuid (S (draws w)))
              (bcrypt_hash (reg_password dto) (bcrypt_genSalt (draws w))))
    as (w3 & Hlogin & _); try reflexivity.
  - exact Hemail2.
  - simpl. apply andb_false_r.
  - exact Hlaw.
  - exists w1, w2, w3,
      (user_after_login rv (bcrypt_hash (reg_password dto) (bcrypt_genSalt (draws w)))
                        t3 w2).
    split; [exact Hreg|]. split; [rewrite Hout; apply in_or_app; right; now left|].
    split.
    { apply login_unverified with (u := ru); try assumption; rewrite Hru; reflexivity. }
    split; [exact Hverify|]. split; [exact Hlogin|].
    rewrite Hru. repeat split.
Qed.

Lemma forgotPassword_known email now w u :
  account_of email w = Some u ->
  reset_mail_refused u w = None ->
  exists x,
    AuthService.forgotPassword email now w
    = (Ok "Password reset instructions sent to your email",
       set_outbox (outbox w ++ [mkEmail (User.email u) PasswordResetEmail
                                        (PasswordReset.token x)])
         (set_password_resets (password_resets w ++ [x])
            (set_draws (S (S (draws w))) w)))
    /\ PasswordReset.token x = randomBytes32_hex (draws w)
    /\ PasswordReset.userId x = id_of u
    /\ PasswordReset.isUsed x = false
    /\ PasswordReset.expiresAt x = now + Time.hour_ms
    /\ PasswordReset.id x = Some (uuid (S (draws w))).
Proof.
  unfold account_of, reset_mail_refused, reset_mail. intros H Hmail.
  unfold AuthService.forgotPassword, bind. rewrite user_findOne_by_email_eq, H. simpl.
  unfold password_reset_create, sendPasswordResetEmail, sendEmail.
  unfold bind, draw, get_world, modify_world, ret. simpl.
  rewrite (Nat.add_comm (draws w) 2) in Hmail. simpl in Hmail. rewrite Hmail.
  exists (PasswordReset.mk (Some (uuid (S (draws w)))) (randomBytes32_hex (draws w))
                           (now + 60 * 60 * 1000) false (Some now) (id_of u)).
  split; [reflexivity|]. repeat split.
Qed.

(** X9.  The journey of a forgotten password: for an address that has an
    account, [forgotPassword] issues a reset token, valid for one hour, and
    sends it to that address; [resetPassword] with that token and two equal
    passwords then succeeds, every row of the identity gets the new
    password as the entity hook stores it, and the token is spent.  The
    transport is assumed to take the reset mail and the random token to be
    fresh. *)
Theorem X9_forgot_then_reset (email password : string) (now t2 t3 : Z) (w : World)
        (u : User.t) (i : string) :
  let token := randomBytes32_hex (draws w) in
  let dto := mkResetPasswordDto token password password in
  account_of email w = Some u ->
  User.id u = Some i ->
  reset_mail_refused u w = None ->
  reset_lookup token w = None ->
  t2 <= now + 60 * 60 * 1000 ->
  exists w1 w2,
    AuthService.forgotPassword email now w
    = (Ok "Password reset instructions sent to your email", w1)
    /\ outbox w1 = (outbox w ++ [mkEmail (User.email u) PasswordResetEmail token])%list
    /\ users w1 = users w
    /\ AuthService.resetPassword dto t2 w1 = (Ok "Password reset successful", w2)
    /\ (forall row, In row (users w2) -> user_has_id i row = true ->
                    User.password row
                    = Some (hashed_password password (bcrypt_genSalt (draws w + 2))))
    /\ (forall row, In row (users w2) -> user_has_id i row = false -> In row (users w))
    /\ AuthService.resetPassword dto t3 w2
       = (Throw (Error "Password reset token has expired"), w2).
Proof.
  intros token dto Hacc Hid Hmail Hfresh Ht2.
  destruct (forgotPassword_known email now w u Hacc Hmail)
    as (x & Hforgot & Htok & Huid & Hused & Hexp & Hxid).
  fold token in Htok.
  set (w1 := set_outbox _ _) in Hforgot.
  assert (Hmatch : String.eqb (reset_password dto) (reset_confirmPassword dto) = true)
    by apply String.eqb_refl.
  assert (Hlookup : reset_lookup (reset_token dto) w1 = Some x).
  { unfold reset_lookup in *. subst w1. simpl.
    rewrite find_app_none by exact Hfresh. simpl.
    rewrite Htok, String.eqb_refl. reflexivity. }
  assert (Hvalid : PasswordReset.isValid x t2 = true).
  { rewrite reset_isValid_spec, Hused, Hexp. unfold Time.hour_ms. simpl.
    apply Z.leb_le. lia. }
  assert (Huid' : PasswordReset.userId x = i).
  { rewrite Huid. unfold id_of. rewrite Hid. reflexivity. }
  destruct (found_has_id _ _ _ Hacc) as [_ Hin].
  destruct (List.find (user_has_id i) (users w)) as [u0|] eqn:Hu0.
  2: { pose proof (find_none _ _ Hu0 u Hin) as Hno.
       rewrite (user_has_own_id u i Hid) in Hno. discriminate. }
  assert (Howner : List.find (user_has_id (PasswordReset.userId x)) (users w1) = Some u0).
  { rewrite Huid'. subst w1. simpl. exact Hu0. }
  pose proof (resetPassword_effect dto t2 w1 x u0 Hmatch Hlookup Hvalid Howner) as Hreset.
  set (w2 := set_password_resets _ _) in Hreset.
  assert (Husers2 :
            users w2
            = map (fun row =>
                     if user_has_id i row
                     then User.set_updatedAt (Some t2)
                            (User.set_password
                               (Some (hashed_password password
                                        (bcrypt_genSalt (draws w + 2))))
                               (strip_password u0))
                     else row) (users w)).
  { subst w2 w1. unfold after_update, after_hook, hashed_password, truthy, merge_user.
    simpl. rewrite Huid'. apply map_ext. intros row.
    replace (draws w + 2)%nat with (S (S (draws w))) by lia.
    destruct (user_has_id i row); [|reflexivity].
    destruct (String.eqb_spec password "") as [E|E]; [subst password|]; reflexivity. }
  exists w1, w2. split; [exact Hforgot|].
  split; [subst w1; simpl; rewrite Htok; reflexivity|].
  split; [reflexivity|]. split; [exact Hreset|].
  split; [|split].
  - intros row Hrow Hhas. rewrite Husers2 in Hrow.
    apply in_map_iff in Hrow as (r & Hr & _).
    destruct (user_has_id i r) eqn:E; subst row; [reflexivity|congruence].
  - intros row Hrow Hhas. rewrite Husers2 in Hrow.
    apply in_map_iff in Hrow as (r & Hr & Hinr).
    destruct (user_has_id i r) eqn:E; subst row; [|exact Hinr].
    unfold user_has_id in Hhas. simpl in Hhas.
    rewrite (found_user_id _ _ _ Hu0), String.eqb_refl in Hhas. discriminate.
  - assert (Hxid' : PasswordReset.id x <> None) by (rewrite Hxid; discriminate).
    destruct (reset_found_used_after_save _ _ _ Hlookup Hxid') as (x' & Hx' & Hused').
    apply resetPassword_not_valid with (x := x'); [exact Hmatch| |].
    + unfold reset_lookup. subst w2. simpl.
      unfold after_update. simpl.
      destruct (String.eqb password ""); exact Hx'.
    + unfold PasswordReset.isValid. rewrite Hused'. reflexivity.
Qed.
End Journeys.

(** ** Issued tokens *)

Section IssuedTokens.
Context {P : Platform}.

Lemma verify_issued (claims : JwtClaims) (secret : string) (lifetime now t : Z) :
  jwt_verify (jwt_sign claims secret lifetime now) secret t
  = if now / 1000 + lifetime <=? t / 1000
    then Throw (mkJsError "TokenExpiredError" "jwt expired")
    else Ok claims.
Proof. unfold jwt_verify, jwt_sign. rewrite String.eqb_refl. reflexivity. Qed.

Lemma verify_other_secret (claims : JwtClaims) (secret other : string) (lifetime now t : Z) :
  secret <> other ->
  jwt_verify (jwt_sign claims secret lifetime now) other t
  = Throw (mkJsError "JsonWebTokenError" "invalid signature").
Proof.
  intros H. unfold jwt_verify, jwt_sign.
  apply String.eqb_neq in H. rewrite H. reflexivity.
Qed.

(** X10.  The pair [generateTokens] issues at [now] for a stored, active,
    unlocked identity is honoured until it expires and not a second longer:
    [authenticate] attaches the identity (without its password) while the
    clock in seconds is below [iat + access lifetime] and answers 401
    ['Token expired'] from then on; [refreshTokens] exchanges the refresh
    token for a new pair while it is below [iat + refresh lifetime], any
    number of times since it writes nothing, and refuses it from then on. *)
Theorem X10_issued_tokens_honoured_until_expiry (env : Env) (user stored : User.t)
        (now t : Z) (w : World) :
  let tokens := AuthService.generateTokens env user now in
  List.find (user_has_id (id_of user)) (users w) = Some stored ->
  User.isActive stored = true ->
  User.isLocked stored = false ->
  (t / 1000 < now / 1000 + access_lifetime env ->
   AuthMiddleware.authenticate env (Some [Word "Bearer"; TokenWord (accessToken tokens)]) t w
   = inr (strip_password stored))
  /\ (now / 1000 + access_lifetime env <= t / 1000 ->
      AuthMiddleware.authenticate env (Some [Word "Bearer"; TokenWord (accessToken tokens)])
                                  t w
      = inl (mkResponse 401 (message_body "Token expired")))
  /\ (t / 1000 < now / 1000 + refresh_lifetime env ->
      AuthService.refreshTokens env (refreshToken tokens) t w
      = (Ok (AuthService.generateTokens env (strip_password stored) t), w))
  /\ (now / 1000 + refresh_lifetime env <= t / 1000 ->
      AuthService.refreshTokens env (refreshToken tokens) t w
      = (Throw (Error "Invalid refresh token"), w)).
Proof.
  intros tokens Hfind Hactive Hlocked. subst tokens.
  unfold AuthService.generateTokens. cbn [accessToken refreshToken].
  split; [|split; [|split]].
  - intros Ht. unfold AuthMiddleware.authenticate.
    change (negb (String.eqb "Bearer" "Bearer")) with false. cbv iota.
    rewrite verify_issued.
    destruct (Z.leb_spec (now / 1000 + access_lifetime env) (t / 1000)); [lia|].
    rewrite user_findOne_eq. cbn [claim_id fst]. rewrite Hfind. simpl.
    rewrite Hactive, Hlocked. reflexivity.
  - intros Ht. unfold AuthMiddleware.authenticate.
    change (negb (String.eqb "Bearer" "Bearer")) with false. cbv iota.
    rewrite verify_issued.
    destruct (Z.leb_spec (now / 1000 + access_lifetime env) (t / 1000)); [|lia].
    reflexivity.
  - intros Ht. rewrite refreshTokens_eq. unfold refresh_outcome.
    rewrite verify_issued.
    destruct (Z.leb_spec (now / 1000 + refresh_lifetime env) (t / 1000)); [lia|].
    cbn [claim_id]. rewrite Hfind. reflexivity.
  - intros Ht. rewrite refreshTokens_eq. unfold refresh_outcome.
    rewrite verify_issued.
    destruct (Z.leb_spec (now / 1000 + refresh_lifetime env) (t / 1000)); [|lia].
    reflexivity.
Qed.

(** X11.  The two kinds of token are kept apart by their secrets: when the
    access secret and the refresh secret differ, [refreshTokens] refuses
    every access token [generateTokens] issued and [authenticate] refuses
    every refresh token, with 401 ['Invalid token']. *)
Theorem X11_access_and_refresh_tokens_are_not_interchangeable (env : Env) (user : User.t)
        (now t : Z) (w : World) :
  let tokens := AuthService.generateTokens env user now in
  AuthService.access_secret env <> AuthService.refresh_secret env ->
  AuthService.refreshTokens env (accessToken tokens) t w
  = (Throw (Error "Invalid refresh token"), w)
  /\ AuthMiddleware.authenticate env (Some [Word "Bearer"; TokenWord (refreshToken tokens)])
                                 t w
     = inl (mkResponse 401 (message_body "Invalid token")).
Proof.
  intros tokens Hne. subst tokens.
  unfold AuthService.generateTokens. cbn [accessToken refreshToken]. split.
  - rewrite refreshTokens_eq. unfold refresh_outcome.
    rewrite verify_other_secret by exact Hne. reflexivity.
  - unfold AuthMiddleware.authenticate.
    change (negb (String.eqb "Bearer" "Bearer")) with false. cbv iota.
    rewrite verify_other_secret by congruence. reflexivity.
Qed.
End IssuedTokens.

(** ** Answers of the endpoints *)

Section Endpoints.
Context {P : Platform}.

Ltac split_validation :=
  match goal with
  | |- context [match ?l with [] => _ | _ :: _ => _ end] => destruct l
  end.

(** X12.  The status codes of the authentication endpoints: registration
    answers 201 or 400; login 200, 400 or 401; email verification, resend
    and password reset 200 or 400; forgot-password 200, or 400 for an
    address that is not an email; token refresh 200 or 401 for a string
    and 400 for a member that is missing or not a string; social login 200,
    400 or 401.  None of them answers 403 or 500. *)
Theorem X12_endpoint_status_codes (env : Env) (now : Z) (w : World) :
  (forall req, In (status (fst (AuthController.register env req now w))) [201; 400])
  /\ (forall req, In (status (fst (AuthController.login env req now w))) [200; 400; 401])
  /\ (forall token, In (status (fst (AuthController.verifyEmail env token now w))) [200; 400])
  /\ (forall email,
         In (status (fst (AuthController.resendVerification env email now w))) [200; 400])
  /\ (forall email,
         status (fst (AuthController.forgotPassword email now w))
         = if isEmail email then 200 else 400)
  /\ (forall req, In (status (fst (AuthController.resetPassword env req now w))) [200; 400])
  /\ (forall member,
         match member with
         | Some (JJwt _) | Some (JStr _) =>
             In (status (fst (AuthController.refreshToken env member now w))) [200; 401]
         | _ => status (fst (AuthController.refreshToken env member now w)) = 400
         end)
  /\ (forall provider token profile,
         In (status (fst (AuthController.socialAuth env provider token profile now w)))
            [200; 400; 401]).
Proof.
  repeat match goal with |- _ /\ _ => split end.
  - intros req. unfold AuthController.register, reply. split_validation.
    + unfold respond. destruct (AuthService.register env req now w) as [[a|e] w'];
        simpl; auto.
    + simpl. auto.
  - intros req. unfold AuthController.login, reply. split_validation.
    + unfold respond. destruct (AuthService.login env req now w) as [[a|e] w']; simpl; auto.
    + simpl. auto.
  - intros token. unfold AuthController.verifyEmail, reply. split_validation.
    + unfold respond. destruct (AuthService.verifyEmail token now w) as [[a|e] w'];
        simpl; auto.
    + simpl. auto.
  - intros email. unfold AuthController.resendVerification, reply. split_validation.
    + unfold respond.
      destruct (AuthService.resendVerificationEmail email now w) as [[a|e] w']; simpl; auto.
    + simpl. auto.
  - intros email. unfold AuthController.forgotPassword, reply, check.
    destruct (isEmail email); [|reflexivity].
    unfold respond. destruct (AuthService.forgotPassword email now w) as [[a|e] w'];
      reflexivity.
  - intros req. unfold AuthController.resetPassword, reply. split_validation.
    + unfold respond. destruct (AuthService.resetPassword req now w) as [[a|e] w'];
        simpl; auto.
    + simpl. auto.
  - intros member. unfold AuthController.refreshToken, respond, reply.
    destruct member as [[| | | raw | |token| |]|]; try reflexivity.
    + destruct (AuthService.refreshTokens env (JwtOpaque raw) now w) as [[a|e] w'];
        simpl; auto.
    + destruct (AuthService.refreshTokens env token now w) as [[a|e] w']; simpl; auto.
  - intros provider token profile. unfold AuthController.socialAuth, reply.
    destruct (SocialProvider_parse provider); [|simpl; auto].
    unfold respond. destruct (AuthService.socialAuth env _ now w) as [[[[j t] b]|e] w'];
      simpl; auto.
Qed.
End Endpoints.

(** ** The password pattern *)

Section PasswordPattern.

Lemma lookahead_finds (class : ascii -> bool) (s : string) :
  lookahead class s = true -> exists c, In c (chars s) /\ class c = true.
Proof.
  induction s as [|c s IH]; [discriminate|]. simpl.
  destruct (class c) eqn:E.
  - intros _. exists c. auto.
  - destruct (is_line_terminator c); [discriminate|].
    intros H. destruct (IH H) as (c' & Hin & Hc'). exists c'. auto.
Qed.

Lemma lookahead_append (class : ascii -> bool) (s t : string) :
  lookahead class s = true -> lookahead class (s +:+ t) = true.
Proof.
  induction s as [|c s IH]; [discriminate|]. simpl.
  destruct (class c); [reflexivity|].
  destruct (is_line_terminator c); [discriminate|]. exact IH.
Qed.

Lemma lookahead_line_break (class : ascii -> bool) (s t : string) :
  class "010"%char = false ->
  lookahead class s = false ->
  lookahead class (s +:+ String "010" t) = false.
Proof.
  intros Hnl. induction s as [|c s IH]; simpl.
  - intros _. rewrite Hnl. reflexivity.
  - destruct (class c); [discriminate|].
    destruct (is_line_terminator c); [reflexivity|]. exact IH.
Qed.

(** X13.  What the password pattern of the register, reset and change
    endpoints demands and what it does not.  An accepted password has a
    lower-case letter, an upper-case letter, a digit and one of [@$!%*?&].
    The pattern ends after the first character: whatever is appended to an
    accepted password, characters outside the listed classes included, is
    accepted too.  And what follows a line break does not count: it cannot
    make a rejected password acceptable. *)
Theorem X13_password_pattern :
  (forall s, matches_password_pattern s = true ->
             (exists c, In c (chars s) /\ is_lower c = true)
             /\ (exists c, In c (chars s) /\ is_upper c = true)
             /\ (exists c, In c (chars s) /\ is_digit c = true)
             /\ (exists c, In c (chars s) /\ is_symbol c = true))
  /\ (forall s t, matches_password_pattern s = true ->
                  matches_password_pattern (s +:+ t) = true)
  /\ (forall s t, matches_password_pattern s = false ->
                  matches_password_pattern (s +:+ String "010" t) = false).
Proof.
  split; [|split].
  - intros s H. unfold matches_password_pattern in H.
    repeat (apply andb_prop in H as [H ?]).
    repeat split; apply lookahead_finds; assumption.
  - intros s t H. unfold matches_password_pattern in *.
    repeat (apply andb_prop in H as [H ?]).
    rewrite !lookahead_append by assumption.
    destruct s; [discriminate|]. simpl. assumption.
  - intros s t H. unfold matches_password_pattern in *.
    destruct (lookahead is_lower s) eqn:E1.
    2: { rewrite (lookahead_line_break is_lower s t eq_refl E1). reflexivity. }
    destruct (lookahead is_upper s) eqn:E2.
    2: { rewrite (lookahead_line_break is_upper s t eq_refl E2).
         apply andb_false_intro1, andb_false_intro1, andb_false_intro1, andb_false_r. }
    destruct (lookahead is_digit s) eqn:E3.
    2: { rewrite (lookahead_line_break is_digit s t eq_refl E3).
         apply andb_false_intro1, andb_false_intro1, andb_false_r. }
    destruct (lookahead is_symbol s) eqn:E4.
    2: { rewrite (lookahead_line_break is_symbol s t eq_refl E4).
         apply andb_false_intro1, andb_false_r. }
    destruct s as [|c s]; [discriminate|].
    simpl in H. simpl. rewrite H. apply andb_false_r.
Qed.
End PasswordPattern.

(** ** Changing a password *)

Section PasswordChangeFacts.
Context {P : Platform}.
Import PasswordChange.

Lemma changePassword_mismatch userId dto now w :
  String.eqb (cp_newPassword dto) (cp_confirmPassword dto) = false ->
  changePassword userId dto now w = (Throw (Error "New passwords do not match"), w).
Proof.
  intros H. unfold changePassword, bind, throw_if. rewrite H. reflexivity.
Qed.

Lemma changePassword_unknown userId dto now w :
  String.eqb (cp_newPassword dto) (cp_confirmPassword dto) = true ->
  List.find (user_has_id userId) (users w) = None ->
  changePassword userId dto now w = (Throw (Error "User not found"), w).
Proof.
  intros H Hf. unfold changePassword, user_getOne_with_password_by_id, bind, throw_if,
    get_world, ret.
  rewrite H. simpl. rewrite Hf. reflexivity.
Qed.

Lemma changePassword_wrong_current userId dto now w u h :
  String.eqb (cp_newPassword dto) (cp_confirmPassword dto) = true ->
  List.find (user_has_id userId) (users w) = Some u ->
  User.password u = Some h ->
  bcrypt_compare (cp_currentPassword dto) h = false ->
  changePassword userId dto now w = (Throw (Error "Current password is incorrect"), w).
Proof.
  intros H Hf Hp Hc. unfold changePassword, user_getOne_with_password_by_id, bind,
    throw_if, get_world, ret, AuthService.comparePassword.
  rewrite H. simpl. rewrite Hf, Hp. simpl. rewrite Hc. reflexivity.
Qed.

Lemma changePassword_effect userId dto now w u h :
  String.eqb (cp_newPassword dto) (cp_confirmPassword dto) = true ->
  List.find (user_has_id userId) (users w) = Some u ->
  User.password u = Some h ->
  bcrypt_compare (cp_currentPassword dto) h = true ->
  changePassword userId dto now w
  = (Ok "Password changed successfully",
     after_update (User.set_password (Some (cp_newPassword dto)) u) userId now w).
Proof.
  intros H Hf Hp Hc. unfold changePassword, user_getOne_with_password_by_id, bind,
    throw_if, get_world, ret, AuthService.comparePassword.
  rewrite H. simpl. rewrite Hf, Hp. simpl. rewrite Hc. simpl.
  rewrite (user_save_update_eq _ now w userId).
  - reflexivity.
  - simpl. exact (found_user_id _ _ _ Hf).
  - exact (find_existsb _ _ _ Hf).
Qed.

Lemma changePassword_throw_unchanged userId dto now w e w' :
  changePassword userId dto now w = (Throw e, w') -> w' = w.
Proof.
  intros H.
  destruct (String.eqb (cp_newPassword dto) (cp_confirmPassword dto)) eqn:Hm.
  2: { rewrite (changePassword_mismatch _ _ _ _ Hm) in H. now inversion H. }
  destruct (List.find (user_has_id userId) (users w)) as [u|] eqn:Hf.
  2: { rewrite (changePassword_unknown _ _ _ _ Hm Hf) in H. now inversion H. }
  destruct (User.password u) as [h|] eqn:Hp.
  - destruct (bcrypt_compare (cp_currentPassword dto) h) eqn:Hc.
    + rewrite (changePassword_effect _ _ _ _ _ _ Hm Hf Hp Hc) in H. discriminate.
    + rewrite (changePassword_wrong_current _ _ _ _ _ _ Hm Hf Hp Hc) in H.
      now inversion H.
  - unfold changePassword, user_getOne_with_password_by_id, bind, throw_if, get_world,
      ret, AuthService.comparePassword in H.
    rewrite Hm in H. simpl in H. rewrite Hf, Hp in H. simpl in H. now inversion H.
Qed.

(** X14.  [changePassword] compares the two new passwords before it looks
    at the database, so a mismatch is reported even for an id without
    account; it then refuses an unknown id and a wrong current password.
    Every refusal leaves the database as it was.  With the right current
    password every row of the identity gets the new password as the entity
    hook stores it, and the rows of other identities are not touched. *)
Theorem X14_changePassword (userId : string) (dto : ChangePasswordDto) (now : Z)
        (w : World) :
  (forall e w', changePassword userId dto now w = (Throw e, w') -> w' = w)
  /\ (String.eqb (cp_newPassword dto) (cp_confirmPassword dto) = false ->
      changePassword userId dto now w = (Throw (Error "New passwords do not match"), w))
  /\ (forall u h,
        String.eqb (cp_newPassword dto) (cp_confirmPassword dto) = true ->
        List.find (user_has_id userId) (users w) = Some u ->
        User.password u = Some h ->
        bcrypt_compare (cp_currentPassword dto) h = false ->
        changePassword userId dto now w
        = (Throw (Error "Current password is incorrect"), w))
  /\ (forall u h,
        String.eqb (cp_newPassword dto) (cp_confirmPassword dto) = true ->
        List.find (user_has_id userId) (users w) = Some u ->
        User.password u = Some h ->
        bcrypt_compare (cp_currentPassword dto) h = true ->
        exists w',
          changePassword userId dto now w = (Ok "Password changed successfully", w')
          /\ (forall row, In row (users w') -> user_has_id userId row = true ->
                          User.password row
                          = Some (hashed_password (cp_newPassword dto)
                                                  (bcrypt_genSalt (draws w))))
          /\ (forall row, In row (users w') -> user_has_id userId row = false ->
                          In row (users w))).
Proof.
  split; [|split; [|split]].
  - intros e w'. apply changePassword_throw_unchanged.
  - apply changePassword_mismatch.
  - intros u h. apply changePassword_wrong_current.
  - intros u h Hm Hf Hp Hc. eexists.
    split; [exact (changePassword_effect _ _ _ _ _ _ Hm Hf Hp Hc)|].
    unfold after_update, after_hook, hashed_password, truthy, merge_user. simpl.
    split.
    + intros row Hrow Hhas.
      destruct (String.eqb_spec (cp_newPassword dto) "") as [E|E]; simpl in Hrow;
        apply in_map_iff in Hrow as (r & Hr & _);
        destruct (user_has_id userId r) eqn:Er; subst row; try congruence;
        simpl; rewrite ?E; reflexivity.
    + intros row Hrow Hhas.
      destruct (String.eqb_spec (cp_newPassword dto) "") as [E|E]; simpl in Hrow;
        apply in_map_iff in Hrow as (r & Hr & Hin);
        destruct (user_has_id userId r) eqn:Er; subst row; try exact Hin;
        unfold user_has_id in Hhas; simpl in Hhas;
        rewrite (found_user_id _ _ _ Hf), String.eqb_refl in Hhas; discriminate.
Qed.

(** X15.  The change-password endpoint validates the body first, then
    reads [req.user.id]: without a user object the read throws inside the
    [try] and the answer is 400, not 401; with a user object that has no
    id the answer is 401.  In both cases nothing is written. *)
Theorem X15_changePassword_endpoint_without_user (env : Env) (dto : ChangePasswordDto)
        (now : Z) (w : World) (u : User.t) :
  length_at_least 8 (cp_newPassword dto) = true ->
  matches_password_pattern (cp_newPassword dto) = true ->
  cp_confirmPassword dto = cp_newPassword dto ->
  (status (fst (changePassword_endpoint env None dto now w)) = 400
   /\ snd (changePassword_endpoint env None dto now w) = w)
  /\ (truthy (User.id u) = None ->
      changePassword_endpoint env (Some u) dto now w
      = (mkResponse 401 (message_body "Unauthorized"), w)).
Proof.
  intros Hl Hp Hc. unfold changePassword_endpoint, AuthController.password_checks, check.
  rewrite Hl, Hp, Hc, String.eqb_refl. simpl. split.
  - split; reflexivity.
  - intros Hid. rewrite Hid. reflexivity.
Qed.
End PasswordChangeFacts.

(** ** The middlewares *)

Section GuardFacts.
Context {P : Platform}.
Import Guards.

(** X16.  [optionalAuthenticate] attaches a user exactly when
    [authenticate] lets the request pass, and then the same user; where
    [authenticate] answers with an error, the optional variant goes on
    without a user. *)
Theorem X16_optional_attaches_what_authenticate_passes (env : Env)
        (authorization : option (list HeaderWord)) (now : Z) (w : World) :
  optionalAuthenticate env authorization now w
  = match AuthMiddleware.authenticate env authorization now w with
    | inr user => Some user
    | inl _ => None
    end.
Proof.
  unfold optionalAuthenticate, AuthMiddleware.authenticate.
  repeat match goal with
         | |- context [match ?x with _ => _ end] => is_var x; destruct x
         end;
    try reflexivity.
  all: destruct (negb (String.eqb _ "Bearer")); [reflexivity|].
  all: destruct (jwt_verify _ _ _) as [decoded|e];
    [ destruct (fst (user_findOne (claim_id decoded) w)) as [[user|]|]; try reflexivity;
      destruct (User.isActive user), (User.isLocked user); reflexivity
    | destruct (String.eqb (err_name e) "TokenExpiredError"); [reflexivity|];
      destruct (String.eqb (err_name e) "JsonWebTokenError"); reflexivity ].
Qed.

Lemma authenticate_passes env authorization now w u :
  AuthMiddleware.authenticate env authorization now w = inr u ->
  User.isActive u = true /\ User.isLocked u = false /\ User.password u = None
  /\ exists row, In row (users w) /\ u = strip_password row.
Proof.
  unfold AuthMiddleware.authenticate. intros H.
  crunch H. inversion H; subst.
  match goal with
  | E : option_map strip_password ?f = Some _ |- _ =>
      destruct f as [row|] eqn:F; simpl in E; [inversion E; subst|discriminate]
  end.
  repeat split.
  - match goal with E : negb _ = false |- _ => apply negb_false_iff in E; exact E end.
  - assumption.
  - exists row. split; [|reflexivity]. apply find_some in F. tauto.
Qed.

Lemma existsb_role (r : UserRole) (roles : list UserRole) :
  existsb (UserRole_eqb r) roles = true -> In r roles.
Proof.
  intros H. apply existsb_exists in H as (x & Hin & Hx).
  destruct r, x; try discriminate; exact Hin.
Qed.

(** X17.  What a handler behind [authenticate], [requireEmailVerification]
    and [authorize(roles)] can rely on: the user attached to the request is
    a stored identity, loaded without its password, that is active, not
    locked, verified, and whose role is one of [roles]; behind
    [isCurrentUser], its id is the one in the route. *)
Theorem X17_guarded_handler_guarantees (env : Env)
        (authorization : option (list HeaderWord)) (now : Z) (w : World)
        (roles : list UserRole) (userId : string) (u : User.t) :
  AuthMiddleware.authenticate env authorization now w = inr u ->
  requireEmailVerification (Some u) = None ->
  authorize roles (Some u) = None ->
  (exists row, In row (users w) /\ u = strip_password row)
  /\ User.password u = None
  /\ User.isActive u = true
  /\ User.isLocked u = false
  /\ User.isVerified u = true
  /\ In (User.role u) roles
  /\ (isCurrentUser (Some u) userId = None -> User.id u = Some userId).
Proof.
  intros Hauth Hverified Hrole.
  destruct (authenticate_passes _ _ _ _ _ Hauth) as (Ha & Hl & Hp & Hrow).
  unfold requireEmailVerification in Hverified. unfold authorize in Hrole.
  destruct (User.isVerified u); [|discriminate].
  destruct (existsb (UserRole_eqb (User.role u)) roles) eqn:Hr; [|discriminate].
  repeat (split; [assumption || reflexivity|]).
  split; [exact (existsb_role _ _ Hr)|].
  unfold isCurrentUser, same_id. intros Hc.
  destruct (User.id u) as [i|]; [|discriminate].
  destruct (String.eqb_spec i userId); [congruence|discriminate].
Qed.
End GuardFacts.

(** ** Connecting to the database *)

Section ConnectFacts.
Import Database.
Context {Connection : Type}.

Lemma connect_loop_success (attempt : nat -> Outcome Connection) (retries delay : Z)
      (k : nat) (c : Connection) :
  forall (remaining i : nat) (lastError : option JsError) (waited : Z),
    (forall j, (j < k)%nat -> exists e, attempt (i + j)%nat = Throw e) ->
    attempt (i + k)%nat = Ok c ->
    (k < remaining)%nat ->
    connect_loop Connection attempt retries delay remaining i lastError waited
    = mkRun Connection (Ok c) (S (i + k)) (waited + Z.of_nat k * delay).
Proof.
  induction k as [|k IH]; intros remaining i lastError waited Hfail Hok Hlt.
  - destruct remaining as [|r]; [lia|]. simpl.
    rewrite Nat.add_0_r in Hok. rewrite Hok. f_equal; [lia|lia].
  - destruct remaining as [|r]; [lia|]. simpl.
    destruct (Hfail 0%nat ltac:(lia)) as [e He]. rewrite Nat.add_0_r in He. rewrite He.
    rewrite (IH r (S i) (Some e) (waited + delay)).
    + f_equal; lia.
    + intros j Hj. destruct (Hfail (S j) ltac:(lia)) as [e' He'].
      exists e'. rewrite <- He'. f_equal. lia.
    + rewrite <- Hok. f_equal. lia.
    + lia.
Qed.

Lemma connect_loop_failure (attempt : nat -> Outcome Connection) (retries delay : Z) :
  forall (remaining i : nat) (lastError : option JsError) (waited : Z),
    (forall j, (j < remaining)%nat -> exists e, attempt (i + j)%nat = Throw e) ->
    exists message,
      connect_loop Connection attempt retries delay remaining i lastError waited
      = mkRun Connection (Throw (Error message)) (i + remaining)
              (waited + Z.of_nat remaining * delay)
      /\ message
         = "Failed to connect to database after " +:+ pretty retries +:+ " attempts: "
           +:+ match remaining with
               | O => match lastError with Some e => err_message e | None => "undefined" end
               | S r => match attempt (i + r)%nat with
                        | Throw e => err_message e
                        | Ok _ => ""
                        end
               end.
Proof.
  induction remaining as [|r IH]; intros i lastError waited Hfail.
  - simpl. eexists. split; [|reflexivity]. f_equal; lia.
  - simpl. destruct (Hfail 0%nat ltac:(lia)) as [e He]. rewrite Nat.add_0_r in He.
    rewrite He.
    destruct (IH (S i) (Some e) (waited + delay)) as (m & Hrun & Hm).
    + intros j Hj. destruct (Hfail (S j) ltac:(lia)) as [e' He'].
      exists e'. rewrite <- He'. f_equal. lia.
    + exists m. split.
      * rewrite Hrun. f_equal; lia.
      * rewrite Hm. f_equal. f_equal. f_equal.
        destruct r as [|r'].
        -- rewrite Nat.add_0_r, He. reflexivity.
        -- replace (S i + r')%nat with (i + S r')%nat by lia. reflexivity.
Qed.

(** X18.  [connectWithRetry] returns the connection of the first attempt
    that succeeds, provided it is among the first [retries]: it has then
    made exactly that many calls of [createConnection] and has waited
    [delay] once for every failed one. *)
Theorem X18_connect_returns_first_success (attempt : nat -> Outcome Connection)
        (retries delay : Z) (k : nat) (c : Connection) :
  (forall j, (j < k)%nat -> exists e, attempt j = Throw e) ->
  attempt k = Ok c ->
  Z.of_nat k < retries ->
  connectWithRetry Connection attempt retries delay
  = mkRun Connection (Ok c) (S k) (Z.of_nat k * delay).
Proof.
  intros Hfail Hok Hlt. unfold connectWithRetry.
  rewrite (connect_loop_success attempt retries delay k c); [reflexivity| | |lia].
  - intros j Hj. exact (Hfail j Hj).
  - exact Hok.
Qed.

(** X19.  When the first [retries] attempts all fail, [connectWithRetry]
    throws after exactly [retries] attempts, with the message of the last
    error, having waited [delay] after every one of them, the last
    included.  With no retry allowed it makes no attempt and the message
    ends in ['undefined']. *)
Theorem X19_connect_gives_up_after_retries (attempt : nat -> Outcome Connection)
        (retries delay : Z) :
  (forall j, Z.of_nat j < retries -> exists e, attempt j = Throw e) ->
  (0 < retries ->
   exists e,
     attempt (Z.to_nat (retries - 1)) = Throw e
     /\ connectWithRetry Connection attempt retries delay
        = mkRun Connection
            (Throw (Error ("Failed to connect to database after " +:+ pretty retries
                           +:+ " attempts: " +:+ err_message e)))
            (Z.to_nat retries) (retries * delay))
  /\ (retries <= 0 ->
      connectWithRetry Connection attempt retries delay
      = mkRun Connection
          (Throw (Error ("Failed to connect to database after " +:+ pretty retries
                         +:+ " attempts: undefined")))
          0 0).
Proof.
  intros Hfail. split.
  - intros Hpos. unfold connectWithRetry.
    destruct (connect_loop_failure attempt retries delay (Z.to_nat retries) 0 None 0)
      as (m & Hrun & Hm).
    { intros j Hj. apply Hfail. lia. }
    destruct (Hfail (Z.to_nat (retries - 1)) ltac:(lia)) as [e He].
    exists e. split; [exact He|].
    rewrite Hrun, Hm. f_equal.
    + f_equal. f_equal. f_equal. f_equal.
      destruct (Z.to_nat retries) as [|r] eqn:Er; [lia|].
      replace (0 + r)%nat with (Z.to_nat (retries - 1)) by lia.
      rewrite He. reflexivity.
    + lia.
  - intros Hneg. unfold connectWithRetry.
    replace (Z.to_nat retries) with 0%nat by lia. reflexivity.
Qed.
End ConnectFacts.

(** ** The text part of an email *)

Section EmailTextFacts.
Import EmailText.

Lemma chars_append (s t : string) : chars (s +:+ t) = (chars s ++ chars t)%list.
Proof. induction s as [|c s IH]; [reflexivity|]. simpl. now rewrite IH. Qed.

Lemma closes_cons (c : ascii) (s : string) :
  closes (String c s) = Ascii.eqb c ">" || closes s.
Proof. reflexivity. Qed.

Lemma no_close_has_no_tag (s : string) : closes s = false -> has_tag s = false.
Proof.
  induction s as [|c s IH]; [reflexivity|]. rewrite closes_cons. cbn [has_tag].
  intros H. apply orb_false_elim in H as [_ H].
  rewrite H, andb_false_r. simpl. exact (IH H).
Qed.

Lemma no_close_snoc (kept : string) (c : ascii) :
  closes kept = false -> Ascii.eqb c ">" = false ->
  closes (kept +:+ String c EmptyString) = false.
Proof.
  unfold closes. intros Hk Hc. rewrite chars_append, existsb_app, Hk. cbn [chars existsb].
  rewrite Hc. reflexivity.
Qed.

Lemma strip_from_has_no_tag (s : string) :
  has_tag (strip_from s None) = false
  /\ forall kept, closes kept = false -> has_tag (strip_from s (Some kept)) = false.
Proof.
  induction s as [|c s [IHn IHs]]; split.
  - reflexivity.
  - intros kept Hk. simpl. exact (no_close_has_no_tag kept Hk).
  - simpl. destruct (Ascii.eqb c "<") eqn:E.
    + apply IHs. reflexivity.
    + cbn [has_tag]. rewrite E, IHn. reflexivity.
  - intros kept Hk. simpl. destruct (Ascii.eqb c ">") eqn:E.
    + exact IHn.
    + apply IHs. exact (no_close_snoc kept c Hk E).
Qed.

Lemma append_assoc_one (kept : string) (c : ascii) (s : string) :
  (kept +:+ String c EmptyString) +:+ s = kept +:+ String c s.
Proof.
  induction kept as [|k kept IH]; [reflexivity|].
  change (String k ((kept +:+ String c EmptyString) +:+ s) = String k (kept +:+ String c s)).
  f_equal. exact IH.
Qed.

Lemma append_empty (kept : string) : kept +:+ EmptyString = kept.
Proof.
  induction kept as [|k kept IH]; [reflexivity|].
  change (String k (kept +:+ EmptyString) = String k kept). f_equal. exact IH.
Qed.

Lemma strip_from_unclosed (s kept : string) :
  closes s = false -> strip_from s (Some kept) = kept +:+ s.
Proof.
  revert kept. induction s as [|c s IH]; intros kept H; cbn [strip_from].
  - symmetry. apply append_empty.
  - rewrite closes_cons in H. apply orb_false_elim in H as [Hc H].
    rewrite Hc. rewrite (IH _ H). apply append_assoc_one.
Qed.

Lemma strip_tags_fixed (s : string) : has_tag s = false -> strip_tags s = s.
Proof.
  unfold strip_tags. induction s as [|c s IH]; [reflexivity|]. cbn [has_tag strip_from].
  intros H. apply orb_false_elim in H as [Hc H].
  destruct (Ascii.eqb c "<") eqn:E.
  - cbn [andb] in Hc. rewrite (strip_from_unclosed s "<" Hc).
    apply Ascii.eqb_eq in E. subst c. reflexivity.
  - f_equal. exact (IH H).
Qed.

Lemma strip_from_length (s : string) :
  (String.length (strip_from s None) <= String.length s)%nat
  /\ forall kept,
      (String.length (strip_from s (Some kept))
       <= String.length kept + String.length s)%nat.
Proof.
  induction s as [|c s [IHn IHs]]; split; simpl.
  - lia.
  - intros kept. lia.
  - destruct (Ascii.eqb c "<").
    + specialize (IHs "<"). simpl in IHs. lia.
    + simpl. lia.
  - intros kept. destruct (Ascii.eqb c ">").
    + lia.
    + specialize (IHs (kept +:+ String c EmptyString)).
      assert (String.length (kept +:+ String c EmptyString) = S (String.length kept)).
      { clear. induction kept as [|k kept IH]; [reflexivity|]. simpl. now rewrite IH. }
      lia.
Qed.

(** X20.  The plain-text part that [sendEmail] derives from the HTML holds
    no tag any more, that is no [<] with a [>] after it; a text that holds
    none is left as it is, so deriving twice changes nothing; and the result
    is never longer than the HTML. *)
Theorem X20_text_part_has_no_tag :
  (forall html, has_tag (strip_tags html) = false)
  /\ (forall html, has_tag html = false -> strip_tags html = html)
  /\ (forall html, strip_tags (strip_tags html) = strip_tags html)
  /\ (forall html, (String.length (strip_tags html) <= String.length html)%nat)
  /\ (forall html, text_part None html = strip_tags html).
Proof.
  split; [|split; [|split; [|split]]].
  - intros html. exact (proj1 (strip_from_has_no_tag html)).
  - exact strip_tags_fixed.
  - intros html. apply strip_tags_fixed. exact (proj1 (strip_from_has_no_tag html)).
  - intros html. exact (proj1 (strip_from_length html)).
  - reflexivity.
Qed.
End EmailTextFacts.

(** * Further properties of the browser session *)

Section SessionInvariant.
Import Client Session.

Lemma tidy_same_session (st st' : State) : same_session st st' -> tidy st -> tidy st'.
Proof.
  intros (Ha & Hr & He & Hi & Ht) [[H1 H2] H3]. unfold tidy, all_or_nothing, timer_discipline.
  rewrite Ha, Hr, He, Hi, Ht. auto.
Qed.

Lemma same_session_api config stack st : same_session st (api config stack st).
Proof. unfold api, same_session. destruct (getAccessToken st); repeat split. Qed.

Lemma tidy_api config stack st : tidy st -> tidy (api config stack st).
Proof. apply tidy_same_session, same_session_api. Qed.

Lemma tidy_dispatchEvent name st : tidy st -> tidy (dispatchEvent name st).
Proof. apply tidy_same_session. repeat split. Qed.

Lemma tidy_settle n o st : tidy st -> tidy (settle n o st).
Proof. apply tidy_same_session. repeat split. Qed.

Lemma tidy_set_network s f st : tidy st -> tidy (set_network s f st).
Proof. apply tidy_same_session. repeat split. Qed.

(** Under the discipline, clearing the remembered timer leaves none. *)
Lemma clearTokenRefresh_no_timer st :
  (forall t d, timers st !! t = Some d -> refreshTimeoutId st = Some t) ->
  forall t, timers (clearTokenRefresh st) !! t = None.
Proof.
  intros H t. unfold clearTokenRefresh.
  destruct (refreshTimeoutId st) as [i|] eqn:E; cbn [timers set_timer_state].
  - destruct (decide (t = i)) as [->|Hne]; [apply lookup_delete_eq|].
    rewrite lookup_delete_ne by congruence.
    destruct (timers st !! t) as [d|] eqn:Ht; [|reflexivity].
    specialize (H t d Ht). congruence.
  - destruct (timers st !! t) as [d|] eqn:Ht; [|reflexivity].
    specialize (H t d Ht). congruence.
Qed.

Lemma clearTokens_cleared st :
  tidy st ->
  ls_accessToken (clearTokens st) = None
  /\ ls_refreshToken (clearTokens st) = None
  /\ ls_tokenExpiry (clearTokens st) = None
  /\ (forall t, timers (clearTokens st) !! t = None).
Proof.
  intros [_ Ht]. unfold clearTokens.
  assert (Hs : forall x, ls_accessToken (clearTokenRefresh x) = ls_accessToken x
                         /\ ls_refreshToken (clearTokenRefresh x) = ls_refreshToken x
                         /\ ls_tokenExpiry (clearTokenRefresh x) = ls_tokenExpiry x).
  { intros x. unfold clearTokenRefresh. destruct (refreshTimeoutId x); repeat split. }
  destruct (Hs (set_storage None None None st)) as (-> & -> & ->).
  repeat split. apply clearTokenRefresh_no_timer.
  intros t d H. exact (proj1 (Ht t d H)).
Qed.

Lemma tidy_clearTokens st : tidy st -> tidy (clearTokens st).
Proof.
  intros H. destruct (clearTokens_cleared st H) as (Ha & Hr & He & Ht).
  split.
  - unfold all_or_nothing. rewrite Ha, Hr, He. tauto.
  - intros t d Hd. rewrite Ht in Hd. discriminate.
Qed.

Lemma tidy_store tokens now st :
  tidy st -> tidy (setupTokenRefresh (expiresIn tokens) (setTokens tokens now st)).
Proof.
  intros [_ Ht].
  set (st1 := setTokens tokens now st).
  assert (Hnone : forall t, timers (clearTokenRefresh st1) !! t = None).
  { apply clearTokenRefresh_no_timer. intros t d H. exact (proj1 (Ht t d H)). }
  assert (Hs : ls_accessToken (clearTokenRefresh st1) = Some (accessToken tokens)
               /\ ls_refreshToken (clearTokenRefresh st1) = Some (refreshToken tokens)
               /\ ls_tokenExpiry (clearTokenRefresh st1)
                  = Some (now + expiresIn tokens * 1000)).
  { unfold clearTokenRefresh. destruct (refreshTimeoutId st1); repeat split. }
  destruct Hs as (Ha & Hr & He).
  unfold setupTokenRefresh. fold st1. split.
  - unfold all_or_nothing. cbn [ls_accessToken ls_refreshToken ls_tokenExpiry set_timer_state].
    rewrite Ha, Hr, He. split; split; discriminate.
  - intros t d. cbn [timers refreshTimeoutId ls_refreshToken set_timer_state].
    rewrite Hr. intros H.
    destruct (decide (t = next_timer (clearTokenRefresh st1))) as [->|Hne].
    + split; [reflexivity|discriminate].
    + rewrite lookup_insert_ne in H by congruence. rewrite Hnone in H. discriminate.
Qed.

Lemma tidy_reject stack status st : tidy st -> tidy (reject stack status st).
Proof.
  revert status st. induction stack as [|[| |  |n] stack IH]; intros status st H; cbn [reject].
  - exact H.
  - apply IH, tidy_clearTokens, H.
  - apply IH, tidy_dispatchEvent, tidy_clearTokens, H.
  - apply tidy_dispatchEvent, tidy_clearTokens, H.
  - apply tidy_settle, H.
Qed.

Lemma tidy_resolve stack request reply now st :
  tidy st -> tidy (resolve stack request reply now st).
Proof.
  revert st. induction stack as [|[| |  |n] stack IH]; intros st H; cbn [resolve].
  - exact H.
  - apply IH, tidy_store, H.
  - apply tidy_api, H.
  - exact H.
  - apply tidy_settle, H.
Qed.

Lemma tidy_on_error config reply stack st : tidy st -> tidy (on_error config reply stack st).
Proof.
  intros H. unfold on_error.
  destruct (status_is reply 401 && negb (_retry config)).
  - destruct (getRefreshToken st).
    + apply tidy_api, H.
    + apply tidy_reject, tidy_dispatchEvent, tidy_clearTokens, H.
  - apply tidy_reject. destruct (status_is reply 403); [apply tidy_dispatchEvent|]; exact H.
Qed.

Lemma tidy_step st ev : tidy st -> tidy (step st ev).
Proof.
  intros H. destruct ev as [n config|call reply now|timer]; cbn [step].
  - apply tidy_api, H.
  - destruct (in_flight st !! call) as [[config stack]|]; [|exact H].
    destruct (is_success reply).
    + apply tidy_resolve, tidy_set_network, H.
    + apply tidy_on_error, tidy_set_network, H.
  - destruct (timers st !! timer) as [d|] eqn:Ht; [|exact H].
    set (st1 := set_timer_state _ _ _ st).
    assert (H1 : tidy st1).
    { destruct H as [Hs Hd]. split; [exact Hs|].
      intros t d'. subst st1. cbn [timers refreshTimeoutId ls_refreshToken set_timer_state].
      intros Hl. destruct (decide (t = timer)) as [->|Hne].
      - rewrite lookup_delete_eq in Hl. discriminate.
      - rewrite lookup_delete_ne in Hl by congruence. exact (Hd t d' Hl). }
    destruct (getRefreshToken st1); [apply tidy_api|]; exact H1.
Qed.

Lemma tidy_run events : forall st, tidy st -> tidy (run st events).
Proof.
  induction events as [|ev events IH]; intros st H; [exact H|].
  apply IH, tidy_step, H.
Qed.

Lemma tidy_fresh : tidy fresh.
Proof.
  split; [split; split; reflexivity|].
  intros t d H. cbn in H. rewrite lookup_empty in H. discriminate.
Qed.

(** X21.  Whatever the application requests, whatever the network answers
    and whenever timers fire, a session that started on a fresh page (or
    right after a login) keeps its storage and its timer in step: the
    access token, the refresh token and the expiry are stored together or
    not at all; at most one refresh timer is armed; and none is armed
    while no refresh token is stored. *)
Theorem X21_storage_and_timer_stay_in_step (events : list Event) :
  (forall st, tidy st -> tidy (run st events))
  /\ tidy fresh
  /\ (forall tokens now, tidy (logged_in tokens now))
  /\ (forall st, tidy st ->
        all_or_nothing st
        /\ (forall t1 t2 d1 d2,
               timers st !! t1 = Some d1 -> timers st !! t2 = Some d2 -> t1 = t2)
        /\ (ls_refreshToken st = None -> forall t, timers st !! t = None)).
Proof.
  split; [exact (tidy_run events)|]. split; [exact tidy_fresh|]. split.
  - intros tokens now. unfold logged_in. apply tidy_store. exact tidy_fresh.
  - intros st [Hs Hd]. split; [exact Hs|]. split.
    + intros t1 t2 d1 d2 H1 H2.
      destruct (Hd t1 d1 H1) as [E1 _]. destruct (Hd t2 d2 H2) as [E2 _]. congruence.
    + intros Hr t. destruct (timers st !! t) as [d|] eqn:Ht; [|reflexivity].
      destruct (Hd t d Ht) as [_ Hne]. contradiction.
Qed.
End SessionInvariant.

Section SessionErrors.
Import Client Session.

Lemma clearTokenRefresh_keeps st :
  ls_accessToken (clearTokenRefresh st) = ls_accessToken st
  /\ ls_refreshToken (clearTokenRefresh st) = ls_refreshToken st
  /\ ls_tokenExpiry (clearTokenRefresh st) = ls_tokenExpiry st
  /\ refreshTimeoutId (clearTokenRefresh st) = None
  /\ next_timer (clearTokenRefresh st) = next_timer st
  /\ sent (clearTokenRefresh st) = sent st
  /\ in_flight (clearTokenRefresh st) = in_flight st
  /\ dispatched (clearTokenRefresh st) = dispatched st
  /\ settled (clearTokenRefresh st) = settled st.
Proof.
  unfold clearTokenRefresh. destruct (refreshTimeoutId st) eqn:E; cbn; rewrite ?E; repeat split.
Qed.

Lemma clearTokens_keeps st :
  refreshTimeoutId (clearTokens st) = None
  /\ sent (clearTokens st) = sent st
  /\ in_flight (clearTokens st) = in_flight st
  /\ dispatched (clearTokens st) = dispatched st
  /\ settled (clearTokens st) = settled st.
Proof.
  unfold clearTokens.
  destruct (clearTokenRefresh_keeps (set_storage None None None st))
    as (_ & _ & _ & -> & _ & -> & -> & -> & ->).
  repeat split.
Qed.

Lemma clearTokens_signed_out st : tidy st -> signed_out (clearTokens st).
Proof.
  intros H. destruct (clearTokens_cleared st H) as (Ha & Hr & He & Ht).
  destruct (clearTokens_keeps st) as (Hi & _).
  repeat split; assumption.
Qed.




Lemma step_first_401 (st : State) (call : nat) (config : RequestConfig)
      (stack : list Frame) (rt : string) (tokens : TokenPair) (now : Z) :
  in_flight st !! call = Some (config, stack) ->
  _retry config = false ->
  getRefreshToken st = Some rt ->
  exists refresh stack',
    is_refresh refresh = true
    /\ _retry refresh = false
    /\ step st (Response call (mkReply (Some 401) tokens) now)
       = set_network (sent st ++ [refresh])
           (<[length (sent st) := (refresh, stack')]> (delete call (in_flight st))) st.
Proof.
  intros Hcall Hretry Hrt. cbn [step]. rewrite Hcall.
  change (is_success (mkReply (Some 401) tokens)) with false. cbv iota.
  unfold on_error. change (status_is (mkReply (Some 401) tokens) 401) with true.
  rewrite Hretry. cbn [negb andb].
  change (getRefreshToken (set_network (sent st) (delete call (in_flight st)) st))
    with (getRefreshToken st).
  rewrite Hrt. unfold refreshTokens, api.
  change (getAccessToken (set_network (sent st) (delete call (in_flight st)) st))
    with (getAccessToken st).
  destruct (getAccessToken st); eexists _, _; (split; [|split; [|reflexivity]]); reflexivity.
Qed.

(** X23.  A 401 never ends a session by itself, not even when it answers
    the refresh call: with a refresh token stored, each 401 that answers
    the newest request (first the application's request, from then on the
    refresh call just made) is answered by one more call to the refresh
    endpoint.  After [n] such answers there are [n] more refresh calls,
    the storage and the timer are as before, no event was dispatched and
    no caller has been told anything. *)
Theorem X23_refresh_is_retried_on_every_401 (n : nat) (tokens : TokenPair) (now : Z)
        (st : State) (request : RequestConfig) (stack : list Frame) (rt : string) :
  in_flight st !! (length (sent st) - 1)%nat = Some (request, stack) ->
  _retry request = false ->
  getRefreshToken st = Some rt ->
  let st' := keep_answering_401 n tokens now st in
  refresh_calls st' = (refresh_calls st + n)%nat
  /\ length (sent st') = (length (sent st) + n)%nat
  /\ same_session st st'
  /\ settled st' = settled st
  /\ dispatched st' = dispatched st.
Proof.
  revert st request stack rt.
  induction n as [|n IH]; intros st request stack rt Hcall Hretry Hrt; cbn [keep_answering_401].
  - repeat split; lia.
  - destruct (step_first_401 st _ request stack rt tokens now Hcall Hretry Hrt)
      as (refresh & stack' & Hrefresh & Hretry' & Hstep).
    set (st1 := step st (Response (length (sent st) - 1) (mkReply (Some 401) tokens) now)) in *.
    assert (Hsent : sent st1 = (sent st ++ [refresh])%list) by (rewrite Hstep; reflexivity).
    assert (Hcall' : in_flight st1 !! (length (sent st1) - 1)%nat = Some (refresh, stack')).
    { rewrite Hsent, length_app. cbn [length].
      replace (length (sent st) + 1 - 1)%nat with (length (sent st)) by lia.
      rewrite Hstep. cbn [in_flight set_network]. apply lookup_insert_eq. }
    assert (Hrt1 : getRefreshToken st1 = Some rt) by (rewrite Hstep; exact Hrt).
    destruct (IH st1 refresh stack' rt Hcall' Hretry' Hrt1)
      as (Hcalls & Hlen & Hsame & Hsettled & Hdispatched).
    rewrite Hcalls, Hlen, Hsettled, Hdispatched.
    rewrite (refresh_calls_sent st st1 refresh Hsent Hrefresh).
    rewrite Hsent, length_app. cbn [length].
    split; [lia|]. split; [lia|]. split.
    + destruct Hsame as (Ha & Hr & He & Hi & Ht).
      unfold same_session. rewrite Ha, Hr, He, Hi, Ht, Hstep. repeat split.
    + rewrite Hstep. split; reflexivity.
Qed.

End SessionErrors.

Section SessionTimerAndLogout.
Import Client Session.

(** Whole numbers below [2^53] are binary64 values. *)
Lemma round53_exact (n : Z) : Z.abs n < 2 ^ 53 -> round53 n = n.
Proof.
  intros H. unfold round53.
  assert (Hlog : Z.log2 (Z.abs n) < 53).
  { destruct (Z.eq_dec (Z.abs n) 0) as [->|Hne]; [reflexivity|].
    apply Z.log2_lt_pow2; lia. }
  destruct (Z.leb_spec (Z.log2 (Z.abs n) - 52) 0); [reflexivity|lia].
Qed.

Lemma to_binary64_exact (n : Z) : Z.abs n < 2 ^ 53 -> to_binary64 n = Finite n.
Proof.
  intros H. unfold to_binary64. rewrite (round53_exact n H).
  assert (Hbig : 2 ^ 53 < 2 ^ 1024) by (apply Z.pow_lt_mono_r; lia).
  destruct (Z.leb_spec (2 ^ 1024) n); [lia|].
  destruct (Z.leb_spec n (- 2 ^ 1024)); [lia|reflexivity].
Qed.

(** While the lifetime in milliseconds stays below [2^53], the binary64
    computation of the delay is exact. *)
Lemma refreshTime_exact (e : Z) :
  0 <= e -> e * 1000 < 2 ^ 53 -> refreshTime e = Finite (3 * e / 4 * 1000).
Proof.
  intros H0 Hbound. unfold refreshTime.
  pose proof (Z.div_mod (3 * e) 4 ltac:(lia)) as Hdiv.
  pose proof (Z.mod_pos_bound (3 * e) 4 ltac:(lia)) as Hmod.
  rewrite (to_binary64_exact e) by lia.
  rewrite (round53_exact (3 * e)) by lia.
  apply to_binary64_exact. lia.
Qed.

(** X25.  Storing a token pair arms exactly one timer, the remembered one,
    and it fires no later than the stored expiry.  For a lifetime of
    [e >= 0] seconds and while the expiry in milliseconds stays below [2^53],
    where JavaScript's arithmetic is exact, the delay is a whole number of
    seconds between [750 e - 1000] (exclusive) and [750 e] milliseconds, so
    strictly before the expiry when [e > 0], and at once when [e <= 1]. *)
Theorem X25_refresh_timer_precedes_expiry (st : State) (tokens : TokenPair) (now : Z) :
  tidy st ->
  0 <= expiresIn tokens ->
  0 <= now ->
  now + expiresIn tokens * 1000 < 2 ^ 53 ->
  let st' := setupTokenRefresh (expiresIn tokens) (setTokens tokens now st) in
  exists delay,
    timers st' !! next_timer st = Some (Finite delay)
    /\ refreshTimeoutId st' = Some (next_timer st)
    /\ (forall t d, timers st' !! t = Some d -> t = next_timer st)
    /\ ls_tokenExpiry st' = Some (now + expiresIn tokens * 1000)
    /\ 0 <= delay
    /\ delay mod 1000 = 0
    /\ 750 * expiresIn tokens - 1000 < delay <= 750 * expiresIn tokens
    /\ (0 < expiresIn tokens -> now + delay < now + expiresIn tokens * 1000)
    /\ (expiresIn tokens <= 1 -> delay = 0).
Proof.
  intros Htidy He Hnow Hbound st'.
  pose proof (tidy_store tokens now st Htidy) as [_ Hd]. fold st' in Hd.
  set (st1 := setTokens tokens now st).
  destruct (clearTokenRefresh_keeps st1) as (_ & _ & Hexp & _ & Hnext & _).
  assert (Hst' : st' = set_timer_state (Some (next_timer st))
                         (<[next_timer st := Finite (3 * expiresIn tokens / 4 * 1000)]>
                            (timers (clearTokenRefresh st1)))
                         (S (next_timer st)) (clearTokenRefresh st1)).
  { subst st'. unfold setupTokenRefresh. fold st1.
    rewrite Hnext, (refreshTime_exact (expiresIn tokens)) by lia. reflexivity. }
  exists (3 * expiresIn tokens / 4 * 1000).
  split; [rewrite Hst'; cbn [timers set_timer_state]; apply lookup_insert_eq|].
  split; [rewrite Hst'; reflexivity|].
  split.
  { intros t d H. destruct (Hd t d H) as [Hid _]. rewrite Hst' in Hid.
    cbn [refreshTimeoutId set_timer_state] in Hid. congruence. }
  split; [rewrite Hst'; cbn [ls_tokenExpiry set_timer_state]; rewrite Hexp; reflexivity|].
  pose proof (Z.div_mod (3 * expiresIn tokens) 4 ltac:(lia)) as Hdiv.
  pose proof (Z.mod_pos_bound (3 * expiresIn tokens) 4 ltac:(lia)) as Hmod.
  split; [lia|]. split; [apply Z.mod_mul; lia|]. split; [lia|]. split; [lia|].
  intros Hle. assert (H01 : expiresIn tokens = 0 \/ expiresIn tokens = 1) by lia.
  destruct H01 as [-> | ->]; reflexivity.
Qed.

Lemma logout_finally_signed_out (st : State) : tidy st -> signed_out (logout_finally st).
Proof.
  intros H. unfold logout_finally.
  pose proof (clearTokens_signed_out st H) as (Ha & Hr & He & Hi & Ht).
  unfold clearTokenRefresh. rewrite Hi. repeat split; assumption.
Qed.

Lemma logout_finally_traffic (st : State) : same_traffic st (logout_finally st).
Proof.
  unfold logout_finally, same_traffic.
  destruct (clearTokenRefresh_keeps (clearTokens st)) as (_ & _ & _ & _ & _ & -> & -> & _).
  destruct (clearTokens_keeps st) as (_ & -> & -> & _). split; reflexivity.
Qed.

Lemma resolve_keeps_new_token (stack : list Frame) (request : RequestConfig) (reply : Reply)
      (now : Z) :
  forall st,
    ls_accessToken st = Some (accessToken (reply_data reply)) ->
    ls_accessToken (resolve stack request reply now st)
    = Some (accessToken (reply_data reply)).
Proof.
  induction stack as [|[| | |n] stack IH]; intros st H; cbn [resolve].
  - exact H.
  - apply IH.
    destruct (clearTokenRefresh_keeps (setTokens (reply_data reply) now st)) as (Ha & _).
    unfold setupTokenRefresh. cbn [ls_accessToken set_timer_state]. rewrite Ha. reflexivity.
  - destruct (same_session_api
                (mkRequestConfig (url originalRequest) (data originalRequest)
                   (Some ("Bearer " +:+ accessToken (reply_data reply)))
                   (_retry originalRequest)) stack st) as (-> & _). exact H.
  - exact H.
  - exact H.
Qed.

(** X26.  Logging out.  The server is told only when an access token is
    stored, with that token as bearer; without one nothing is sent and the
    session is cleared at once.  Once the call has settled, however it went,
    the storage is empty and no timer is armed, so a late timer event does
    nothing and a later 401 starts no refresh.  Requests still in flight are
    not cancelled: a refresh call answered after the logout stores its
    tokens and the browser is signed in again. *)
Theorem X26_logout (st : State) (n : nat) :
  tidy st ->
  (isAuthenticated st = false ->
   signed_out (logout n st) /\ sent (logout n st) = sent st)
  /\ (forall token, getAccessToken st = Some token ->
        sent (logout n st)
        = (sent st ++ [mkRequestConfig LOGOUT OtherData (Some ("Bearer " +:+ token)) false])%list
        /\ in_flight (logout n st) !! length (sent st)
           = Some (mkRequestConfig LOGOUT OtherData (Some ("Bearer " +:+ token)) false,
                   [Caller n])
        /\ same_session st (logout n st))
  /\ signed_out (logout_settled st)
  /\ same_traffic st (logout_settled st)
  /\ (forall timer, step (logout_settled st) (TimerFires timer) = logout_settled st)
  /\ (forall call request rest tokens now,
        in_flight st !! call = Some (request, InRefreshTokens :: rest) ->
        ls_accessToken (step (logout_settled st) (Response call (mkReply (Some 200) tokens) now))
        = Some (accessToken tokens)).
Proof.
  intros Htidy.
  pose proof (logout_finally_signed_out st Htidy) as Hout.
  pose proof (logout_finally_traffic st) as [Hsent Hflight].
  split; [|split; [|split; [|split; [|split]]]].
  - intros Hno. unfold logout. rewrite Hno. split; [exact Hout|exact Hsent].
  - intros token Htoken. unfold logout, isAuthenticated. rewrite Htoken. cbn [is_Some_bool].
    unfold api. rewrite Htoken. cbn [url data _retry sent in_flight set_network].
    split; [reflexivity|]. split; [apply lookup_insert_eq|]. repeat split.
  - exact Hout.
  - split; assumption.
  - intros timer. cbn [step]. destruct Hout as (_ & _ & _ & _ & Ht).
    unfold logout_settled. rewrite Ht. reflexivity.
  - intros call request rest tokens now Hcall. cbn [step]. unfold logout_settled.
    rewrite Hflight, Hcall.
    change (is_success (mkReply (Some 200) tokens)) with true. cbv iota.
    cbn [resolve reply_data].
    apply resolve_keeps_new_token.
    destruct (clearTokenRefresh_keeps
                (setTokens tokens now
                   (set_network (sent (logout_finally st)) (delete call (in_flight st))
                      (logout_finally st)))) as (Ha & _).
    unfold setupTokenRefresh. cbn [ls_accessToken set_timer_state]. rewrite Ha. reflexivity.
Qed.
End SessionTimerAndLogout.

(** ** Social login without a link *)

Section SocialFacts.
Context {P : Platform}.

Lemma after_update_keeps_row (u : User.t) (i : string) (now : Z) (w : World) :
  User.id u = Some i ->
  existsb (user_has_id i) (users w) = true ->
  existsb (user_has_id i) (users (after_update u i now w)) = true.
Proof.
  intros Hid Hex. apply existsb_exists in Hex as (row & Hin & Hrow).
  apply existsb_exists.
  exists (merge_user row (User.set_updatedAt (Some now) (after_hook u w))). split.
  - assert (Hu : users (after_update u i now w)
                 = map (fun row => if user_has_id i row
                                   then merge_user row
                                          (User.set_updatedAt (Some now) (after_hook u w))
                                   else row) (users w)).
    { unfold after_update. destruct (truthy (User.password u)); reflexivity. }
    rewrite Hu. apply in_map_iff. exists row. rewrite Hrow. split; [reflexivity|exact Hin].
  - apply user_has_own_id. unfold merge_user, after_hook.
    destruct (truthy (User.password u)); cbn; try destruct (User.password u); exact Hid.
Qed.

Lemma after_update_tables (u : User.t) (i : string) (now : Z) (w : World) :
  length (users (after_update u i now w)) = length (users w)
  /\ social_accounts (after_update u i now w) = social_accounts w
  /\ verification_tokens (after_update u i now w) = verification_tokens w
  /\ password_resets (after_update u i now w) = password_resets w
  /\ outbox (after_update u i now w) = outbox w.
Proof.
  unfold after_update. destruct (truthy (User.password u)); cbn; rewrite length_map;
    repeat split.
Qed.

(** X27.  Linking by email.  When the external account has no link yet but
    a user with the profile's email exists, [socialAuth] creates no user:
    it links the external account to that user, stamps the login and
    returns tokens for the user, with [isNewUser = false].  Nothing of the
    user's state is consulted: the account may be locked, inactive or
    unverified, and no password is asked for. *)
Theorem X27_social_login_links_account_with_same_email (env : Env) (dto : SocialAuthDto)
        (profile : Profile) (now : Z) (w : World) (u : User.t) (i : string) :
  social_profile dto = Some profile ->
  social_lookup (social_provider dto) (profile_id profile) w = None ->
  account_of (profile_email profile) w = Some u ->
  User.id u = Some i ->
  exists user link w',
    AuthService.socialAuth env dto now w
    = (Ok (User.toResponseObject user, AuthService.generateTokens env user now, false), w')
    /\ User.id user = Some i
    /\ User.email user = User.email u
    /\ User.lastLogin user = Some now
    /\ length (users w') = length (users w)
    /\ social_accounts w' = (social_accounts w ++ [link])%list
    /\ SocialAccount.provider link = social_provider dto
    /\ SocialAccount.providerId link = profile_id profile
    /\ SocialAccount.userId link = i
    /\ SocialAccount.accessToken link = Some (social_token dto)
    /\ verification_tokens w' = verification_tokens w
    /\ password_resets w' = password_resets w
    /\ outbox w' = outbox w.
Proof.
  intros Hprofile Hlink Huser Hid.
  unfold account_of in Huser. unfold social_lookup in Hlink.
  destruct (found_has_id _ _ _ Huser) as [_ Hin].
  pose proof (existsb_of_member i u (users w) Hin Hid) as Hex.
  unfold AuthService.socialAuth. rewrite Hprofile. unfold bind at 1.
  rewrite social_findOne_eq, Hlink. cbv iota beta.
  unfold bind at 1. unfold bind at 1. unfold bind at 1.
  rewrite user_findOne_by_email_eq, Huser. cbn [option_map].
  unfold bind at 1. unfold ret at 1. cbv iota beta.
  rewrite (user_save_update_eq (strip_password u) now w i Hid Hex).
  set (w1 := after_update (strip_password u) i now w).
  set (u1 := User.set_updatedAt (Some now) (after_hook (strip_password u) w)).
  assert (Hid1 : User.id u1 = Some i) by exact Hid.
  assert (Hex1 : existsb (user_has_id i) (users w1) = true)
    by (apply after_update_keeps_row; assumption).
  destruct (after_update_tables (strip_password u) i now w) as (Hlen & Hsoc & Hvt & Hpr & Hout).
  fold w1 in Hlen, Hsoc, Hvt, Hpr, Hout.
  unfold social_create, bind, draw, get_world, modify_world, ret. cbn [fst snd].
  set (link := SocialAccount.mk _ _ _ _ _ _ _ _ _).
  set (w2 := set_social_accounts _ _).
  assert (Hex2 : existsb (user_has_id i) (users w2) = true) by exact Hex1.
  pose proof (user_save_update_eq (User.set_lastLogin (Some now) u1) now w2 i Hid1 Hex2) as Hsave.
  unfold bind, ret in Hsave |- *.
  rewrite Hsave.
  destruct (after_update_tables (User.set_lastLogin (Some now) u1) i now w2)
    as (Hlen2 & Hsoc2 & Hvt2 & Hpr2 & Hout2).
  eexists _, link, _. split; [reflexivity|].
  rewrite Hlen2, Hsoc2, Hvt2, Hpr2, Hout2.
  split; [exact Hid|]. split; [reflexivity|]. split; [reflexivity|].
  split; [exact Hlen|].
  split; [subst w2; cbn [social_accounts set_social_accounts]; rewrite ?Hsoc; reflexivity|].
  split; [reflexivity|]. split; [reflexivity|].
  split; [subst link; cbn; unfold id_of; cbn; rewrite Hid; reflexivity|].
  split; [reflexivity|].
  split; [exact Hvt|]. split; [exact Hpr|exact Hout].
Qed.

Lemma after_hook_fields (u : User.t) (w : World) :
  User.id (after_hook u w) = User.id u
  /\ User.email (after_hook u w) = User.email u
  /\ User.username (after_hook u w) = User.username u
  /\ User.role (after_hook u w) = User.role u
  /\ User.isVerified (after_hook u w) = User.isVerified u
  /\ User.isActive (after_hook u w) = User.isActive u
  /\ User.isLocked (after_hook u w) = User.isLocked u
  /\ User.lastLogin (after_hook u w) = User.lastLogin u
  /\ (User.password u <> None -> User.password (after_hook u w) <> None).
Proof.
  unfold after_hook. destruct (truthy (User.password u)); cbn; repeat split; auto;
    discriminate.
Qed.

(** Saving a new object that carries a password inserts one row under a
    fresh uuid, unless a stored row has its username or its email. *)
Lemma user_save_insert (c : User.t) (p : string) (now : Z) (w : World) :
  User.id c = None ->
  User.password c = Some p ->
  violates_unique c (users w) = false ->
  exists k row w1,
    user_save c now w = (Ok row, w1)
    /\ (draws w <= k)%nat
    /\ User.id row = Some (uuid k)
    /\ users w1 = (users w ++ [row])%list
    /\ (draws w <= draws w1)%nat
    /\ social_accounts w1 = social_accounts w
    /\ verification_tokens w1 = verification_tokens w
    /\ password_resets w1 = password_resets w
    /\ outbox w1 = outbox w
    /\ User.email row = User.email c
    /\ User.username row = User.username c
    /\ User.role row = User.role c
    /\ User.isVerified row = User.isVerified c
    /\ User.isActive row = User.isActive c
    /\ User.isLocked row = User.isLocked c
    /\ User.password row <> None.
Proof.
  intros Hid Hp Hfree. unfold violates_unique in Hfree.
  unfold user_save, hashPassword, insert_user.
  unfold bind, get_world, ret, draw, modify_world.
  rewrite Hp. destruct (truthy (Some p)) as [q|]; cbn; rewrite Hid; cbn; rewrite ?Hp; cbn;
    rewrite Hfree; cbn.
  - exists (S (draws w)). eexists _, _. split; [reflexivity|]. cbn.
    repeat split; try lia; discriminate.
  - exists (draws w). eexists _, _. split; [reflexivity|]. cbn.
    repeat split; try lia. rewrite Hp. discriminate.
Qed.

Lemma user_save_insert_refused (c : User.t) (p : string) (now : Z) (w : World) :
  User.id c = None ->
  User.password c = Some p ->
  violates_unique c (users w) = true ->
  exists w1,
    user_save c now w = (Throw duplicate_key, w1)
    /\ users w1 = users w
    /\ social_accounts w1 = social_accounts w
    /\ verification_tokens w1 = verification_tokens w
    /\ password_resets w1 = password_resets w
    /\ outbox w1 = outbox w.
Proof.
  intros Hid Hp Htaken. unfold violates_unique in Htaken.
  unfold user_save, hashPassword, insert_user.
  unfold bind, get_world, ret, draw, modify_world, throw, duplicate_key.
  rewrite Hp. destruct (truthy (Some p)) as [q|]; cbn; rewrite Hid; cbn; rewrite ?Hp; cbn;
    rewrite Htaken; cbn; eexists; (split; [reflexivity|]); repeat split.
Qed.

Lemma taken_violation (u : User.t) (w : World) :
  username_taken (User.username u) w = true -> violates_unique u (users w) = true.
Proof.
  unfold username_taken, violates_unique. intros H.
  destruct (List.find _ (users w)) as [row|] eqn:F; [|discriminate].
  apply find_some in F as [Hin Hrow]. apply existsb_exists. exists row.
  split; [exact Hin|]. rewrite Hrow. reflexivity.
Qed.

Lemma social_new_user_spec (profile : Profile) (now : Z) (w : World) :
  exists c p w0,
    AuthService.social_new_user profile now w = (Ok c, w0)
    /\ User.id c = None
    /\ User.password c = Some p
    /\ User.email c = profile_email profile
    /\ User.username c
       = before_first "@" (profile_email profile) +:+ pretty (random_below_1000 (draws w))
    /\ User.role c = STUDENT
    /\ User.isVerified c = true
    /\ User.isActive c = true
    /\ User.isLocked c = false
    /\ users w0 = users w
    /\ social_accounts w0 = social_accounts w
    /\ verification_tokens w0 = verification_tokens w
    /\ password_resets w0 = password_resets w
    /\ outbox w0 = outbox w
    /\ (draws w <= draws w0)%nat.
Proof.
  unfold AuthService.social_new_user, bind, draw, get_world, modify_world, ret. cbn.
  eexists _, _, _. split; [reflexivity|]. cbn. repeat split. lia.
Qed.

Lemma socialAuth_first (env : Env) (dto : SocialAuthDto)
        (profile : Profile) (now : Z) (w : World) :
  social_profile dto = Some profile ->
  social_lookup (social_provider dto) (profile_id profile) w = None ->
  account_of (profile_email profile) w = None ->
  username_taken (social_username profile w) w = false ->
  (forall k, (draws w <= k)%nat -> existsb (user_has_id (uuid k)) (users w) = false) ->
  exists user link w',
    AuthService.socialAuth env dto now w
    = (Ok (User.toResponseObject user, AuthService.generateTokens env user now, true), w')
    /\ users w' = (users w ++ [user])%list
    /\ User.id user = Some (SocialAccount.userId link)
    /\ User.email user = profile_email profile
    /\ User.username user
       = before_first "@" (profile_email profile) +:+ pretty (random_below_1000 (draws w))
    /\ User.role user = STUDENT
    /\ User.isVerified user = true
    /\ User.isActive user = true
    /\ User.isLocked user = false
    /\ User.lastLogin user = Some now
    /\ User.password user <> None
    /\ social_accounts w' = (social_accounts w ++ [link])%list
    /\ SocialAccount.provider link = social_provider dto
    /\ SocialAccount.providerId link = profile_id profile
    /\ SocialAccount.accessToken link = Some (social_token dto)
    /\ verification_tokens w' = verification_tokens w
    /\ password_resets w' = password_resets w
    /\ outbox w' = outbox w
    /\ existsb (user_has_id (SocialAccount.userId link)) (users w) = false.
Proof.
  intros Hprofile Hlink Hnone Hname Hfresh.
  destruct (social_new_user_spec profile now w)
    as (c & p & w0 & Hnew & Hcid & Hcp & Hce & Hcn & Hcr & Hcv & Hca & Hcl
        & Hu0 & Hs0 & Hv0 & Hr0 & Ho0 & Hd0).
  assert (Hfree : violates_unique c (users w0) = false).
  { rewrite Hu0. apply not_taken_no_violation.
    - rewrite Hce. unfold email_taken. unfold account_of in Hnone. rewrite Hnone.
      reflexivity.
    - rewrite Hcn. exact Hname. }
  unfold account_of in Hnone. unfold social_lookup in Hlink.
  unfold AuthService.socialAuth. rewrite Hprofile. unfold bind at 1.
  rewrite social_findOne_eq, Hlink. cbv iota beta.
  unfold bind at 1. unfold bind at 1. unfold bind at 1.
  rewrite user_findOne_by_email_eq, Hnone. cbn [option_map].
  unfold bind at 1. cbv iota beta.
  rewrite Hnew. unfold ret at 1. cbv iota beta.
  destruct (user_save_insert c p now w0 Hcid Hcp Hfree)
    as (k & row & w1 & Hsave & Hk & Hrid & Hu1 & Hd1 & Hs1 & Hv1 & Hr1 & Ho1
        & Hre & Hrn & Hrr & Hrv & Hra & Hrl & Hrp).
  unfold bind at 1. rewrite Hsave.
  unfold social_create, bind, draw, get_world, modify_world, ret. cbn [fst snd].
  set (link := SocialAccount.mk _ _ _ _ _ _ _ _ _).
  set (w2 := set_social_accounts _ _).
  assert (Hex2 : existsb (user_has_id (uuid k)) (users w2) = true).
  { change (users w2) with (users w1). rewrite Hu1, existsb_app. cbn [existsb].
    rewrite (user_has_own_id row (uuid k) Hrid). apply orb_true_iff. right. reflexivity. }
  pose proof (user_save_update_eq (User.set_lastLogin (Some now) row) now w2 (uuid k)
                Hrid Hex2) as Hsave2.
  unfold bind, ret in Hsave2 |- *. rewrite Hsave2.
  destruct (after_update_tables (User.set_lastLogin (Some now) row) (uuid k) now w2)
    as (_ & Hsoc2 & Hvt2 & Hpr2 & Hout2).
  destruct (after_hook_fields (User.set_lastLogin (Some now) row) w2)
    as (Hhid & Hhe & Hhn & Hhr & Hhv & Hha & Hhl & Hhll & Hhp).
  set (user := User.set_updatedAt (Some now)
                 (after_hook (User.set_lastLogin (Some now) row) w2)) in *.
  assert (Hpw : User.password user <> None) by (apply Hhp; exact Hrp).
  exists user, link. eexists. split; [reflexivity|].
  rewrite Hsoc2, Hvt2, Hpr2, Hout2.
  split.
  { assert (Hu : users (after_update (User.set_lastLogin (Some now) row) (uuid k) now w2)
                 = map (fun r => if user_has_id (uuid k) r then merge_user r user else r)
                       (users w2)).
    { unfold after_update. destruct (truthy _); reflexivity. }
    rewrite Hu. change (users w2) with (users w1). rewrite Hu1, map_app, Hu0.
    rewrite map_untouched.
    2:{ apply existsb_false_forall. apply Hfresh. lia. }
    cbn [map]. rewrite (user_has_own_id row (uuid k) Hrid).
    unfold merge_user. destruct (User.password user); [reflexivity|contradiction]. }
  split; [subst link; cbn; unfold id_of; rewrite Hrid; cbn; rewrite Hhid; exact Hrid|].
  split; [cbn; rewrite Hhe; cbn; congruence|].
  split; [cbn; rewrite Hhn; cbn; congruence|].
  split; [cbn; rewrite Hhr; cbn; congruence|].
  split; [cbn; rewrite Hhv; cbn; congruence|].
  split; [cbn; rewrite Hha; cbn; congruence|].
  split; [cbn; rewrite Hhl; cbn; congruence|].
  split; [cbn; rewrite Hhll; reflexivity|].
  split; [exact Hpw|].
  split.
  { subst w2. cbn [social_accounts set_social_accounts].
    change (social_accounts (set_draws (S (draws w1)) w1)) with (social_accounts w1).
    rewrite Hs1, Hs0. reflexivity. }
  split; [reflexivity|]. split; [reflexivity|]. split; [reflexivity|].
  change (verification_tokens w2) with (verification_tokens w1).
  change (password_resets w2) with (password_resets w1).
  change (outbox w2) with (outbox w1).
  split; [congruence|]. split; [congruence|]. split; [congruence|].
  subst link. cbn. unfold id_of. rewrite Hrid. cbn. apply Hfresh. lia.
Qed.

Lemma socialAuth_username_taken (env : Env) (dto : SocialAuthDto)
        (profile : Profile) (now : Z) (w : World) :
  social_profile dto = Some profile ->
  social_lookup (social_provider dto) (profile_id profile) w = None ->
  account_of (profile_email profile) w = None ->
  username_taken (social_username profile w) w = true ->
  exists w',
    AuthService.socialAuth env dto now w = (Throw duplicate_key, w')
    /\ users w' = users w
    /\ social_accounts w' = social_accounts w
    /\ verification_tokens w' = verification_tokens w
    /\ password_resets w' = password_resets w
    /\ outbox w' = outbox w.
Proof.
  intros Hprofile Hlink Hnone Hname.
  destruct (social_new_user_spec profile now w)
    as (c & p & w0 & Hnew & Hcid & Hcp & Hce & Hcn & Hcr & Hcv & Hca & Hcl
        & Hu0 & Hs0 & Hv0 & Hr0 & Ho0 & Hd0).
  assert (Htaken : violates_unique c (users w0) = true).
  { rewrite Hu0. apply taken_violation. rewrite Hcn. exact Hname. }
  unfold account_of in Hnone. unfold social_lookup in Hlink.
  unfold AuthService.socialAuth. rewrite Hprofile. unfold bind at 1.
  rewrite social_findOne_eq, Hlink. cbv iota beta.
  unfold bind at 1. unfold bind at 1. unfold bind at 1.
  rewrite user_findOne_by_email_eq, Hnone. cbn [option_map].
  unfold bind at 1. cbv iota beta.
  rewrite Hnew. unfold ret at 1. cbv iota beta.
  destruct (user_save_insert_refused c p now w0 Hcid Hcp Htaken)
    as (w1 & Hsave & Hu1 & Hs1 & Hv1 & Hr1 & Ho1).
  unfold bind at 1. rewrite Hsave.
  exists w1. split; [reflexivity|]. repeat split; congruence.
Qed.

(** X28.  The first social login of an unknown person.  With no link and no
    user under the profile's email, [socialAuth] makes up a username.  When
    no stored user has it, one user is inserted (a student with the
    profile's email, marked verified and active, with a password nobody was
    told), the external account is linked to it, the login is stamped and
    tokens for it are returned with [isNewUser = true]; no verification
    token is issued and no mail is sent.  When a stored user has the
    username, the database refuses the insert: [socialAuth] throws the
    database's error and no table is written. *)
Theorem X28_first_social_login_creates_verified_user (env : Env) (dto : SocialAuthDto)
        (profile : Profile) (now : Z) (w : World) :
  social_profile dto = Some profile ->
  social_lookup (social_provider dto) (profile_id profile) w = None ->
  account_of (profile_email profile) w = None ->
  (username_taken (social_username profile w) w = false ->
   (forall k, (draws w <= k)%nat -> existsb (user_has_id (uuid k)) (users w) = false) ->
   exists user link w',
     AuthService.socialAuth env dto now w
     = (Ok (User.toResponseObject user, AuthService.generateTokens env user now, true), w')
     /\ users w' = (users w ++ [user])%list
     /\ User.id user = Some (SocialAccount.userId link)
     /\ User.email user = profile_email profile
     /\ User.username user = social_username profile w
     /\ User.role user = STUDENT
     /\ User.isVerified user = true
     /\ User.isActive user = true
     /\ User.isLocked user = false
     /\ User.lastLogin user = Some now
     /\ User.password user <> None
     /\ social_accounts w' = (social_accounts w ++ [link])%list
     /\ SocialAccount.provider link = social_provider dto
     /\ SocialAccount.providerId link = profile_id profile
     /\ SocialAccount.accessToken link = Some (social_token dto)
     /\ verification_tokens w' = verification_tokens w
     /\ password_resets w' = password_resets w
     /\ outbox w' = outbox w)
  /\ (username_taken (social_username profile w) w = true ->
      exists w',
        AuthService.socialAuth env dto now w = (Throw duplicate_key, w')
        /\ users w' = users w
        /\ social_accounts w' = social_accounts w
        /\ verification_tokens w' = verification_tokens w
        /\ password_resets w' = password_resets w
        /\ outbox w' = outbox w).
Proof.
  intros Hprofile Hlink Hnone. split.
  - intros Hname Hfresh.
    destruct (socialAuth_first env dto profile now w Hprofile Hlink Hnone Hname Hfresh)
      as (user & link & w' & H).
    exists user, link, w'. unfold social_username. tauto.
  - apply socialAuth_username_taken; assumption.
Qed.

Lemma socialAuth_linked (env : Env) (dto : SocialAuthDto) (profile : Profile) (now : Z)
      (w : World) (link : SocialAccount.t) (u : User.t) :
  social_profile dto = Some profile ->
  social_lookup (social_provider dto) (profile_id profile) w = Some link ->
  List.find (user_has_id (SocialAccount.userId link)) (users w) = Some u ->
  exists user w',
    AuthService.socialAuth env dto now w
    = (Ok (User.toResponseObject user, AuthService.generateTokens env user now, false), w')
    /\ User.id user = User.id u
    /\ User.lastLogin user = Some now
    /\ length (users w') = length (users w)
    /\ social_accounts w' = social_accounts w.
Proof.
  intros Hprofile Hlink Huser.
  pose proof (found_user_id _ _ _ Huser) as Hid.
  pose proof (find_existsb _ _ _ Huser) as Hex.
  unfold AuthService.socialAuth. rewrite Hprofile. unfold bind at 1.
  rewrite social_findOne_eq. unfold social_lookup in Hlink. rewrite Hlink, Huser.
  cbn [option_map]. cbv iota beta. unfold bind at 1. unfold ret at 1. cbv iota beta.
  pose proof (user_save_update_eq (User.set_lastLogin (Some now) (strip_password u)) now w
                (SocialAccount.userId link) Hid Hex) as Hsave.
  unfold bind, ret. rewrite Hsave.
  destruct (after_update_tables (User.set_lastLogin (Some now) (strip_password u))
              (SocialAccount.userId link) now w) as (Hlen & Hsoc & _).
  eexists _, _. split; [reflexivity|].
  split; [reflexivity|]. split; [reflexivity|]. split; [exact Hlen|exact Hsoc].
Qed.

Lemma SocialProvider_eqb_refl (p : SocialProvider) : SocialProvider_eqb p p = true.
Proof. destruct p; reflexivity. Qed.

(** X29.  The second social login of the same external account.  After the
    first login created the user (under a username no stored user had) and
    the link, a later call with the same provider and subject id finds the
    link: it returns tokens for the same user with [isNewUser = false] and
    creates neither a user nor a link. *)
Theorem X29_second_social_login_reuses_the_link (env : Env) (dto : SocialAuthDto)
        (profile : Profile) (t1 t2 : Z) (w : World) :
  social_profile dto = Some profile ->
  social_lookup (social_provider dto) (profile_id profile) w = None ->
  account_of (profile_email profile) w = None ->
  username_taken (social_username profile w) w = false ->
  (forall k, (draws w <= k)%nat -> existsb (user_has_id (uuid k)) (users w) = false) ->
  exists user1 w1 user2 w2,
    AuthService.socialAuth env dto t1 w
    = (Ok (User.toResponseObject user1, AuthService.generateTokens env user1 t1, true), w1)
    /\ AuthService.socialAuth env dto t2 w1
       = (Ok (User.toResponseObject user2, AuthService.generateTokens env user2 t2, false), w2)
    /\ User.id user2 = User.id user1
    /\ User.lastLogin user2 = Some t2
    /\ length (users w2) = length (users w1)
    /\ social_accounts w2 = social_accounts w1.
Proof.
  intros Hprofile Hlink Hnone Hname Hfresh.
  destruct (socialAuth_first env dto profile t1 w Hprofile Hlink Hnone Hname Hfresh)
    as (user1 & link & w1 & Hfirst & Hu1 & Hid1 & _ & _ & _ & _ & _ & _ & _ & _
        & Hs1 & Hlp & Hlid & _ & _ & _ & _ & Hnew).
  assert (Hlink1 : social_lookup (social_provider dto) (profile_id profile) w1 = Some link).
  { unfold social_lookup in *. rewrite Hs1, (find_app_none _ _ _ Hlink). cbn [List.find].
    rewrite Hlp, Hlid, SocialProvider_eqb_refl, String.eqb_refl. reflexivity. }
  assert (Huser1 : List.find (user_has_id (SocialAccount.userId link)) (users w1)
                   = Some user1).
  { rewrite Hu1, (find_app_none _ _ _ (find_none_of_existsb _ _ Hnew)). cbn [List.find].
    rewrite (user_has_own_id user1 _ Hid1). reflexivity. }
  destruct (socialAuth_linked env dto profile t2 w1 link user1 Hprofile Hlink1 Huser1)
    as (user2 & w2 & Hsecond & Hid2 & Hll & Hlen & Hsoc).
  exists user1, w1, user2, w2. repeat split; assumption.
Qed.
End SocialFacts.

(** * The further properties on concrete data *)

Section ServerExamples.
Import Samples Scenarios PasswordChange Guards Database EmailText.

Lemma X1_register_refuses_duplicates_before_writing_witness :
  AuthService.register strict_env same_email_dto (T0 + 5) alice_registered
  = (Throw (Error "Email already exists"), alice_registered)
  /\ AuthService.register strict_env same_name_dto (T0 + 5) alice_registered
     = (Throw (Error "Username already exists"), alice_registered)
  /\ is_ok (fst (AuthService.register strict_env alice_dto T0 empty_world)) = true
  /\ (fst (@AuthService.register offline_platform strict_env alice_dto T0 empty_world)
      = Throw (mail_failure "connect ECONNREFUSED 127.0.0.1:587")
      /\ users (snd (@AuthService.register offline_platform strict_env alice_dto T0
                       empty_world))
         = [alice_row]
      /\ length (verification_tokens
                   (snd (@AuthService.register offline_platform strict_env alice_dto T0
                           empty_world))) = 1%nat
      /\ outbox (snd (@AuthService.register offline_platform strict_env alice_dto T0
                        empty_world)) = []).
Proof.
  split; [|split; [|split]].
  - exact (X1_register_refuses_duplicates_before_writing strict_env same_email_dto
             (T0 + 5) alice_registered).
  - exact (X1_register_refuses_duplicates_before_writing strict_env same_name_dto
             (T0 + 5) alice_registered).
  - exact (X1_register_refuses_duplicates_before_writing strict_env alice_dto T0
             empty_world).
  - exact (@X1_register_refuses_duplicates_before_writing offline_platform strict_env
             alice_dto T0 empty_world).
Defined.

Lemma X2_register_creates_unverified_user_with_token_witness :
  exists vt w',
    AuthService.register strict_env alice_dto T0 empty_world
    = (Ok (registered_user alice_dto T0 empty_world,
           AuthService.generateTokens strict_env (registered_user alice_dto T0 empty_world)
                                      T0), w')
    /\ users w' = (users empty_world ++ [registered_user alice_dto T0 empty_world])%list
    /\ verification_tokens w' = (verification_tokens empty_world ++ [vt])%list
    /\ VerificationToken.userId vt = id_of (registered_user alice_dto T0 empty_world)
    /\ VerificationToken.isValid vt T0 = true
    /\ VerificationToken.expiresAt vt = T0 + 24 * 60 * 60 * 1000
    /\ outbox w' = (outbox empty_world
                      ++ [mkEmail (reg_email alice_dto) VerificationEmail
                                  (VerificationToken.token vt)])%list
    /\ password_resets w' = password_resets empty_world
    /\ social_accounts w' = social_accounts empty_world.
Proof.
  apply (X2_register_creates_unverified_user_with_token strict_env alice_dto T0 empty_world);
    reflexivity.
Defined.

Lemma X7_verifyEmail_verifies_owner_and_consumes_token_witness :
  exists w1,
    AuthService.verifyEmail alice_token (T0 + 1) alice_registered
    = (Ok "Email verified successfully", w1)
    /\ (forall row, In row (users w1) ->
                    user_has_id (VerificationToken.userId alice_verification_row) row = true ->
                    User.isVerified row = true)
    /\ map User.password (users w1) = map User.password (users alice_registered)
    /\ AuthService.verifyEmail alice_token (T0 + 2) w1
       = (Throw (Error "Verification token has expired"), w1)
    /\ password_resets w1 = password_resets alice_registered
    /\ social_accounts w1 = social_accounts alice_registered
    /\ outbox w1 = outbox alice_registered.
Proof.
  apply (X7_verifyEmail_verifies_owner_and_consumes_token alice_token (T0 + 1) (T0 + 2)
           alice_registered alice_verification_row alice_row);
    [reflexivity|discriminate|reflexivity|reflexivity].
Defined.

Lemma X8_register_verify_login_witness :
  exists w1 w2 w3 user,
    AuthService.register strict_env alice_dto T0 empty_world
    = (Ok (registered_user alice_dto T0 empty_world,
           AuthService.generateTokens strict_env (registered_user alice_dto T0 empty_world)
                                      T0), w1)
    /\ In (mkEmail (reg_email alice_dto) VerificationEmail alice_token) (outbox w1)
    /\ AuthService.login strict_env alice_login (T0 + 1) w1
       = (Throw (Error "Please verify your email before logging in"), w1)
    /\ AuthService.verifyEmail alice_token (T0 + 2) w1 = (Ok "Email verified successfully", w2)
    /\ AuthService.login strict_env alice_login (T0 + 3) w2
       = (Ok (User.toResponseObject user, AuthService.generateTokens strict_env user (T0 + 3)),
          w3)
    /\ User.isVerified user = true
    /\ User.email user = reg_email alice_dto
    /\ User.id user = User.id (registered_user alice_dto T0 empty_world).
Proof.
  refine (X8_register_verify_login strict_env alice_dto T0 (T0 + 1) (T0 + 2) (T0 + 3)
            empty_world _ _ _ _ _ _ _ _ _);
    [reflexivity|reflexivity|reflexivity|discriminate|reflexivity|reflexivity|reflexivity
    |reflexivity|unfold T0; lia].
Defined.

Lemma X9_forgot_then_reset_witness :
  exists w1 w2,
    AuthService.forgotPassword "alice@x.com" T0 alice_registered
    = (Ok "Password reset instructions sent to your email", w1)
    /\ outbox w1
       = (outbox alice_registered
            ++ [mkEmail "alice@x.com" PasswordResetEmail alice_reset_token])%list
    /\ users w1 = users alice_registered
    /\ AuthService.resetPassword alice_reset_dto (T0 + 1) w1
       = (Ok "Password reset successful", w2)
    /\ (forall row, In row (users w2) -> user_has_id "uuid-1" row = true ->
                    User.password row = Some "bcrypt(salt6,Xyz98765?)")
    /\ (forall row, In row (users w2) -> user_has_id "uuid-1" row = false ->
                    In row (users alice_registered))
    /\ AuthService.resetPassword alice_reset_dto (T0 + 2) w2
       = (Throw (Error "Password reset token has expired"), w2).
Proof.
  refine (X9_forgot_then_reset "alice@x.com" "Xyz98765?" T0 (T0 + 1) (T0 + 2)
            alice_registered alice_row "uuid-1" _ _ _ _ _);
    [reflexivity|reflexivity|reflexivity|reflexivity|unfold T0; lia].
Defined.

Lemma X10_issued_tokens_honoured_until_expiry_witness :
  AuthMiddleware.authenticate default_env alice_bearer (T0 + 1000) alice_registered
  = inr (strip_password alice_row)
  /\ AuthMiddleware.authenticate default_env alice_bearer T_late alice_registered
     = inl (mkResponse 401 (message_body "Token expired"))
  /\ AuthService.refreshTokens default_env (refreshToken alice_tokens) (T0 + 1000)
                               alice_registered
     = (Ok (AuthService.generateTokens default_env (strip_password alice_row) (T0 + 1000)),
        alice_registered)
  /\ AuthService.refreshTokens default_env (refreshToken alice_tokens) T_late alice_registered
     = (Throw (Error "Invalid refresh token"), alice_registered).
Proof.
  destruct (X10_issued_tokens_honoured_until_expiry default_env alice_row alice_row T0
              (T0 + 1000) alice_registered eq_refl eq_refl eq_refl)
    as (Haccess & _ & Hrefresh & _).
  destruct (X10_issued_tokens_honoured_until_expiry default_env alice_row alice_row T0
              T_late alice_registered eq_refl eq_refl eq_refl)
    as (_ & Hexpired & _ & Hlate).
  split; [apply Haccess; reflexivity|].
  split; [apply Hexpired; vm_compute; discriminate|].
  split; [apply Hrefresh; reflexivity|].
  apply Hlate. vm_compute. discriminate.
Defined.

Lemma X11_access_and_refresh_tokens_are_not_interchangeable_witness :
  AuthService.refreshTokens default_env (accessToken alice_tokens) (T0 + 1000) alice_registered
  = (Throw (Error "Invalid refresh token"), alice_registered)
  /\ AuthMiddleware.authenticate default_env
       (Some [Word "Bearer"; TokenWord (refreshToken alice_tokens)]) (T0 + 1000)
       alice_registered
     = inl (mkResponse 401 (message_body "Invalid token")).
Proof.
  apply (X11_access_and_refresh_tokens_are_not_interchangeable default_env alice_row T0
           (T0 + 1000) alice_registered).
  vm_compute. discriminate.
Defined.

Lemma X13_password_pattern_witness :
  ((exists c, In c (chars "Abc12345!") /\ is_lower c = true)
   /\ (exists c, In c (chars "Abc12345!") /\ is_upper c = true)
   /\ (exists c, In c (chars "Abc12345!") /\ is_digit c = true)
   /\ (exists c, In c (chars "Abc12345!") /\ is_symbol c = true))
  /\ matches_password_pattern ("Abc12345!" +:+ " and more") = true
  /\ matches_password_pattern ("abc" +:+ String "010" "Abc12345!") = false.
Proof.
  destruct X13_password_pattern as (Hclasses & Hlonger & Hline).
  split; [apply Hclasses; reflexivity|].
  split; [apply Hlonger; reflexivity|apply Hline; reflexivity].
Defined.

Lemma X14_changePassword_witness :
  changePassword "uuid-1" mismatched_change (T0 + 5) alice_registered
  = (Throw (Error "New passwords do not match"), alice_registered)
  /\ changePassword "uuid-1" wrong_change (T0 + 5) alice_registered
     = (Throw (Error "Current password is incorrect"), alice_registered)
  /\ exists w',
      changePassword "uuid-1" alice_change (T0 + 5) alice_registered
      = (Ok "Password changed successfully", w')
      /\ (forall row, In row (users w') -> user_has_id "uuid-1" row = true ->
                      User.password row = Some "bcrypt(salt4,Xyz98765?)")
      /\ (forall row, In row (users w') -> user_has_id "uuid-1" row = false ->
                      In row (users alice_registered)).
Proof.
  destruct (X14_changePassword "uuid-1" mismatched_change (T0 + 5) alice_registered)
    as (_ & Hmismatch & _).
  destruct (X14_changePassword "uuid-1" wrong_change (T0 + 5) alice_registered)
    as (_ & _ & Hwrong & _).
  destruct (X14_changePassword "uuid-1" alice_change (T0 + 5) alice_registered)
    as (_ & _ & _ & Hchange).
  split; [apply Hmismatch; reflexivity|].
  split; [apply (Hwrong alice_row "bcrypt(salt0,Abc12345!)"); reflexivity|].
  apply (Hchange alice_row "bcrypt(salt0,Abc12345!)"); reflexivity.
Defined.

Lemma X15_changePassword_endpoint_without_user_witness :
  (status (fst (changePassword_endpoint default_env None alice_change (T0 + 5)
                  alice_registered)) = 400
   /\ snd (changePassword_endpoint default_env None alice_change (T0 + 5) alice_registered)
      = alice_registered)
  /\ changePassword_endpoint default_env (Some unsaved_user) alice_change (T0 + 5)
                             alice_registered
     = (mkResponse 401 (message_body "Unauthorized"), alice_registered).
Proof.
  destruct (X15_changePassword_endpoint_without_user default_env alice_change (T0 + 5)
              alice_registered unsaved_user eq_refl eq_refl eq_refl) as (Hnone & Hnoid).
  split; [exact Hnone|apply Hnoid; reflexivity].
Defined.

Lemma X17_guarded_handler_guarantees_witness :
  (exists row, In row (users alice_verified)
               /\ strip_password alice_verified_row = strip_password row)
  /\ User.password (strip_password alice_verified_row) = None
  /\ User.isActive (strip_password alice_verified_row) = true
  /\ User.isLocked (strip_password alice_verified_row) = false
  /\ User.isVerified (strip_password alice_verified_row) = true
  /\ In (User.role (strip_password alice_verified_row)) [STUDENT; INSTRUCTOR]
  /\ (isCurrentUser (Some (strip_password alice_verified_row)) "uuid-1" = None ->
      User.id (strip_password alice_verified_row) = Some "uuid-1").
Proof.
  apply (X17_guarded_handler_guarantees default_env alice_bearer (T0 + 1000) alice_verified
           [STUDENT; INSTRUCTOR] "uuid-1" (strip_password alice_verified_row));
    reflexivity.
Defined.

Lemma X18_connect_returns_first_success_witness :
  connectWithRetry nat flaky_database 5 5000 = mkRun nat (Ok 7%nat) 3 10000.
Proof.
  apply (X18_connect_returns_first_success flaky_database 5 5000 2 7%nat).
  - intros j Hj. exists (Error "ECONNREFUSED").
    destruct j as [|[|j]]; [reflexivity|reflexivity|lia].
  - reflexivity.
  - lia.
Defined.

Lemma X19_connect_gives_up_after_retries_witness :
  (exists e,
      dead_database (Z.to_nat (5 - 1)) = Throw e
      /\ connectWithRetry nat dead_database 5 5000
         = mkRun nat
             (Throw (Error ("Failed to connect to database after " +:+ pretty 5
                            +:+ " attempts: " +:+ err_message e)))
             (Z.to_nat 5) (5 * 5000))
  /\ connectWithRetry nat dead_database 0 5000
     = mkRun nat
         (Throw (Error ("Failed to connect to database after " +:+ pretty 0
                        +:+ " attempts: undefined")))
         0 0.
Proof.
  split.
  - apply (X19_connect_gives_up_after_retries dead_database 5 5000).
    + intros j _. exists (Error "ECONNREFUSED"). reflexivity.
    + lia.
  - apply (X19_connect_gives_up_after_retries dead_database 0 5000).
    + intros j _. exists (Error "ECONNREFUSED"). reflexivity.
    + lia.
Defined.

Lemma X20_text_part_has_no_tag_witness :
  has_tag (strip_tags welcome_html) = false
  /\ strip_tags "2 < 3" = "2 < 3".
Proof.
  destruct X20_text_part_has_no_tag as (Hnone & Hfixed & _).
  split; [apply Hnone|apply Hfixed; reflexivity].
Defined.

Lemma X27_social_login_links_account_with_same_email_witness :
  exists user link w',
    AuthService.socialAuth default_env alice_google T0 locked_world
    = (Ok (User.toResponseObject user, AuthService.generateTokens default_env user T0, false),
       w')
    /\ User.id user = Some "uuid-1"
    /\ User.email user = User.email (lock alice_row)
    /\ User.lastLogin user = Some T0
    /\ length (users w') = length (users locked_world)
    /\ social_accounts w' = (social_accounts locked_world ++ [link])%list
    /\ SocialAccount.provider link = social_provider alice_google
    /\ SocialAccount.providerId link = profile_id alice_profile
    /\ SocialAccount.userId link = "uuid-1"
    /\ SocialAccount.accessToken link = Some (social_token alice_google)
    /\ verification_tokens w' = verification_tokens locked_world
    /\ password_resets w' = password_resets locked_world
    /\ outbox w' = outbox locked_world.
Proof.
  apply (X27_social_login_links_account_with_same_email default_env alice_google
           alice_profile T0 locked_world (lock alice_row) "uuid-1"); reflexivity.
Defined.

Lemma X28_first_social_login_creates_verified_user_witness :
  (exists user link w',
     AuthService.socialAuth default_env alice_google T0 empty_world
     = (Ok (User.toResponseObject user, AuthService.generateTokens default_env user T0, true),
        w')
     /\ users w' = (users empty_world ++ [user])%list
     /\ User.id user = Some (SocialAccount.userId link)
     /\ User.email user = profile_email alice_profile
     /\ User.username user = social_username alice_profile empty_world
     /\ User.role user = STUDENT
     /\ User.isVerified user = true
     /\ User.isActive user = true
     /\ User.isLocked user = false
     /\ User.lastLogin user = Some T0
     /\ User.password user <> None
     /\ social_accounts w' = (social_accounts empty_world ++ [link])%list
     /\ SocialAccount.provider link = social_provider alice_google
     /\ SocialAccount.providerId link = profile_id alice_profile
     /\ SocialAccount.accessToken link = Some (social_token alice_google)
     /\ verification_tokens w' = verification_tokens empty_world
     /\ password_resets w' = password_resets empty_world
     /\ outbox w' = outbox empty_world)
  /\ social_username alice_profile squatter_world = "alice0"
  /\ (exists w',
        AuthService.socialAuth default_env alice_google T0 squatter_world
        = (Throw duplicate_key, w')
        /\ users w' = users squatter_world
        /\ social_accounts w' = social_accounts squatter_world
        /\ verification_tokens w' = verification_tokens squatter_world
        /\ password_resets w' = password_resets squatter_world
        /\ outbox w' = outbox squatter_world).
Proof.
  split; [|split; [reflexivity|]].
  - apply (X28_first_social_login_creates_verified_user default_env alice_google
             alice_profile T0 empty_world);
      [reflexivity|reflexivity|reflexivity|reflexivity|intros k _; reflexivity].
  - apply (X28_first_social_login_creates_verified_user default_env alice_google
             alice_profile T0 squatter_world); reflexivity.
Defined.

Lemma X29_second_social_login_reuses_the_link_witness :
  exists user1 w1 user2 w2,
    AuthService.socialAuth default_env alice_google T0 empty_world
    = (Ok (User.toResponseObject user1, AuthService.generateTokens default_env user1 T0, true),
       w1)
    /\ AuthService.socialAuth default_env alice_google (T0 + 5) w1
       = (Ok (User.toResponseObject user2,
              AuthService.generateTokens default_env user2 (T0 + 5), false), w2)
    /\ User.id user2 = User.id user1
    /\ User.lastLogin user2 = Some (T0 + 5)
    /\ length (users w2) = length (users w1)
    /\ social_accounts w2 = social_accounts w1.
Proof.
  apply (X29_second_social_login_reuses_the_link default_env alice_google alice_profile
           T0 (T0 + 5) empty_world);
    [reflexivity|reflexivity|reflexivity|reflexivity|intros k _; reflexivity].
Defined.
End ServerExamples.

Section BrowserExamples.
Import Client Session Samples Scenarios.

Lemma tidy_session : tidy session.
Proof. apply tidy_store, tidy_fresh. Qed.

Lemma X21_storage_and_timer_stay_in_step_witness :
  tidy (run session (five_requests ++ five_rejections ++ refresh_replies))
  /\ (ls_refreshToken (run session (five_requests ++ five_rejections ++ refresh_replies))
      = None ->
      forall t,
        timers (run session (five_requests ++ five_rejections ++ refresh_replies)) !! t
        = None).
Proof.
  destruct (X21_storage_and_timer_stay_in_step
              (five_requests ++ five_rejections ++ refresh_replies))
    as (Hrun & _ & Hlogin & Hfacts).
  assert (H : tidy (run session (five_requests ++ five_rejections ++ refresh_replies)))
    by (apply Hrun, Hlogin).
  split; [exact H|]. apply (Hfacts _ H).
Defined.


Lemma X23_refresh_is_retried_on_every_401_witness :
  refresh_calls (keep_answering_401 3 old_pair T1 pending_session)
  = (refresh_calls pending_session + 3)%nat
  /\ length (sent (keep_answering_401 3 old_pair T1 pending_session))
     = (length (sent pending_session) + 3)%nat
  /\ same_session pending_session (keep_answering_401 3 old_pair T1 pending_session)
  /\ settled (keep_answering_401 3 old_pair T1 pending_session) = settled pending_session
  /\ dispatched (keep_answering_401 3 old_pair T1 pending_session)
     = dispatched pending_session.
Proof.
  apply (X23_refresh_is_retried_on_every_401 3 old_pair T1 pending_session
           (mkRequestConfig "/courses" OtherData (Some "Bearer access-0") false)
           [Caller 4] "refresh-0"); reflexivity.
Defined.


Lemma X25_refresh_timer_precedes_expiry_witness :
  (exists delay,
     timers (setupTokenRefresh (expiresIn old_pair) (setTokens old_pair T0 fresh))
       !! next_timer fresh = Some (Finite delay)
     /\ refreshTimeoutId (setupTokenRefresh (expiresIn old_pair) (setTokens old_pair T0 fresh))
        = Some (next_timer fresh)
     /\ (forall t d,
           timers (setupTokenRefresh (expiresIn old_pair) (setTokens old_pair T0 fresh)) !! t
           = Some d -> t = next_timer fresh)
     /\ ls_tokenExpiry (setupTokenRefresh (expiresIn old_pair) (setTokens old_pair T0 fresh))
        = Some (T0 + expiresIn old_pair * 1000)
     /\ 0 <= delay
     /\ delay mod 1000 = 0
     /\ 750 * expiresIn old_pair - 1000 < delay <= 750 * expiresIn old_pair
     /\ (0 < expiresIn old_pair -> T0 + delay < T0 + expiresIn old_pair * 1000)
     /\ (expiresIn old_pair <= 1 -> delay = 0))
  /\ refreshTime 3600 = Finite 2700000
  /\ refreshTime (2 ^ 53 - 1) = Finite 6755399441055742976.
Proof.
  split; [|split; reflexivity].
  apply (X25_refresh_timer_precedes_expiry fresh old_pair T0).
  - exact tidy_fresh.
  - vm_compute. discriminate.
  - vm_compute. discriminate.
  - vm_compute. reflexivity.
Defined.

Lemma X26_logout_witness :
  signed_out (logout_settled session)
  /\ sent (logout 9 session)
     = [mkRequestConfig LOGOUT OtherData (Some "Bearer access-0") false]
  /\ step (logout_settled session) (TimerFires 0) = logout_settled session
  /\ ls_accessToken (step (logout_settled timer_session)
                          (Response 0 (mkReply (Some 200) (new_pair 0)) (T1 + 10)))
     = Some "access-1".
Proof.
  destruct (X26_logout session 9 tidy_session) as (_ & Hsent & Hout & _ & Htimer & _).
  destruct (X26_logout timer_session 9 (tidy_step session (TimerFires 0) tidy_session))
    as (_ & _ & _ & _ & _ & Hlate).
  split; [exact Hout|].
  split; [exact (proj1 (Hsent "access-0" eq_refl))|].
  split; [apply Htimer|].
  apply (Hlate 0%nat timer_refresh [InTimer] (new_pair 0) (T1 + 10)). reflexivity.
Defined.
End BrowserExamples.
